(** * Subscription analytics of montana-bot: extractor, reconciler, aggregator

    A shallow embedding of the three Python scripts that rebuild subscription
    events from a Telegram chat export:

    - [analyze_subscriptions.py]       (module [Analyze]),
    - [scripts/reimport_with_cancellations.py] (module [Reimport]),
    - [scripts/import_telegram_export.py]      (module [ImportExport]),

    together with the Python built-ins they rely on (module [Py]).

    Conventions.  A Python [str] is a [string] holding its UTF-8 bytes:
    prefix, substring and replacement on the bytes coincide with the same
    operations on code points, and the byte-wise lexicographic order is the
    code-point order Python compares strings with.  A Python [float] is a
    [spec_float] of the binary64 format.  A [dict] is an association list in
    insertion order, as CPython iterates it. *)

From Stdlib Require Import ZArith List String Ascii Bool Lia.
From Stdlib Require Import Floats.SpecFloat.
From Stdlib Require Floats.PrimFloat Floats.FloatOps.
From Stdlib Require Import Sorting.Sorted Sorting.Permutation.
From Stdlib Require Import Structures.OrderedTypeEx.
Import ListNotations.

Open Scope string_scope.
Open Scope list_scope.

(* ================================================================== *)
(** * Python built-ins *)
(* ================================================================== *)

Module Py.

(** ** Strings *)

(** [sub in s] *)
Fixpoint contains (sub s : string) : bool :=
  String.prefix sub s ||
  match s with
  | EmptyString => false
  | String _ s' => contains sub s'
  end.

(** [s.startswith(p)] *)
Definition startswith (s p : string) : bool := String.prefix p s.

(** [s.replace(old, new)] for a non-empty [old]: occurrences are replaced
    from the left and do not overlap.  [skip] counts the bytes of a matched
    occurrence that are still to be dropped. *)
Fixpoint replace_from (old new : string) (skip : nat) (s : string) : string :=
  match s with
  | EmptyString => EmptyString
  | String c s' =>
      match skip with
      | S k => replace_from old new k s'
      | O =>
          if String.prefix old s
          then new ++ replace_from old new (String.length old - 1) s'
          else String c (replace_from old new 0 s')
      end
  end.

Definition replace (s old new : string) : string := replace_from old new 0 s.

Definition byte_in (lo hi : N) (c : ascii) : bool :=
  (N.leb lo (N_of_ascii c) && N.leb (N_of_ascii c) hi)%bool.

Definition byte_is (n : N) (c : ascii) : bool := N.eqb (N_of_ascii c) n.

(** A white-space character beyond ASCII at the head of [s], in its UTF-8
    encoding: U+0085, U+00A0, U+1680, U+2000..200A, U+2028, U+2029, U+202F,
    U+205F, U+3000.  Returns what follows that character. *)
Definition wide_space_prefix (s : string) : option string :=
  match s with
  | EmptyString => None
  | String c r =>
      if byte_is 194 c then
        match r with
        | String d r' => if byte_is 133 d || byte_is 160 d then Some r' else None
        | _ => None
        end
      else if byte_is 225 c then
        match r with
        | String d (String e r') =>
            if byte_is 154 d && byte_is 128 e then Some r' else None
        | _ => None
        end
      else if byte_is 226 c then
        match r with
        | String d (String e r') =>
            if byte_is 128 d &&
               (byte_in 128 138 e || byte_is 168 e || byte_is 169 e || byte_is 175 e)
            then Some r'
            else if byte_is 129 d && byte_is 159 e then Some r'
            else None
        | _ => None
        end
      else if byte_is 227 c then
        match r with
        | String d (String e r') =>
            if byte_is 128 d && byte_is 128 e then Some r' else None
        | _ => None
        end
      else None
  end.

(** One white-space character at the head of [s] in the sense of
    [str.isspace]: U+0009..000D, U+001C..0020, or one beyond ASCII. *)
Definition space_prefix (s : string) : option string :=
  match s with
  | EmptyString => None
  | String c r =>
      if byte_in 9 13 c || byte_in 28 32 c then Some r else wide_space_prefix s
  end.

(** The white space that [float] skips around a number: U+0009..000D and
    U+0020, or one beyond ASCII; the separators U+001C..001F are not
    skipped. *)
Definition float_space_prefix (s : string) : option string :=
  match s with
  | EmptyString => None
  | String c r =>
      if byte_in 9 13 c || byte_is 32 c then Some r else wide_space_prefix s
  end.

Section Strip.
Variable space : string -> option string.

Fixpoint lstrip_fuel (n : nat) (s : string) : string :=
  match n with
  | O => s
  | S n' =>
      match space s with
      | Some r => lstrip_fuel n' r
      | None => s
      end
  end.

(** The longest prefix made of white space is dropped. *)
Definition lstrip_with (s : string) : string := lstrip_fuel (String.length s) s.

Fixpoint all_space_fuel (n : nat) (s : string) : bool :=
  match s with
  | EmptyString => true
  | _ =>
      match n with
      | O => false
      | S n' =>
          match space s with
          | Some r => all_space_fuel n' r
          | None => false
          end
      end
  end.

Definition all_space (s : string) : bool := all_space_fuel (String.length s) s.

(** The longest suffix made of white space is dropped. *)
Fixpoint rstrip_with (s : string) : string :=
  match s with
  | EmptyString => EmptyString
  | String c r => if all_space s then EmptyString else String c (rstrip_with r)
  end.

Definition strip_with (s : string) : string := rstrip_with (lstrip_with s).

End Strip.

(** [s.strip()] *)
Definition strip (s : string) : string := strip_with space_prefix s.

(** Truth value of a [str]. *)
Definition truthy_str (s : string) : bool :=
  match s with EmptyString => false | _ => true end.

(** Truth value of an optional [str] ([None] is false). *)
Definition truthy_ostr (o : option string) : bool :=
  match o with Some s => truthy_str s | None => false end.

(** ** Integers as text *)

Definition digit_char (d : nat) : ascii := ascii_of_nat (48 + d).

Fixpoint pos_digits_fuel (n : nat) (p : Z) (acc : string) : string :=
  match n with
  | O => acc
  | S n' =>
      let acc' := String (digit_char (Z.to_nat (p mod 10))) acc in
      if Z.ltb p 10 then acc' else pos_digits_fuel n' (p / 10) acc'
  end.

(** [str(z)] of an [int]. *)
Definition str_of_int (z : Z) : string :=
  match z with
  | Z0 => "0"
  | Zpos _ => pos_digits_fuel (S (Z.to_nat (Z.log2 z))) z ""
  | Zneg _ => "-" ++ pos_digits_fuel (S (Z.to_nat (Z.log2 (- z)))) (- z) ""
  end.

(** ** Floats *)

Local Open Scope Z_scope.

(** Python's [float] is IEEE 754 binary64. *)
Definition float := spec_float.
Definition prec : Z := 53.
Definition emax : Z := 1024.

(** [float(n)] of an [int], correctly rounded. *)
Definition float_of_int (n : Z) : float := binary_normalize prec emax n 0 false.

(** [x == y] on floats (NaN equals nothing, the two zeros are equal). *)
Definition float_eqb (x y : float) : bool := SFeqb x y.

(** Truth value of a float: everything except the two zeros. *)
Definition truthy_float (x : float) : bool :=
  match x with S754_zero _ => false | _ => true end.

(** Truth value of [None]-or-float, the result type of [extract_amount]. *)
Definition truthy_ofloat (o : option float) : bool :=
  match o with Some x => truthy_float x | None => false end.

(** [a / b] on floats and [a * b] on floats. *)
Definition float_div (a b : float) : float := SFdiv prec emax a b.
Definition float_mul (a b : float) : float := SFmul prec emax a b.

(** The float nearest to [(-1)^neg * m * 10^e] (ties to even), [m >= 0].
    For a negative exponent the quotient is taken with at least two guard
    bits and a sticky bit, so that the final rounding is the rounding of the
    exact value. *)
Definition float_of_decimal (neg : bool) (m e : Z) : float :=
  if Z.eqb m 0 then S754_zero neg
  else if Z.leb 0 e then
    binary_normalize prec emax (cond_Zopp neg (m * 10 ^ e)) 0 false
  else
    let d := 10 ^ (- e) in
    let s := Z.max 0 (Z.log2 d - Z.log2 m + 56) in
    let n := m * 2 ^ s in
    let sticky := if Z.eqb (n mod d) 0 then 0 else 1 in
    binary_normalize prec emax (cond_Zopp neg (2 * (n / d) + sticky)) (- s - 1) false.

Definition is_digit (c : ascii) : bool := byte_in 48 57 c.
Definition digit_val (c : ascii) : Z := Z.of_N (N_of_ascii c) - 48.

(** The rest of a [digitpart] after its first digit: digits, each possibly
    preceded by a single underscore.  Returns the digits read and the
    unread text. *)
Fixpoint digits_tail (s : string) : list Z * string :=
  match s with
  | EmptyString => ([], s)
  | String c r =>
      if is_digit c then
        let (ds, rest) := digits_tail r in (digit_val c :: ds, rest)
      else if byte_is 95 c then
        match r with
        | String c' r' =>
            if is_digit c' then
              let (ds, rest) := digits_tail r' in (digit_val c' :: ds, rest)
            else ([], s)
        | EmptyString => ([], s)
        end
      else ([], s)
  end.

(** [digitpart ::= digit (["_"] digit)*], or nothing when [s] does not start
    with a digit. *)
Definition digitpart (s : string) : list Z * string :=
  match s with
  | String c r =>
      if is_digit c then
        let (ds, rest) := digits_tail r in (digit_val c :: ds, rest)
      else ([], s)
  | EmptyString => ([], s)
  end.

Definition digits_value (ds : list Z) : Z :=
  fold_left (fun acc d => 10 * acc + d) ds 0.

(** An optional sign: [true] for "-". *)
Definition sign_prefix (s : string) : bool * string :=
  match s with
  | String c r =>
      if byte_is 45 c then (true, r)
      else if byte_is 43 c then (false, r)
      else (false, s)
  | EmptyString => (false, s)
  end.

Definition lower_char (c : ascii) : ascii :=
  if byte_in 65 90 c then ascii_of_N (N_of_ascii c + 32) else c.

Fixpoint lower (s : string) : string :=
  match s with
  | EmptyString => EmptyString
  | String c r => String (lower_char c) (lower r)
  end.

(** [exponent ::= ("e" | "E") [sign] digitpart], to the end of the text.
    [Some 0] when there is no exponent, [None] when it is malformed. *)
Definition exponent (s : string) : option Z :=
  match s with
  | EmptyString => Some 0
  | String c r =>
      if byte_is 101 c || byte_is 69 c then
        let (neg, r1) := sign_prefix r in
        match digitpart r1 with
        | ((_ :: _) as ds, EmptyString) => Some (cond_Zopp neg (digits_value ds))
        | _ => None
        end
      else None
  end.

(** [floatnumber ::= ([digitpart] "." digitpart | digitpart ["."]) [exponent]]
    as mantissa and decimal exponent. *)
Definition floatnumber (s : string) : option (Z * Z) :=
  let (ip, r1) := digitpart s in
  let (fp, r2) :=
    match r1 with
    | String c r => if byte_is 46 c then digitpart r else ([], r1)
    | EmptyString => ([], r1)
    end in
  match ip ++ fp with
  | [] => None
  | ds =>
      match exponent r2 with
      | Some e => Some (digits_value ds, e - Z.of_nat (List.length fp))
      | None => None
      end
  end.

(** [float(s)] for a [str]; [None] stands for [ValueError].  The text is
    stripped of the white space [float] skips; then comes an optional sign and
    either "inf", "infinity" or "nan" in any letter case, or a decimal
    [floatnumber].  The grammar is the one of the language reference on
    ASCII text; digits of other scripts, which the built-in also accepts,
    are not in this model and count as malformed. *)
Definition float_of_str (s : string) : option float :=
  let (neg, r) := sign_prefix (strip_with float_space_prefix s) in
  let l := lower r in
  if String.eqb l "inf" || String.eqb l "infinity" then Some (S754_infinity neg)
  else if String.eqb l "nan" then Some S754_nan
  else
    match floatnumber r with
    | Some (m, e) => Some (float_of_decimal neg m e)
    | None => None
    end.

(** ** Exceptions *)

Inductive exn := ValueError | KeyError | IndexError | ZeroDivisionError.

Inductive result (A : Type) :=
| Ok (a : A)
| Raise (e : exn).
Arguments Ok {A} a.
Arguments Raise {A} e.

Definition bind {A B : Type} (r : result A) (k : A -> result B) : result B :=
  match r with
  | Ok a => k a
  | Raise e => Raise e
  end.

(** [a / b] on two [int]s (true division).  Both operands are counts here,
    far below 2^53, where the quotient is the float quotient of the two
    converted operands. *)
Definition int_truediv (a b : Z) : result float :=
  if Z.eqb b 0 then Raise ZeroDivisionError
  else Ok (float_div (float_of_int a) (float_of_int b)).

Local Close Scope Z_scope.

(** ** Dictionaries, in insertion order *)

Section Dict.
Context {K V : Type}.
Variable keq : K -> K -> bool.

(** [d.get(k)], [None] when absent: the first entry whose key equals [k]. *)
Fixpoint dict_get (k : K) (d : list (K * V)) : option V :=
  match d with
  | [] => None
  | (k', v) :: r => if keq k' k then Some v else dict_get k r
  end.

(** [k in d] *)
Definition dict_mem (k : K) (d : list (K * V)) : bool :=
  match dict_get k d with Some _ => true | None => false end.

(** [d[k] = v]: an existing entry keeps its place and its key object and
    takes the new value; a new key goes to the end. *)
Fixpoint dict_set (k : K) (v : V) (d : list (K * V)) : list (K * V) :=
  match d with
  | [] => [(k, v)]
  | (k', v') :: r => if keq k' k then (k', v) :: r else (k', v') :: dict_set k v r
  end.

(** [d[k] = f(d[k])] on a [defaultdict] whose factory yields [dflt]. *)
Fixpoint dict_update (dflt : V) (k : K) (f : V -> V) (d : list (K * V)) : list (K * V) :=
  match d with
  | [] => [(k, f dflt)]
  | (k', v') :: r =>
      if keq k' k then (k', f v') :: r else (k', v') :: dict_update dflt k f r
  end.

End Dict.

(** Removal of the entry at position [i]; [KeyError] past the end. *)
Fixpoint del_at {A : Type} (i : nat) (l : list A) : result (list A) :=
  match l, i with
  | [], _ => Raise KeyError
  | _ :: r, O => Ok r
  | x :: r, S j => bind (del_at j r) (fun r' => Ok (x :: r'))
  end.

(** ** [max] and [sort] with a string-valued key *)

Section Keyed.
Context {A : Type}.
Variable key : A -> string.

(** The scan of [max(l, key=key)]: the current maximum is replaced only by
    an item whose key is strictly greater, so the first of several maximal
    items is the result.  The position of the result is returned with it. *)
Fixpoint max_from (bi : nat) (best : A) (i : nat) (l : list A) : nat * A :=
  match l with
  | [] => (bi, best)
  | x :: r =>
      if String.ltb (key best) (key x)
      then max_from i x (S i) r
      else max_from bi best (S i) r
  end.

(** [max(l, key=key)]; [ValueError] on an empty sequence. *)
Definition max_by (l : list A) : result (nat * A) :=
  match l with
  | [] => Raise ValueError
  | x :: r => Ok (max_from 0 x 1 r)
  end.

(** Insertion of [x] before the first item that is not strictly smaller. *)
Fixpoint insert_by (x : A) (l : list A) : list A :=
  match l with
  | [] => [x]
  | y :: r =>
      if String.ltb (key y) (key x) then y :: insert_by x r else x :: y :: r
  end.

(** [l.sort(key=key)]: ascending and stable.  Items are inserted from the
    last to the first, each before the items of equal key that follow it in
    [l]; this is the one stable ascending arrangement, whatever the sorting
    algorithm. *)
Fixpoint sort_by (l : list A) : list A :=
  match l with
  | [] => []
  | x :: r => insert_by x (sort_by r)
  end.

End Keyed.

(** ** Lists of integers *)

(** Insertion into an ascending list of naturals. *)
Fixpoint insert_nat (x : nat) (l : list nat) : list nat :=
  match l with
  | [] => [x]
  | y :: r => if Nat.leb x y then x :: y :: r else y :: insert_nat x r
  end.

(** [sorted(l)] on integers. *)
Fixpoint sorted (l : list nat) : list nat :=
  match l with
  | [] => []
  | x :: r => insert_nat x (sorted r)
  end.

(** [min(l)] and [max(l)]; [ValueError] on an empty list. *)
Definition list_min (l : list nat) : result nat :=
  match l with
  | [] => Raise ValueError
  | x :: r => Ok (fold_left Nat.min r x)
  end.

Definition list_max (l : list nat) : result nat :=
  match l with
  | [] => Raise ValueError
  | x :: r => Ok (fold_left Nat.max r x)
  end.

(** [l[i]] *)
Definition index {A : Type} (l : list A) (i : nat) : result A :=
  match nth_error l i with
  | Some x => Ok x
  | None => Raise IndexError
  end.

(** [sum(l)] *)
Definition sum (l : list nat) : nat := fold_left Nat.add l 0.

(** [sum(1 for r in l if p(r))] *)
Definition count_if (p : nat -> bool) (l : list nat) : nat :=
  List.length (filter p l).

(** A [set] of strings: only membership and size are observed. *)
Fixpoint set_add (x : string) (s : list string) : list string :=
  match s with
  | [] => [x]
  | y :: r => if String.eqb y x then s else y :: set_add x r
  end.

End Py.

(* ================================================================== *)
(** * The chat export and the extractor *)
(* ================================================================== *)

(** The part of a message of the export that the scripts read.  A key that
    is absent from the JSON object is [None]. *)

(** An item of a segmented text: a plain string or a styled run, an object
    with an optional ['text']. *)
Inductive text_item :=
| ItemStr (s : string)
| ItemDict (text : option string).

(** The ['text'] of a message: a string or a list of items. *)
Inductive text_field :=
| TextStr (s : string)
| TextList (items : list text_item).

Record entity := {
  ent_type : option string;
  ent_text : option string;
  ent_user_id : option Z
}.

Record message := {
  msg_text : option text_field;
  msg_text_entities : list entity;
  msg_date : option string
}.

Definition created_phrase : string := "оформил подписку".
Definition renewed_phrase : string := "продлил подписку".
Definition cancel_phrase : string := "отменил".
Definition subscription_noun : string := "подписку".
Definition sigil : string := "€".

(** [entity.get('type') == t] *)
Definition type_is (e : entity) (t : string) : bool :=
  match ent_type e with
  | Some t' => String.eqb t' t
  | None => false
  end.

(** [entity.get('text', '')] *)
Definition text_of (e : entity) : string :=
  match ent_text e with
  | Some t => t
  | None => ""
  end.

(** The text of one item of a segmented text. *)
Definition item_text (i : text_item) : string :=
  match i with
  | ItemStr s => s
  | ItemDict (Some t) => t
  | ItemDict None => ""
  end.

(** [extract_text], the same in [reimport_with_cancellations.py] and
    [import_telegram_export.py]; the loop at the head of
    [analyze_subscriptions] builds the same string. *)
Definition extract_text (m : message) : string :=
  match msg_text m with
  | None => ""
  | Some (TextStr s) => s
  | Some (TextList items) => String.concat "" (map item_text items)
  end.

(** [extract_user_id], the same in the three scripts: the loop over the
    entities returns at a mention, returns at a [mention_name] whose
    [user_id] is true, and goes on otherwise. *)
Fixpoint extract_user_id_from (entities : list entity) : option string :=
  match entities with
  | [] => None
  | e :: r =>
      if type_is e "mention" then Some (Py.strip (text_of e))
      else if type_is e "mention_name" then
        match ent_user_id e with
        | Some uid =>
            if Z.eqb uid 0 then extract_user_id_from r
            else Some ("user_" ++ Py.str_of_int uid)%string
        | None => extract_user_id_from r
        end
      else extract_user_id_from r
  end.

Definition extract_user_id (m : message) : option string :=
  extract_user_id_from (msg_text_entities m).

(** [extract_amount], the same in the three scripts: a bold entity whose
    text starts with the sigil is parsed; on [ValueError] the handler
    passes and the loop goes on to the next entity. *)
Fixpoint extract_amount_from (entities : list entity) : option Py.float :=
  match entities with
  | [] => None
  | e :: r =>
      if type_is e "bold" then
        let text := text_of e in
        if Py.startswith text sigil then
          match Py.float_of_str (Py.replace (Py.replace text sigil "") "," ".") with
          | Some x => Some x
          | None => extract_amount_from r
          end
        else extract_amount_from r
      else extract_amount_from r
  end.

Definition extract_amount (m : message) : option Py.float :=
  extract_amount_from (msg_text_entities m).

(** The [username] loop of the two import scripts: the text of the first
    mention, without any "@". *)
Fixpoint username_from (entities : list entity) : option string :=
  match entities with
  | [] => None
  | e :: r =>
      if type_is e "mention" then Some (Py.replace (text_of e) "@" "")
      else username_from r
  end.

Inductive event_type :=
| subscription_created
| subscription_renewed
| subscription_cancelled.

Definition event_type_eqb (a b : event_type) : bool :=
  match a, b with
  | subscription_created, subscription_created => true
  | subscription_renewed, subscription_renewed => true
  | subscription_cancelled, subscription_cancelled => true
  | _, _ => false
  end.

(** A row handed to [INSERT INTO subscription_events]. *)
Record db_row := {
  row_user_id : string;
  row_username : option string;
  row_amount : option Py.float;
  row_event_type : event_type;
  row_event_date : string
}.

(* ================================================================== *)
(** * [scripts/reimport_with_cancellations.py] *)
(* ================================================================== *)

Module Reimport.

(** The event dictionaries of the first pass. *)
Record event := {
  date : string;
  amount : option Py.float;
  ev_type : event_type;
  username : option string
}.

(** [user_subscriptions[user_id].append(e)] on the [defaultdict(list)]. *)
Definition append_event (user_id : string) (e : event)
    (user_subscriptions : list (string * list event)) : list (string * list event) :=
  Py.dict_update String.eqb [] user_id (fun l => l ++ [e]) user_subscriptions.

(** One round of the first loop of [main]. *)
Definition collect (user_subscriptions : list (string * list event)) (m : message)
    : list (string * list event) :=
  let text := extract_text m in
  let user_id := extract_user_id m in
  let date := msg_date m in
  match user_id, date with
  | Some uid, Some d =>
      if negb (Py.truthy_str uid) || negb (Py.truthy_str d) then user_subscriptions
      else
        let username := username_from (msg_text_entities m) in
        if Py.contains created_phrase text then
          let amount := extract_amount m in
          if Py.truthy_ofloat amount then
            append_event uid
              {| date := d; amount := amount;
                 ev_type := subscription_created; username := username |}
              user_subscriptions
          else user_subscriptions
        else if Py.contains renewed_phrase text then
          let amount := extract_amount m in
          if Py.truthy_ofloat amount then
            append_event uid
              {| date := d; amount := amount;
                 ev_type := subscription_renewed; username := username |}
              user_subscriptions
          else user_subscriptions
        else if Py.contains cancel_phrase text && Py.contains subscription_noun text then
          append_event uid
            {| date := d; amount := None;
               ev_type := subscription_cancelled; username := username |}
            user_subscriptions
        else user_subscriptions
  | _, _ => user_subscriptions
  end.

Definition first_pass (messages : list message) : list (string * list event) :=
  fold_left collect messages [].

(** The table written through [cursor] and the three counters. *)
Record state := {
  cursor : list db_row;
  imported : nat;
  cancellations_matched : nat;
  cancellations_unmatched : nat
}.

Definition initial : state :=
  {| cursor := []; imported := 0;
     cancellations_matched := 0; cancellations_unmatched := 0 |}.

(** [cursor.execute(INSERT ...)] followed by [imported += 1]. *)
Definition insert (r : db_row) (st : state) : state :=
  {| cursor := cursor st ++ [r];
     imported := S (imported st);
     cancellations_matched := cancellations_matched st;
     cancellations_unmatched := cancellations_unmatched st |}.

Definition count_matched (st : state) : state :=
  {| cursor := cursor st;
     imported := imported st;
     cancellations_matched := S (cancellations_matched st);
     cancellations_unmatched := cancellations_unmatched st |}.

Definition count_unmatched (st : state) : state :=
  {| cursor := cursor st;
     imported := imported st;
     cancellations_matched := cancellations_matched st;
     cancellations_unmatched := S (cancellations_unmatched st) |}.

(** Equality of the keys of [active_amounts]: amounts, or [None]. *)
Definition key_eqb (a b : option Py.float) : bool :=
  match a, b with
  | None, None => true
  | Some x, Some y => Py.float_eqb x y
  | _, _ => false
  end.

(** [active_amounts]: amount to date of the last "created" event. *)
Definition open_tiers := list (option Py.float * string).

Definition row_of (user_id : string) (e : event) (a : option Py.float) : db_row :=
  {| row_user_id := user_id; row_username := username e; row_amount := a;
     row_event_type := ev_type e; row_event_date := date e |}.

(** One round of the loop over the sorted events of a user.  In the
    cancellation branch [last_amount] is the key object of the entry that
    [max] returned, and no other key of the dictionary equals it, so
    [del active_amounts[last_amount]] removes the entry at that position. *)
Definition step (user_id : string) (sa : state * open_tiers) (e : event)
    : Py.result (state * open_tiers) :=
  let (st, active_amounts) := sa in
  match ev_type e with
  | subscription_created =>
      let active_amounts' := Py.dict_set key_eqb (amount e) (date e) active_amounts in
      Py.Ok (insert (row_of user_id e (amount e)) st, active_amounts')
  | subscription_renewed =>
      Py.Ok (insert (row_of user_id e (amount e)) st, active_amounts)
  | subscription_cancelled =>
      match active_amounts with
      | _ :: _ =>
          Py.bind (Py.max_by snd active_amounts) (fun found =>
            let (i, item) := found in
            let last_amount := fst item in
            let st' := count_matched (insert (row_of user_id e last_amount) st) in
            Py.bind (Py.del_at i active_amounts) (fun active_amounts' =>
              Py.Ok (st', active_amounts')))
      | [] => Py.Ok (count_unmatched st, active_amounts)
      end
  end.

Fixpoint run (user_id : string) (events : list event) (sa : state * open_tiers)
    : Py.result (state * open_tiers) :=
  match events with
  | [] => Py.Ok sa
  | e :: r => Py.bind (step user_id sa e) (run user_id r)
  end.

(** The body of the loop over [user_subscriptions.items()]: the events are
    sorted by date and replayed on a fresh [active_amounts].  The open tiers
    left at the end are returned as well, for inspection. *)
Definition reconcile_user (user_id : string) (events : list event) (st : state)
    : Py.result (state * open_tiers) :=
  run user_id (Py.sort_by date events) (st, []).

Fixpoint second_pass (users : list (string * list event)) (st : state)
    : Py.result state :=
  match users with
  | [] => Py.Ok st
  | (user_id, events) :: r =>
      Py.bind (reconcile_user user_id events st) (fun sa => second_pass r (fst sa))
  end.

(** [main], from the loaded messages to the table and the counters. *)
Definition main (messages : list message) : Py.result state :=
  second_pass (first_pass messages) initial.

End Reimport.

(* ================================================================== *)
(** * [scripts/import_telegram_export.py] *)
(* ================================================================== *)

Module ImportExport.

(** One round of the loop of [import_data]: the row submitted to the
    database, or nothing when the message is passed over. *)
Definition import_message (m : message) : option db_row :=
  let text := extract_text m in
  let user_id := extract_user_id m in
  let amount := extract_amount m in
  let date := msg_date m in
  if negb (Py.truthy_ostr user_id) || negb (Py.truthy_ofloat amount)
     || negb (Py.truthy_ostr date)
  then None
  else
    let event_type :=
      if Py.contains created_phrase text then Some subscription_created
      else if Py.contains renewed_phrase text then Some subscription_renewed
      else if Py.contains cancel_phrase text && Py.contains subscription_noun text
      then Some subscription_cancelled
      else None in
    match event_type, user_id, date with
    | Some t, Some uid, Some d =>
        Some {| row_user_id := uid;
                row_username := username_from (msg_text_entities m);
                row_amount := amount; row_event_type := t; row_event_date := d |}
    | _, _, _ => None
    end.

(** The rows [import_data] submits for the loaded messages, in order. *)
Definition import_data (messages : list message) : list db_row :=
  flat_map (fun m => match import_message m with Some r => [r] | None => [] end)
           messages.

End ImportExport.

(* ================================================================== *)
(** * [analyze_subscriptions.py] *)
(* ================================================================== *)

Module Analyze.

(** The innermost dictionary of [user_data]. *)
Record user_info := {
  subscriptions : list string;
  renewals : list string;
  cancelled : option string
}.

Definition new_info : user_info :=
  {| subscriptions := []; renewals := []; cancelled := None |}.

(** [user_data[user_id]]: the entries keyed by an amount, and the entry
    under the string key ['_cancelled'] when there is one. *)
Record amounts_data := {
  tiers : list (Py.float * user_info);
  cancelled_mark : option string
}.

Definition new_amounts_data : amounts_data :=
  {| tiers := []; cancelled_mark := None |}.

Record scan_state := {
  user_data : list (string * amounts_data);
  subscriptions_count : nat;
  renewals_count : nat;
  cancellations_count : nat
}.

Definition scan_initial : scan_state :=
  {| user_data := []; subscriptions_count := 0;
     renewals_count := 0; cancellations_count := 0 |}.

Definition add_subscription (date : string) (i : user_info) : user_info :=
  {| subscriptions := subscriptions i ++ [date];
     renewals := renewals i; cancelled := cancelled i |}.

Definition add_renewal (date : string) (i : user_info) : user_info :=
  {| subscriptions := subscriptions i;
     renewals := renewals i ++ [date]; cancelled := cancelled i |}.

(** [user_data[user_id][amount] = f(user_data[user_id][amount])], both
    levels created on demand. *)
Definition update_tier (user_id : string) (amount : Py.float)
    (f : user_info -> user_info) (ud : list (string * amounts_data))
    : list (string * amounts_data) :=
  Py.dict_update String.eqb new_amounts_data user_id
    (fun ad => {| tiers := Py.dict_update Py.float_eqb new_info amount f (tiers ad);
                  cancelled_mark := cancelled_mark ad |}) ud.

(** [user_data[user_id]['_cancelled'] = date] *)
Definition mark_cancelled (user_id : string) (date : string)
    (ud : list (string * amounts_data)) : list (string * amounts_data) :=
  Py.dict_update String.eqb new_amounts_data user_id
    (fun ad => {| tiers := tiers ad; cancelled_mark := Some date |}) ud.

(** One round of the loop over the messages. *)
Definition scan (st : scan_state) (m : message) : scan_state :=
  let text := extract_text m in
  match extract_user_id m with
  | None => st
  | Some user_id =>
      if negb (Py.truthy_str user_id) then st
      else
        let date := match msg_date m with Some d => d | None => "" end in
        if Py.contains created_phrase text then
          match extract_amount m with
          | Some amount =>
              if Py.truthy_float amount then
                {| user_data := update_tier user_id amount (add_subscription date) (user_data st);
                   subscriptions_count := S (subscriptions_count st);
                   renewals_count := renewals_count st;
                   cancellations_count := cancellations_count st |}
              else st
          | None => st
          end
        else if Py.contains renewed_phrase text then
          match extract_amount m with
          | Some amount =>
              if Py.truthy_float amount then
                {| user_data := update_tier user_id amount (add_renewal date) (user_data st);
                   subscriptions_count := subscriptions_count st;
                   renewals_count := S (renewals_count st);
                   cancellations_count := cancellations_count st |}
              else st
          | None => st
          end
        else if Py.contains cancel_phrase text && Py.contains subscription_noun text then
          {| user_data := mark_cancelled user_id date (user_data st);
             subscriptions_count := subscriptions_count st;
             renewals_count := renewals_count st;
             cancellations_count := S (cancellations_count st) |}
        else st
  end.

Definition scan_all (messages : list message) : scan_state :=
  fold_left scan messages scan_initial.

(** [amounts = [1.0, 3.0, 5.0, 9.0]] *)
Definition amounts : list Py.float :=
  map Py.float_of_int [1%Z; 3%Z; 5%Z; 9%Z].

(** The sets and the list filled for one amount, and the three that run
    over all amounts. *)
Record tally := {
  users_with_amount : list string;
  users_cancelled : list string;
  renewals_per_user : list nat;
  total_users_all : list string;
  total_cancelled_all : list string;
  total_renewals_all : list nat
}.

(** The accumulators at the head of the round for one amount. *)
Definition fresh (t : tally) : tally :=
  {| users_with_amount := []; users_cancelled := []; renewals_per_user := [];
     total_users_all := total_users_all t;
     total_cancelled_all := total_cancelled_all t;
     total_renewals_all := total_renewals_all t |}.

Definition tally_initial : tally :=
  {| users_with_amount := []; users_cancelled := []; renewals_per_user := [];
     total_users_all := []; total_cancelled_all := []; total_renewals_all := [] |}.

(** One round of the loop over [user_data.items()] for [amount]. *)
Definition visit (amount : Py.float) (t : tally) (entry : string * amounts_data) : tally :=
  let (user_id, amounts_data) := entry in
  if Py.dict_mem Py.float_eqb amount (tiers amounts_data) then
    match Py.dict_get Py.float_eqb amount (tiers amounts_data) with
    | Some user_info =>
        match subscriptions user_info with
        | [] => t
        | _ :: _ =>
            let renewals := List.length (renewals user_info) in
            let counted :=
              {| users_with_amount := Py.set_add user_id (users_with_amount t);
                 users_cancelled := users_cancelled t;
                 renewals_per_user := renewals_per_user t ++ [renewals];
                 total_users_all := Py.set_add user_id (total_users_all t);
                 total_cancelled_all := total_cancelled_all t;
                 total_renewals_all := total_renewals_all t ++ [renewals] |} in
            match cancelled_mark amounts_data with
            | Some _ =>
                {| users_with_amount := users_with_amount counted;
                   users_cancelled := Py.set_add user_id (users_cancelled counted);
                   renewals_per_user := renewals_per_user counted;
                   total_users_all := total_users_all counted;
                   total_cancelled_all := Py.set_add user_id (total_cancelled_all counted);
                   total_renewals_all := total_renewals_all counted |}
            | None => counted
            end
        end
    | None => t
    end
  else t.

Definition tally_amount (amount : Py.float) (ud : list (string * amounts_data))
    (t : tally) : tally :=
  fold_left (visit amount) ud (fresh t).

(** A Python number: the rates are the [int] 0 or a [float]. *)
Inductive pynum :=
| PyInt (z : Z)
| PyFloat (f : Py.float).

Local Open Scope Z_scope.

(** [(a / b) * 100] on two [int]s. *)
Definition percent (a b : Z) : Py.result Py.float :=
  Py.bind (Py.int_truediv a b) (fun q => Py.Ok (Py.float_mul q (Py.float_of_int 100))).

(** The rates as computed for one amount and again for the overall figures:
    [churn_rate], [retention_rate], [avg_renewals]. *)
Definition rates (total_users total_cancelled : Z) (renewals_per_user : list nat)
    : Py.result (pynum * pynum * pynum) :=
  if 0 <? total_users then
    Py.bind (percent total_cancelled total_users) (fun churn_rate =>
    Py.bind (percent (total_users - total_cancelled) total_users) (fun retention_rate =>
    Py.bind
      (match renewals_per_user with
       | _ :: _ =>
           Py.bind (Py.int_truediv (Z.of_nat (Py.sum renewals_per_user))
                                   (Z.of_nat (List.length renewals_per_user)))
                   (fun q => Py.Ok (PyFloat q))
       | [] => Py.Ok (PyInt 0)
       end) (fun avg_renewals =>
    Py.Ok (PyFloat churn_rate, PyFloat retention_rate, avg_renewals))))
  else Py.Ok (PyInt 0, PyInt 0, PyInt 0).

(** The figures printed under "distribution of renewals". *)
Record distribution := {
  minimum : nat;
  maximum : nat;
  median : nat;
  no_renewals : nat;
  one_renewal : nat;
  multiple_renewals : nat;
  no_renewals_pct : Py.float;
  one_renewal_pct : Py.float;
  multiple_renewals_pct : Py.float
}.

Definition distribute (total_users : Z) (renewals_per_user : list nat)
    : Py.result (option distribution) :=
  match renewals_per_user with
  | [] => Py.Ok None
  | _ :: _ =>
      Py.bind (Py.list_min renewals_per_user) (fun mn =>
      Py.bind (Py.list_max renewals_per_user) (fun mx =>
      Py.bind (Py.index (Py.sorted renewals_per_user)
                        (Nat.div (List.length renewals_per_user) 2)) (fun med =>
      let no_renewals := Py.count_if (fun r => Nat.eqb r 0) renewals_per_user in
      let one_renewal := Py.count_if (fun r => Nat.eqb r 1) renewals_per_user in
      let multiple_renewals := Py.count_if (fun r => Nat.ltb 1 r) renewals_per_user in
      Py.bind (percent (Z.of_nat no_renewals) total_users) (fun p0 =>
      Py.bind (percent (Z.of_nat one_renewal) total_users) (fun p1 =>
      Py.bind (percent (Z.of_nat multiple_renewals) total_users) (fun p2 =>
      Py.Ok (Some {| minimum := mn; maximum := mx; median := med;
                     no_renewals := no_renewals; one_renewal := one_renewal;
                     multiple_renewals := multiple_renewals;
                     no_renewals_pct := p0; one_renewal_pct := p1;
                     multiple_renewals_pct := p2 |})))))))
  end.

(** What is printed for one amount. *)
Record report := {
  total_users : Z;
  active_users : Z;
  total_cancelled : Z;
  churn_rate : pynum;
  retention_rate : pynum;
  avg_renewals : pynum;
  renewal_distribution : option distribution
}.

(** The figures of one amount from its accumulators. *)
Definition report_of (users cancelled_users : list string) (renewals_per_user : list nat)
    : Py.result report :=
  let total_users := Z.of_nat (List.length users) in
  let total_cancelled := Z.of_nat (List.length cancelled_users) in
  let active_users := total_users - total_cancelled in
  Py.bind (rates total_users total_cancelled renewals_per_user) (fun r =>
  let '(churn_rate, retention_rate, avg_renewals) := r in
  Py.bind (distribute total_users renewals_per_user) (fun d =>
  Py.Ok {| total_users := total_users; active_users := active_users;
           total_cancelled := total_cancelled; churn_rate := churn_rate;
           retention_rate := retention_rate; avg_renewals := avg_renewals;
           renewal_distribution := d |})).

(** The body of the loop over [amounts]. *)
Definition analyze_amount (ud : list (string * amounts_data)) (amount : Py.float)
    (t : tally) : Py.result (report * tally) :=
  let t' := tally_amount amount ud t in
  Py.bind (report_of (users_with_amount t') (users_cancelled t') (renewals_per_user t'))
    (fun r => Py.Ok (r, t')).

Fixpoint analyze_amounts (ud : list (string * amounts_data)) (l : list Py.float)
    (t : tally) : Py.result (list report * tally) :=
  match l with
  | [] => Py.Ok ([], t)
  | amount :: r =>
      Py.bind (analyze_amount ud amount t) (fun rt =>
      Py.bind (analyze_amounts ud r (snd rt)) (fun rest =>
      Py.Ok (fst rt :: fst rest, snd rest)))
  end.

(** [analyze_subscriptions] on the loaded messages: the report of each
    amount, then the overall report. *)
Definition analyze_subscriptions (messages : list message)
    : Py.result (list report * report) :=
  let st := scan_all messages in
  Py.bind (analyze_amounts (user_data st) amounts tally_initial) (fun rt =>
  let t := snd rt in
  let total_unique_users := Z.of_nat (List.length (total_users_all t)) in
  let total_unique_cancelled := Z.of_nat (List.length (total_cancelled_all t)) in
  Py.bind (rates total_unique_users total_unique_cancelled (total_renewals_all t)) (fun r =>
  let '(overall_churn, overall_retention, overall_avg_renewals) := r in
  Py.Ok (fst rt,
         {| total_users := total_unique_users;
            active_users := total_unique_users - total_unique_cancelled;
            total_cancelled := total_unique_cancelled;
            churn_rate := overall_churn; retention_rate := overall_retention;
            avg_renewals := overall_avg_renewals;
            renewal_distribution := None |}))).

End Analyze.

(* ================================================================== *)
(** * Vocabulary of the statements *)
(* ================================================================== *)

(** The number of events of type [t] in a list of events. *)
Definition count_events (t : event_type) (l : list Reimport.event) : nat :=
  List.length (filter (fun e => event_type_eqb (Reimport.ev_type e) t) l).

(** The number of rows of type [t] in the table. *)
Definition count_rows (t : event_type) (l : list db_row) : nat :=
  List.length (filter (fun r => event_type_eqb (row_event_type r) t) l).

(** No two keys of the open-tier map are equal. *)
Fixpoint keys_distinct (d : Reimport.open_tiers) : Prop :=
  match d with
  | [] => True
  | (k, _) :: r =>
      (forall k' v', In (k', v') r -> Reimport.key_eqb k k' = false) /\ keys_distinct r
  end.

(** The amount of the tier of [n] euros, as a key or a column value. *)
Definition tier (n : Z) : option Py.float := Some (Py.float_of_int n).

(** The three kinds of event of the first pass. *)
Definition created_at (d : string) (a : option Py.float) (u : option string) : Reimport.event :=
  {| Reimport.date := d; Reimport.amount := a;
     Reimport.ev_type := subscription_created; Reimport.username := u |}.

Definition renewed_at (d : string) (a : option Py.float) (u : option string) : Reimport.event :=
  {| Reimport.date := d; Reimport.amount := a;
     Reimport.ev_type := subscription_renewed; Reimport.username := u |}.

Definition cancelled_at (d : string) (u : option string) : Reimport.event :=
  {| Reimport.date := d; Reimport.amount := None;
     Reimport.ev_type := subscription_cancelled; Reimport.username := u |}.

(** An entity with a type and a text, and no [user_id]. *)
Definition span (type text : string) : entity :=
  {| ent_type := Some type; ent_text := Some text; ent_user_id := None |}.

(** A bold entity whose text starts with the sigil. *)
Definition amount_candidate (e : entity) : bool :=
  type_is e "bold" && Py.startswith (text_of e) sigil.

(** Its text without the sigil and with decimal points for commas. *)
Definition amount_text (e : entity) : string :=
  Py.replace (Py.replace (text_of e) sigil "") "," ".".

(** The amount an entity stands for: it is a candidate and its text
    parses. *)
Definition parsed_amount (e : entity) : option Py.float :=
  if amount_candidate e then Py.float_of_str (amount_text e) else None.

Definition has_parsed_amount (e : entity) : bool :=
  match parsed_amount e with Some _ => true | None => false end.

(** The rule of claim C7, in its words: the first candidate decides, and
    when it does not parse there is no amount. *)
Definition amount_of_first_candidate (entities : list entity) : option Py.float :=
  match find amount_candidate entities with
  | Some e => Py.float_of_str (amount_text e)
  | None => None
  end.

(** An entity that gives the identity of the user: a mention, or a
    [mention_name] with a [user_id] that is true. *)
Definition identifies (e : entity) : bool :=
  type_is e "mention" ||
  (type_is e "mention_name" &&
   match ent_user_id e with Some uid => negb (Z.eqb uid 0) | None => false end).

(** The key it gives. *)
Definition user_key_of (e : entity) : string :=
  if type_is e "mention" then Py.strip (text_of e)
  else ("user_" ++ Py.str_of_int (match ent_user_id e with Some uid => uid | None => 0%Z end))%string.

(** The rule of claim C8, in its words: the first entity of either kind
    decides; a mention gives "@" followed by its trimmed text. *)
Definition claimed_user_key (entities : list entity) : option string :=
  match find (fun e => type_is e "mention" || type_is e "mention_name") entities with
  | Some e =>
      if type_is e "mention" then Some ("@" ++ Py.strip (text_of e))%string
      else option_map (fun uid => ("user_" ++ Py.str_of_int uid)%string) (ent_user_id e)
  | None => None
  end.

(** The float [(a / b) * 100] of two integers. *)
Definition pct (a b : Z) : Py.float :=
  Py.float_mul (Py.float_div (Py.float_of_int a) (Py.float_of_int b)) (Py.float_of_int 100).

(** The message is a "created" event of [user_id] at the tier [amount], as
    the scan of the analyzer takes it. *)
Definition created_at_tier (user_id : string) (amount : Py.float) (m : message) : bool :=
  match extract_user_id m, extract_amount m with
  | Some u, Some a =>
      String.eqb u user_id && Py.truthy_str u &&
      Py.contains created_phrase (extract_text m) &&
      Py.truthy_float a && Py.float_eqb a amount
  | _, _ => false
  end.

(** The message is a "renewed" event of [user_id] at the tier [amount]. *)
Definition renewed_at_tier (user_id : string) (amount : Py.float) (m : message) : bool :=
  match extract_user_id m, extract_amount m with
  | Some u, Some a =>
      String.eqb u user_id && Py.truthy_str u &&
      negb (Py.contains created_phrase (extract_text m)) &&
      Py.contains renewed_phrase (extract_text m) &&
      Py.truthy_float a && Py.float_eqb a amount
  | _, _ => false
  end.

(** The subscription dates the scan has recorded for a user at a tier. *)
Definition recorded_subscriptions (ud : list (string * Analyze.amounts_data))
    (user_id : string) (amount : Py.float) : list string :=
  match Py.dict_get String.eqb user_id ud with
  | Some ad =>
      match Py.dict_get Py.float_eqb amount (Analyze.tiers ad) with
      | Some info => Analyze.subscriptions info
      | None => []
      end
  | None => []
  end.

(** A decimal text read back as an integer: an optional "-" and digits. *)
Fixpoint digits_read (s : string) (acc : Z) : Z :=
  match s with
  | EmptyString => acc
  | String c r => digits_read r (10 * acc + Py.digit_val c)%Z
  end.

Definition int_of_str (s : string) : Z :=
  match s with
  | String c r => if Py.byte_is 45 c then (- digits_read r 0)%Z else digits_read s 0
  | EmptyString => 0%Z
  end.

(** A [mention_name] entity with the given [user_id]. *)
Definition named (uid : Z) : entity :=
  {| ent_type := Some "mention_name"; ent_text := None; ent_user_id := Some uid |}.

(** The entity is of type bold. *)
Definition is_bold (e : entity) : bool := type_is e "bold".

(** The event a message gives in the first pass of the re-import, with the
    user it belongs to: what one round of the loop appends to an empty
    collection. *)
Definition raw_event (m : message) : option (string * Reimport.event) :=
  match Reimport.collect [] m with
  | [(u, [e])] => Some (u, e)
  | _ => None
  end.

(** The events of one user among the messages, in the order of the log. *)
Definition events_of (user_id : string) (messages : list message) : list Reimport.event :=
  flat_map (fun m => match raw_event m with
                     | Some (u, e) => if String.eqb u user_id then [e] else []
                     | None => []
                     end) messages.

(** The shape of a collected event: a non-empty date; a non-zero amount on
    "created" and "renewed", no amount on "cancelled". *)
Definition well_formed (e : Reimport.event) : Prop :=
  Py.truthy_str (Reimport.date e) = true /\
  match Reimport.ev_type e with
  | subscription_cancelled => Reimport.amount e = None
  | _ => Py.truthy_ofloat (Reimport.amount e) = true
  end.

(** What the first pass keeps at every round: distinct non-empty user keys,
    each with a non-empty list of well-formed events. *)
Definition collected_ok (us : list (string * list Reimport.event)) : Prop :=
  NoDup (map fst us) /\
  forall u evs, In (u, evs) us ->
    Py.truthy_str u = true /\ evs <> [] /\ Forall well_formed evs.

(** The list under a key of a [defaultdict(list)], empty when absent. *)
Definition events_under (us : list (string * list Reimport.event)) (u : string)
    : list Reimport.event :=
  match Py.dict_get String.eqb u us with Some l => l | None => [] end.

(** The table and the counters of [a] followed by what [b] adds. *)
Definition plus_state (a b : Reimport.state) : Reimport.state :=
  {| Reimport.cursor := Reimport.cursor a ++ Reimport.cursor b;
     Reimport.imported := Reimport.imported a + Reimport.imported b;
     Reimport.cancellations_matched :=
       Reimport.cancellations_matched a + Reimport.cancellations_matched b;
     Reimport.cancellations_unmatched :=
       Reimport.cancellations_unmatched a + Reimport.cancellations_unmatched b |}.

(** The events of all users of a collection. *)
Definition all_events (users : list (string * list Reimport.event)) : list Reimport.event :=
  flat_map snd users.

(** The order of dates: [a <= b] as Python compares the two strings. *)
Definition date_le (a b : string) : Prop := String.leb a b = true.

(** Rows in ascending order of date, and events in ascending order of date. *)
Definition rows_by_date (l : list db_row) : Prop :=
  StronglySorted (fun a b => date_le (row_event_date a) (row_event_date b)) l.

Definition events_by_date (l : list Reimport.event) : Prop :=
  StronglySorted (fun a b => date_le (Reimport.date a) (Reimport.date b)) l.

Definition is_cancellation (e : Reimport.event) : bool :=
  event_type_eqb (Reimport.ev_type e) subscription_cancelled.

Definition is_cancellation_row (r : db_row) : bool :=
  event_type_eqb (row_event_type r) subscription_cancelled.

(** A cancellation row is backed by a "created" event of the list: same
    amount, not later than the cancellation. *)
Definition backed_by (events : list Reimport.event) (r : db_row) : Prop :=
  row_event_type r = subscription_cancelled ->
  exists e, In e events /\ Reimport.ev_type e = subscription_created /\
            Reimport.amount e = row_amount r /\
            date_le (Reimport.date e) (row_event_date r).

(** An open tier was opened by a "created" event of the list at its date. *)
Definition opened_by (events : list Reimport.event) (entry : option Py.float * string) : Prop :=
  exists e, In e events /\ Reimport.ev_type e = subscription_created /\
            Reimport.date e = snd entry /\
            (Reimport.amount e = fst entry \/
             Reimport.key_eqb (fst entry) (Reimport.amount e) = true).

(** The number of subscription dates, and of renewal dates, that
    [user_data] holds over all users and amounts. *)
Definition dates_in_tiers (g : Analyze.user_info -> nat)
    (tiers : list (Py.float * Analyze.user_info)) : nat :=
  list_sum (map (fun entry => g (snd entry)) tiers).

Definition dates_in (g : Analyze.user_info -> nat)
    (ud : list (string * Analyze.amounts_data)) : nat :=
  list_sum (map (fun entry => dates_in_tiers g (Analyze.tiers (snd entry))) ud).

Definition total_subscriptions (ud : list (string * Analyze.amounts_data)) : nat :=
  dates_in (fun i => List.length (Analyze.subscriptions i)) ud.

Definition total_renewals (ud : list (string * Analyze.amounts_data)) : nat :=
  dates_in (fun i => List.length (Analyze.renewals i)) ud.

(** The number of users under whom a ['_cancelled'] entry lies. *)
Definition marked_users (ud : list (string * Analyze.amounts_data)) : nat :=
  List.length (filter (fun entry => match Analyze.cancelled_mark (snd entry) with
                                    | Some _ => true
                                    | None => false
                                    end) ud).

(** The message is a cancellation of [user_id], as the scan of the analyzer
    takes it: neither the "created" nor the "renewed" phrase, and both
    words of a cancellation. *)
Definition cancelled_by (user_id : string) (m : message) : bool :=
  match extract_user_id m with
  | Some u =>
      String.eqb u user_id && Py.truthy_str u &&
      negb (Py.contains created_phrase (extract_text m)) &&
      negb (Py.contains renewed_phrase (extract_text m)) &&
      (Py.contains cancel_phrase (extract_text m) &&
       Py.contains subscription_noun (extract_text m))
  | None => false
  end.

(** Whether a ['_cancelled'] entry lies under the user. *)
Definition marked (ud : list (string * Analyze.amounts_data)) (user_id : string) : bool :=
  match Py.dict_get String.eqb user_id ud with
  | Some ad => match Analyze.cancelled_mark ad with Some _ => true | None => false end
  | None => false
  end.

(** The renewal dates the scan has recorded for a user at a tier. *)
Definition recorded_renewals (ud : list (string * Analyze.amounts_data))
    (user_id : string) (amount : Py.float) : list string :=
  match Py.dict_get String.eqb user_id ud with
  | Some ad =>
      match Py.dict_get Py.float_eqb amount (Analyze.tiers ad) with
      | Some info => Analyze.renewals info
      | None => []
      end
  | None => []
  end.

(** The entry of a user is counted for the amount: it holds the amount with
    at least one subscription date. *)
Definition counted_entry (amount : Py.float) (entry : string * Analyze.amounts_data) : bool :=
  match recorded_subscriptions [entry] (fst entry) amount with
  | [] => false
  | _ :: _ => true
  end.

(** The subscribers of the tiers added up, a user counting once for every
    tier it subscribed to. *)
Definition subscribers_over_tiers (reports : list Analyze.report) : Z :=
  fold_right (fun r acc => (Analyze.total_users r + acc)%Z) 0%Z reports.

(** The message has a non-empty date. *)
Definition dated (m : message) : bool := Py.truthy_ostr (msg_date m).

(** The counter the analyzer keeps for a type of event. *)
Definition scan_counter (t : event_type) (st : Analyze.scan_state) : nat :=
  match t with
  | subscription_created => Analyze.subscriptions_count st
  | subscription_renewed => Analyze.renewals_count st
  | subscription_cancelled => Analyze.cancellations_count st
  end.

(* ================================================================== *)
(** * Properties of the built-ins *)
(* ================================================================== *)

(** ** The order on dates *)

Lemma str_ltb_lt (a b : string) : String.ltb a b = true <-> String_as_OT.lt a b.
Proof.
  unfold String.ltb. rewrite <- String_as_OT.cmp_lt. unfold String_as_OT.cmp.
  destruct (String.compare a b); split; intros H; (discriminate || reflexivity).
Qed.

Lemma str_leb_cases (a b : string) :
  String.leb a b = true <-> a = b \/ String.ltb a b = true.
Proof.
  unfold String.leb, String.ltb.
  destruct (String.compare a b) eqn:E; split; intros H; try congruence; auto.
  - left. now apply String.compare_eq_iff.
  - destruct H as [-> | H]; [| discriminate].
    assert (R : String.compare b b = Eq) by (apply String_as_OT.cmp_eq; reflexivity).
    congruence.
Qed.

Lemma str_ltb_nleb (a b : string) : String.ltb a b = negb (String.leb b a).
Proof.
  unfold String.ltb, String.leb. rewrite (String.compare_antisym b a).
  destruct (String.compare a b); reflexivity.
Qed.

Lemma str_leb_refl (a : string) : String.leb a a = true.
Proof. apply str_leb_cases. now left. Qed.

Lemma str_ltb_irrefl (a : string) : String.ltb a a = false.
Proof. rewrite str_ltb_nleb, str_leb_refl. reflexivity. Qed.

Lemma str_ltb_trans (a b c : string) :
  String.ltb a b = true -> String.ltb b c = true -> String.ltb a c = true.
Proof.
  rewrite !str_ltb_lt. apply String_as_OT.lt_trans.
Qed.

Lemma str_ltb_leb (a b : string) : String.ltb a b = true -> String.leb a b = true.
Proof. intros H. apply str_leb_cases. now right. Qed.

Lemma str_leb_ltb_trans (a b c : string) :
  String.leb a b = true -> String.ltb b c = true -> String.ltb a c = true.
Proof.
  intros H1 H2. apply str_leb_cases in H1. destruct H1 as [-> | H1]; auto.
  eapply str_ltb_trans; eauto.
Qed.

Lemma str_ltb_leb_trans (a b c : string) :
  String.ltb a b = true -> String.leb b c = true -> String.ltb a c = true.
Proof.
  intros H1 H2. apply str_leb_cases in H2. destruct H2 as [<- | H2]; auto.
  eapply str_ltb_trans; eauto.
Qed.

Lemma str_leb_trans (a b c : string) :
  String.leb a b = true -> String.leb b c = true -> String.leb a c = true.
Proof.
  intros H1 H2. apply str_leb_cases in H1. destruct H1 as [-> | H1]; auto.
  apply str_ltb_leb. eapply str_ltb_leb_trans; eauto.
Qed.

Lemma str_nltb_leb (a b : string) : String.ltb a b = false -> String.leb b a = true.
Proof.
  rewrite str_ltb_nleb. destruct (String.leb b a); simpl; congruence.
Qed.

(** ** Equality of floats *)

Lemma float_eqb_spec (x y : Py.float) :
  Py.float_eqb x y = true <->
  match x, y with
  | S754_zero _, S754_zero _ => True
  | S754_infinity a, S754_infinity b => a = b
  | S754_finite s m e, S754_finite s' m' e' => s = s' /\ m = m' /\ e = e'
  | _, _ => False
  end.
Proof.
  unfold Py.float_eqb, SFeqb.
  destruct x as [sx | sx | | sx mx ex], y as [sy | sy | | sy my ey]; simpl;
    try (split; intros H; (discriminate || tauto || reflexivity)).
  all: try (destruct sx; split; intros H; (discriminate || tauto)).
  all: try (destruct sy; split; intros H; (discriminate || tauto)).
  - destruct sx, sy; split; intros H; (discriminate || reflexivity).
  - change (Pos.compare_cont Eq mx my) with (Pos.compare mx my).
    split.
    + intros H.
      destruct sx, sy; try discriminate;
        destruct (Z.compare ex ey) eqn:Ez; try discriminate;
        destruct (Pos.compare mx my) eqn:Em; try discriminate;
        apply Z.compare_eq in Ez; apply Pos.compare_eq in Em; subst; auto.
    + intros (-> & -> & ->). rewrite Z.compare_refl, Pos.compare_refl.
      destruct sy; reflexivity.
Qed.

Lemma float_eqb_sym (x y : Py.float) : Py.float_eqb x y = Py.float_eqb y x.
Proof.
  destruct (Py.float_eqb x y) eqn:E1, (Py.float_eqb y x) eqn:E2; auto.
  - apply float_eqb_spec in E1. rewrite <- E2. symmetry. apply float_eqb_spec.
    destruct x, y; simpl in *; intuition congruence.
  - apply float_eqb_spec in E2. rewrite <- E1. apply float_eqb_spec.
    destruct x, y; intuition congruence.
Qed.

Lemma float_eqb_trans (x y z : Py.float) :
  Py.float_eqb x y = true -> Py.float_eqb y z = true -> Py.float_eqb x z = true.
Proof.
  rewrite !float_eqb_spec. destruct x, y, z; intuition congruence.
Qed.

Lemma key_eqb_sym (a b : option Py.float) : Reimport.key_eqb a b = Reimport.key_eqb b a.
Proof.
  destruct a, b; simpl; auto using float_eqb_sym.
Qed.

(** ** The reading of decimal texts

    On these texts [float_of_str] gives the binary64 number that the
    prover's own reader of float literals gives for the same decimal. *)

Module FloatLiterals.
Import PrimFloat.
Local Set Warnings "-inexact-float".

Remark float_of_str_literals :
  Py.float_of_str "9.99" = Some (FloatOps.Prim2SF 9.99%float) /\
  Py.float_of_str " 5 " = Some (FloatOps.Prim2SF 5%float) /\
  Py.float_of_str "0.1" = Some (FloatOps.Prim2SF 0.1%float) /\
  Py.float_of_str "1_000.5_5E-2" = Some (FloatOps.Prim2SF 10.0055%float) /\
  Py.float_of_str "9007199254740993" = Some (FloatOps.Prim2SF 9007199254740993%float) /\
  Py.float_of_str "4.9e-324" = Some (FloatOps.Prim2SF 4.9e-324%float) /\
  Py.float_of_str "2.4703282292062328e-324"
    = Some (FloatOps.Prim2SF 2.4703282292062328e-324%float) /\
  Py.float_of_str "1.7976931348623159e308" = Some (FloatOps.Prim2SF infinity) /\
  Py.float_of_int 25 = FloatOps.Prim2SF 25%float /\
  Py.float_of_int 75 = FloatOps.Prim2SF 75%float /\
  pct 1 4 = FloatOps.Prim2SF (1 / 4 * 100)%float /\
  pct 2 3 = FloatOps.Prim2SF (2 / 3 * 100)%float.
Proof.
  repeat split; vm_compute; reflexivity.
Qed.

End FloatLiterals.

(** ** [max], [del] and [sort] *)

Section KeyedFacts.
Context {A : Type}.
Variable key : A -> string.

Lemma max_from_spec (l : list A) : forall pre best mid,
  (forall y, In y pre -> String.ltb (key y) (key best) = true) ->
  (forall y, In y mid -> String.leb (key y) (key best) = true) ->
  exists l1 x l2,
    Py.max_from key (List.length pre) best (List.length pre + 1 + List.length mid) l
      = (List.length l1, x) /\
    pre ++ best :: mid ++ l = l1 ++ x :: l2 /\
    (forall y, In y l1 -> String.ltb (key y) (key x) = true) /\
    (forall y, In y l2 -> String.leb (key y) (key x) = true).
Proof.
  induction l as [| x r IH]; intros pre best mid Hpre Hmid; simpl.
  - exists pre, best, mid. rewrite app_nil_r. auto.
  - destruct (String.ltb (key best) (key x)) eqn:E.
    + destruct (IH (pre ++ best :: mid) x []) as (l1 & m & l2 & Hm & Hl & H1 & H2).
      * intros y Hy. apply in_app_or in Hy. destruct Hy as [Hy | [<- | Hy]]; auto.
        -- eapply str_ltb_trans; eauto.
        -- eapply str_leb_ltb_trans; eauto.
      * intros y [].
      * exists l1, m, l2. repeat split; auto.
        -- rewrite <- Hm. f_equal; rewrite length_app; simpl; lia.
        -- rewrite <- Hl. rewrite <- app_assoc. simpl. reflexivity.
    + destruct (IH pre best (mid ++ [x])) as (l1 & m & l2 & Hm & Hl & H1 & H2); auto.
      * intros y Hy. apply in_app_or in Hy. destruct Hy as [Hy | [<- | []]]; auto.
        now apply str_nltb_leb.
      * exists l1, m, l2. repeat split; auto.
        -- rewrite <- Hm. f_equal. rewrite length_app; simpl; lia.
        -- rewrite <- Hl. rewrite <- app_assoc. reflexivity.
Qed.

Lemma max_by_spec (l : list A) :
  l <> [] ->
  exists l1 x l2,
    Py.max_by key l = Py.Ok (List.length l1, x) /\
    l = l1 ++ x :: l2 /\
    (forall y, In y l1 -> String.ltb (key y) (key x) = true) /\
    (forall y, In y l2 -> String.leb (key y) (key x) = true).
Proof.
  destruct l as [| b r]; [congruence | intros _].
  destruct (max_from_spec r [] b []) as (l1 & x & l2 & Hm & Hl & H1 & H2);
    try (intros y []).
  exists l1, x, l2. simpl in *. rewrite Hm. auto.
Qed.

Lemma sort_by_insert_perm (x : A) (l : list A) :
  Permutation (Py.insert_by key x l) (x :: l).
Proof.
  induction l as [| y r IH]; simpl; auto.
  destruct (String.ltb (key y) (key x)); auto.
  rewrite IH. apply perm_swap.
Qed.

Lemma sort_by_perm (l : list A) : Permutation (Py.sort_by key l) l.
Proof.
  induction l as [| x r IH]; simpl; auto.
  rewrite sort_by_insert_perm. auto.
Qed.

Lemma insert_by_sorted (x : A) (l : list A) :
  LocallySorted (fun a b => String.leb (key a) (key b) = true) l ->
  LocallySorted (fun a b => String.leb (key a) (key b) = true) (Py.insert_by key x l).
Proof.
  induction 1 as [| y | y z r Hs IH Hyz]; cbn [Py.insert_by].
  - constructor.
  - destruct (String.ltb (key y) (key x)) eqn:E.
    + repeat constructor. now apply str_ltb_leb.
    + repeat constructor. now apply str_nltb_leb.
  - destruct (String.ltb (key y) (key x)) eqn:E.
    + cbn [Py.insert_by] in IH. destruct (String.ltb (key z) (key x)) eqn:E'.
      * constructor; auto.
      * constructor; [exact IH | now apply str_ltb_leb].
    + constructor; [constructor; auto | now apply str_nltb_leb].
Qed.

Lemma sort_by_sorted (l : list A) :
  LocallySorted (fun a b => String.leb (key a) (key b) = true) (Py.sort_by key l).
Proof.
  induction l as [| x r IH]; cbn [Py.sort_by].
  - constructor.
  - now apply insert_by_sorted.
Qed.

End KeyedFacts.

Lemma del_at_app {A : Type} (l1 : list A) (x : A) (l2 : list A) :
  Py.del_at (List.length l1) (l1 ++ x :: l2) = Py.Ok (l1 ++ l2).
Proof.
  induction l1 as [| y r IH]; simpl; auto.
  rewrite IH. reflexivity.
Qed.

(* ================================================================== *)
(** * The reconciler of [reimport_with_cancellations.py] *)
(* ================================================================== *)

Lemma dict_set_in (k : option Py.float) (v : string) (d : Reimport.open_tiers) :
  forall k' v', In (k', v') (Py.dict_set Reimport.key_eqb k v d) ->
    (exists v'', In (k', v'') d) \/ k' = k.
Proof.
  induction d as [| [k0 v0] r IH]; simpl; intros k' v' H.
  - destruct H as [H | []]. inversion H. now right.
  - destruct (Reimport.key_eqb k0 k).
    + destruct H as [H | H].
      * inversion H; subst. left. exists v0. now left.
      * left. exists v'. now right.
    + destruct H as [H | H].
      * inversion H; subst. left. exists v'. now left.
      * destruct (IH _ _ H) as [(v'' & Hv) | ->]; [left | now right].
        exists v''. now right.
Qed.

Lemma keys_distinct_set (k : option Py.float) (v : string) (d : Reimport.open_tiers) :
  keys_distinct d -> keys_distinct (Py.dict_set Reimport.key_eqb k v d).
Proof.
  induction d as [| [k0 v0] r IH]; simpl; intros H.
  - split; [intros ? ? [] | exact I].
  - destruct H as [H0 Hr]. destruct (Reimport.key_eqb k0 k) eqn:E; simpl.
    + split; auto.
    + split; auto. intros k' v' Hin.
      destruct (dict_set_in _ _ _ _ _ Hin) as [(v'' & Hv) | ->]; eauto.
Qed.

Lemma keys_distinct_remove (l1 : Reimport.open_tiers) (x : option Py.float * string)
    (l2 : Reimport.open_tiers) :
  keys_distinct (l1 ++ x :: l2) ->
  keys_distinct (l1 ++ l2) /\
  (forall k v, In (k, v) (l1 ++ l2) -> Reimport.key_eqb k (fst x) = false).
Proof.
  induction l1 as [| [k0 v0] r IH]; simpl.
  - destruct x as [kx vx]. intros [H0 Hr]. split; auto.
    intros k v Hin. rewrite key_eqb_sym. simpl. eauto.
  - intros [H0 Hr]. destruct (IH Hr) as [Hd Hx]. split.
    + split; auto. intros k' v' Hin. apply (H0 k' v').
      apply in_app_or in Hin. apply in_or_app. destruct Hin; [now left | right; now right].
    + intros k v [Hin | Hin]; eauto.
      inversion Hin; subst. destruct x as [kx vx]. apply (H0 kx vx).
      apply in_or_app. right. now left.
Qed.

(** A cancellation that finds an open tier: the entry with the greatest
    date, the first of them in insertion order, is the one resolved and
    removed. *)
Lemma step_cancelled_open (user_id : string) (st : Reimport.state)
    (active : Reimport.open_tiers) (e : Reimport.event) :
  Reimport.ev_type e = subscription_cancelled ->
  active <> [] ->
  exists before last_amount opened_at after,
    active = before ++ (last_amount, opened_at) :: after /\
    (forall a d, In (a, d) before -> String.ltb d opened_at = true) /\
    (forall a d, In (a, d) after -> String.leb d opened_at = true) /\
    Reimport.step user_id (st, active) e =
      Py.Ok (Reimport.count_matched
               (Reimport.insert (Reimport.row_of user_id e last_amount) st),
             before ++ after).
Proof.
  intros He Hne.
  destruct (max_by_spec snd active Hne) as (l1 & [a d] & l2 & Hm & Hl & H1 & H2).
  exists l1, a, d, l2. repeat split; auto.
  - intros a' d' Hin. apply (H1 (a', d') Hin).
  - intros a' d' Hin. apply (H2 (a', d') Hin).
  - unfold Reimport.step. rewrite He.
    destruct active as [| p r]; [congruence |].
    rewrite Hm. cbn [Py.bind fst]. rewrite Hl, del_at_app. reflexivity.
Qed.

Lemma step_total (user_id : string) (sa : Reimport.state * Reimport.open_tiers)
    (e : Reimport.event) :
  exists sa', Reimport.step user_id sa e = Py.Ok sa'.
Proof.
  destruct sa as [st active]. destruct (Reimport.ev_type e) eqn:He.
  - unfold Reimport.step. rewrite He. eauto.
  - unfold Reimport.step. rewrite He. eauto.
  - destruct active as [| p r].
    + unfold Reimport.step. rewrite He. eauto.
    + destruct (step_cancelled_open user_id st (p :: r) e He) as (? & ? & ? & ? & _ & _ & _ & H);
        [discriminate | eauto].
Qed.

Lemma run_total (user_id : string) (events : list Reimport.event) :
  forall sa, exists sa', Reimport.run user_id events sa = Py.Ok sa'.
Proof.
  induction events as [| e r IH]; intros sa; cbn [Reimport.run]; eauto.
  destruct (step_total user_id sa e) as (sa1 & ->). cbn [Py.bind]. apply IH.
Qed.

Lemma run_app (user_id : string) (l1 l2 : list Reimport.event) :
  forall sa,
    Reimport.run user_id (l1 ++ l2) sa =
    Py.bind (Reimport.run user_id l1 sa) (Reimport.run user_id l2).
Proof.
  induction l1 as [| e r IH]; intros sa; cbn [Reimport.run app Py.bind]; auto.
  destruct (Reimport.step user_id sa e); cbn [Py.bind]; auto.
Qed.

Lemma step_keys_distinct (user_id : string) (st st' : Reimport.state)
    (active active' : Reimport.open_tiers) (e : Reimport.event) :
  keys_distinct active ->
  Reimport.step user_id (st, active) e = Py.Ok (st', active') ->
  keys_distinct active'.
Proof.
  intros Hd Hs. destruct (Reimport.ev_type e) eqn:He.
  - unfold Reimport.step in Hs. rewrite He in Hs. inversion Hs; subst.
    now apply keys_distinct_set.
  - unfold Reimport.step in Hs. rewrite He in Hs. inversion Hs; subst. auto.
  - destruct active as [| p r].
    + unfold Reimport.step in Hs. rewrite He in Hs. inversion Hs; subst. auto.
    + destruct (step_cancelled_open user_id st (p :: r) e He)
        as (l1 & a & d & l2 & Hl & _ & _ & H).
      { discriminate. }
      rewrite H in Hs. inversion Hs; subst active'.
      rewrite Hl in Hd. now apply keys_distinct_remove in Hd.
Qed.

Lemma run_keys_distinct (user_id : string) (events : list Reimport.event) :
  forall st active st' active',
    keys_distinct active ->
    Reimport.run user_id events (st, active) = Py.Ok (st', active') ->
    keys_distinct active'.
Proof.
  induction events as [| e r IH]; cbn [Reimport.run];
    intros st active st' active' Hd Hr.
  - inversion Hr; subst. auto.
  - destruct (Reimport.step user_id (st, active) e) as [[st1 a1] | ] eqn:Hs; [| discriminate].
    cbn [Py.bind] in Hr. eapply IH; [| exact Hr]. eapply step_keys_distinct; eauto.
Qed.

Lemma count_events_perm (t : event_type) (l l' : list Reimport.event) :
  Permutation l l' -> count_events t l = count_events t l'.
Proof.
  unfold count_events. induction 1; simpl; auto.
  - destruct (event_type_eqb (Reimport.ev_type x) t); simpl; auto.
  - destruct (event_type_eqb (Reimport.ev_type x) t),
             (event_type_eqb (Reimport.ev_type y) t); simpl; auto.
  - congruence.
Qed.

Lemma count_events_sorted (t : event_type) (l : list Reimport.event) :
  count_events t (Py.sort_by Reimport.date l) = count_events t l.
Proof. apply count_events_perm, sort_by_perm. Qed.

Lemma count_events_cons (t : event_type) (e : Reimport.event) (l : list Reimport.event) :
  count_events t (e :: l) =
  (if event_type_eqb (Reimport.ev_type e) t then 1 else 0) + count_events t l.
Proof.
  unfold count_events. simpl.
  destruct (event_type_eqb (Reimport.ev_type e) t); reflexivity.
Qed.

Lemma count_rows_snoc (t : event_type) (l : list db_row) (r : db_row) :
  count_rows t (l ++ [r]) =
  count_rows t l + (if event_type_eqb (row_event_type r) t then 1 else 0).
Proof.
  unfold count_rows. rewrite filter_app, length_app. simpl.
  destruct (event_type_eqb (row_event_type r) t); reflexivity.
Qed.

Lemma dict_set_length (k : option Py.float) (v : string) (d : Reimport.open_tiers) :
  List.length (Py.dict_set Reimport.key_eqb k v d) <= S (List.length d).
Proof.
  induction d as [| [k0 v0] r IH]; simpl; auto.
  destruct (Reimport.key_eqb k0 k); simpl; lia.
Qed.

(** The balance kept by one round: every matched cancellation consumes an
    open tier, and only a "created" event can add one. *)
Lemma step_balance (user_id : string) (st st' : Reimport.state)
    (active active' : Reimport.open_tiers) (e : Reimport.event) :
  Reimport.step user_id (st, active) e = Py.Ok (st', active') ->
  count_rows subscription_cancelled (Reimport.cursor st') + List.length active'
    <= count_rows subscription_cancelled (Reimport.cursor st) + List.length active
       + count_events subscription_created [e] /\
  Reimport.cancellations_matched st' + count_rows subscription_cancelled (Reimport.cursor st)
    = Reimport.cancellations_matched st
      + count_rows subscription_cancelled (Reimport.cursor st').
Proof.
  intros Hs. rewrite count_events_cons. destruct (Reimport.ev_type e) eqn:He.
  - unfold Reimport.step in Hs. rewrite He in Hs. inversion Hs; subst; clear Hs.
    cbn [Reimport.cursor Reimport.insert Reimport.cancellations_matched].
    rewrite count_rows_snoc. cbn [row_event_type Reimport.row_of]. rewrite He.
    pose proof (dict_set_length (Reimport.amount e) (Reimport.date e) active).
    simpl. lia.
  - unfold Reimport.step in Hs. rewrite He in Hs. inversion Hs; subst; clear Hs.
    cbn [Reimport.cursor Reimport.insert Reimport.cancellations_matched].
    rewrite count_rows_snoc. cbn [row_event_type Reimport.row_of]. rewrite He.
    simpl. lia.
  - destruct active as [| p r].
    + unfold Reimport.step in Hs. rewrite He in Hs. inversion Hs; subst; clear Hs.
      simpl. lia.
    + destruct (step_cancelled_open user_id st (p :: r) e He)
        as (l1 & a & d & l2 & Hl & _ & _ & H).
      { discriminate. }
      rewrite H in Hs. inversion Hs; subst st' active'; clear Hs. rewrite Hl.
      cbn [Reimport.cursor Reimport.insert Reimport.count_matched
           Reimport.cancellations_matched].
      rewrite count_rows_snoc. cbn [row_event_type Reimport.row_of]. rewrite He.
      rewrite !length_app. simpl. lia.
Qed.

Lemma run_balance (user_id : string) (events : list Reimport.event) :
  forall st active st' active',
    Reimport.run user_id events (st, active) = Py.Ok (st', active') ->
    count_rows subscription_cancelled (Reimport.cursor st') + List.length active'
      <= count_rows subscription_cancelled (Reimport.cursor st) + List.length active
         + count_events subscription_created events /\
    Reimport.cancellations_matched st' + count_rows subscription_cancelled (Reimport.cursor st)
      = Reimport.cancellations_matched st
        + count_rows subscription_cancelled (Reimport.cursor st').
Proof.
  induction events as [| e r IH]; cbn [Reimport.run];
    intros st active st' active' Hr.
  - inversion Hr; subst. unfold count_events. simpl. lia.
  - destruct (Reimport.step user_id (st, active) e) as [[st1 a1] | ] eqn:Hs; [| discriminate].
    cbn [Py.bind] in Hr. apply step_balance in Hs. apply IH in Hr.
    rewrite count_events_cons. rewrite count_events_cons in Hs.
    unfold count_events in Hs at 1. simpl in Hs. lia.
Qed.

(** Without a "created" event nothing is ever open: the renewals are
    written as they are and every cancellation is unmatched. *)
Lemma run_without_created (user_id : string) (events : list Reimport.event) :
  count_events subscription_created events = 0 ->
  forall st,
    Reimport.run user_id events (st, []) =
    Py.Ok ({| Reimport.cursor :=
                Reimport.cursor st ++
                map (fun e => Reimport.row_of user_id e (Reimport.amount e))
                    (filter (fun e => event_type_eqb (Reimport.ev_type e) subscription_renewed)
                            events);
              Reimport.imported :=
                Reimport.imported st + count_events subscription_renewed events;
              Reimport.cancellations_matched := Reimport.cancellations_matched st;
              Reimport.cancellations_unmatched :=
                Reimport.cancellations_unmatched st
                + count_events subscription_cancelled events |}, []).
Proof.
  induction events as [| e r IH]; intros Hc st.
  - unfold count_events. simpl. rewrite app_nil_r, !Nat.add_0_r. now destruct st.
  - rewrite count_events_cons in Hc. cbn [Reimport.run].
    rewrite !count_events_cons. cbn [filter].
    destruct (Reimport.ev_type e) eqn:He; simpl in Hc; [discriminate | |].
    + unfold Reimport.step. rewrite He. cbn [Py.bind]. rewrite (IH Hc).
      cbn [event_type_eqb map Reimport.cursor Reimport.insert Reimport.imported
           Reimport.cancellations_matched Reimport.cancellations_unmatched].
      rewrite <- app_assoc. do 2 f_equal. simpl. f_equal; lia.
    + unfold Reimport.step. rewrite He. cbn [Py.bind]. rewrite (IH Hc).
      cbn [event_type_eqb map Reimport.cursor Reimport.count_unmatched Reimport.imported
           Reimport.cancellations_matched Reimport.cancellations_unmatched].
      do 2 f_equal. simpl. f_equal; lia.
Qed.

(** ** The claims on the reconciler *)

(** C1.  Whenever a cancellation is replayed while the open-tier map of the
    user is not empty, the row written for it carries the amount of an open
    tier whose date is the greatest of the map (the first such tier in
    insertion order), the matched counter goes up by one, and the map loses
    exactly that entry: no key equal to the resolved amount is left.  In
    particular the events created(5), created(9), cancelled, at dates
    t1 < t2 <= t3, give a cancellation at tier 9 and leave tier 5 open. *)
Theorem cancellation_resolves_latest_open_tier :
  (forall user_id events pre e post st0 st active,
     Py.sort_by Reimport.date events = pre ++ e :: post ->
     Reimport.run user_id pre (st0, []) = Py.Ok (st, active) ->
     Reimport.ev_type e = subscription_cancelled ->
     active <> [] ->
     exists before last_amount opened_at after,
       active = before ++ (last_amount, opened_at) :: after /\
       (forall a d, In (a, d) active -> String.leb d opened_at = true) /\
       (forall a d, In (a, d) before -> String.ltb d opened_at = true) /\
       (forall a d, In (a, d) (before ++ after) ->
          Reimport.key_eqb a last_amount = false) /\
       Reimport.step user_id (st, active) e =
         Py.Ok (Reimport.count_matched
                  (Reimport.insert (Reimport.row_of user_id e last_amount) st),
                before ++ after) /\
       Reimport.reconcile_user user_id events st0 =
         Reimport.run user_id post
           (Reimport.count_matched
              (Reimport.insert (Reimport.row_of user_id e last_amount) st),
            before ++ after))
  /\
  (forall user_id t1 t2 t3 u1 u2 u3,
     String.ltb t1 t2 = true ->
     String.leb t2 t3 = true ->
     Reimport.reconcile_user user_id
       [created_at t1 (tier 5) u1; created_at t2 (tier 9) u2; cancelled_at t3 u3]
       Reimport.initial =
     Py.Ok ({| Reimport.cursor :=
                 [ {| row_user_id := user_id; row_username := u1; row_amount := tier 5;
                      row_event_type := subscription_created; row_event_date := t1 |};
                   {| row_user_id := user_id; row_username := u2; row_amount := tier 9;
                      row_event_type := subscription_created; row_event_date := t2 |};
                   {| row_user_id := user_id; row_username := u3; row_amount := tier 9;
                      row_event_type := subscription_cancelled; row_event_date := t3 |} ];
               Reimport.imported := 3;
               Reimport.cancellations_matched := 1;
               Reimport.cancellations_unmatched := 0 |},
            [(tier 5, t1)])).
Proof.
  split.
  - intros user_id events pre e post st0 st active Hsort Hrun He Hne.
    destruct (step_cancelled_open user_id st active e He Hne)
      as (l1 & a & d & l2 & Hl & H1 & H2 & Hs).
    assert (Hd : keys_distinct active).
    { eapply run_keys_distinct; [| exact Hrun]. exact I. }
    rewrite Hl in Hd. apply keys_distinct_remove in Hd. destruct Hd as [_ Hx].
    exists l1, a, d, l2. repeat split; auto.
    + intros a' d' Hin. rewrite Hl in Hin. apply in_app_or in Hin.
      destruct Hin as [Hin | [Hin | Hin]].
      * apply str_ltb_leb. eauto.
      * inversion Hin; subst. apply str_leb_refl.
      * eauto.
    + unfold Reimport.reconcile_user. rewrite Hsort, run_app, Hrun.
      cbn [Py.bind Reimport.run]. rewrite Hs. reflexivity.
  - intros user_id t1 t2 t3 u1 u2 u3 H12 H23.
    assert (Hne : Reimport.key_eqb (tier 5) (tier 9) = false) by (vm_compute; reflexivity).
    revert Hne. unfold tier.
    generalize (Py.float_of_int 5) (Py.float_of_int 9). intros a5 a9 Hne.
    assert (E32 : String.ltb t3 t2 = false) by (rewrite str_ltb_nleb, H23; reflexivity).
    assert (E21 : String.ltb t2 t1 = false)
      by (rewrite str_ltb_nleb, (str_ltb_leb _ _ H12); reflexivity).
    unfold Reimport.reconcile_user, created_at, cancelled_at.
    cbn [Py.sort_by Py.insert_by Reimport.date]. rewrite E32.
    cbn [Py.insert_by Reimport.date]. rewrite E21.
    cbn [Reimport.run Reimport.step Reimport.ev_type Py.bind Py.dict_set
         Reimport.amount Reimport.date].
    rewrite Hne.
    cbn [Py.max_by Py.max_from snd]. rewrite H12.
    cbn [Py.bind Py.del_at fst]. reflexivity.
Qed.

(** The C1 statement at the log of one user on three consecutive days. *)
Lemma cancellation_resolves_latest_open_tier_witness :
  (exists before last_amount opened_at after,
     [(tier 5, "2024-01-01"); (tier 9, "2024-01-02")]
       = before ++ (last_amount, opened_at) :: after /\
     last_amount = tier 9 /\ before ++ after = [(tier 5, "2024-01-01")]) /\
  (exists st, Reimport.reconcile_user "@bob"
     [created_at "2024-01-01" (tier 5) None; created_at "2024-01-02" (tier 9) None;
      cancelled_at "2024-01-03" None] Reimport.initial
     = Py.Ok (st, [(tier 5, "2024-01-01")])).
Proof.
  split.
  - destruct (proj1 cancellation_resolves_latest_open_tier "@bob"
      [created_at "2024-01-01" (tier 5) None; created_at "2024-01-02" (tier 9) None;
       cancelled_at "2024-01-03" None]
      [created_at "2024-01-01" (tier 5) None; created_at "2024-01-02" (tier 9) None]
      (cancelled_at "2024-01-03" None) [] Reimport.initial
      (Reimport.insert (Reimport.row_of "@bob" (created_at "2024-01-02" (tier 9) None) (tier 9))
         (Reimport.insert
            (Reimport.row_of "@bob" (created_at "2024-01-01" (tier 5) None) (tier 5))
            Reimport.initial))
      [(tier 5, "2024-01-01"); (tier 9, "2024-01-02")]
      eq_refl eq_refl eq_refl ltac:(discriminate))
      as (before & last_amount & opened_at & after & Hl & _ & _ & _ & Hs & _).
    exists before, last_amount, opened_at, after.
    split; [exact Hl |].
    vm_compute in Hs. injection Hs as Ha Hr.
    split; vm_compute; symmetry; assumption.
  - eexists.
    apply (proj2 cancellation_resolves_latest_open_tier "@bob"
             "2024-01-01" "2024-01-02" "2024-01-03" None None None);
      reflexivity.
Defined.

(** When two tiers were opened at the same date, [max] keeps the first of
    them in insertion order: the cancellation closes the tier opened
    first. *)
Remark equal_dates_resolve_to_first_opened :
  exists st,
    Reimport.reconcile_user "@bob"
      [created_at "2024-01-01" (tier 5) None; created_at "2024-01-01" (tier 9) None;
       cancelled_at "2024-01-03" None] Reimport.initial
    = Py.Ok (st, [(tier 9, "2024-01-01")]) /\
    map row_amount (Reimport.cursor st) = [tier 5; tier 9; tier 5].
Proof.
  eexists. split; reflexivity.
Qed.

(** C2, as the claim states it, fails: after a renewal of tier 5 alone the
    open-tier map is still empty, the renewal is written, and the
    cancellation that follows is counted as unmatched, with no row for it. *)
Lemma renewal_opens_no_tier :
  Reimport.step "user_7" (Reimport.initial, [])
    (renewed_at "2024-01-01" (tier 5) None)
  = Py.Ok (Reimport.insert
             (Reimport.row_of "user_7" (renewed_at "2024-01-01" (tier 5) None) (tier 5))
             Reimport.initial,
           []) /\
  Reimport.reconcile_user "user_7"
    [renewed_at "2024-01-01" (tier 5) None; cancelled_at "2024-01-02" None]
    Reimport.initial
  = Py.Ok ({| Reimport.cursor :=
                [ {| row_user_id := "user_7"; row_username := None; row_amount := tier 5;
                     row_event_type := subscription_renewed;
                     row_event_date := "2024-01-01" |} ];
              Reimport.imported := 1;
              Reimport.cancellations_matched := 0;
              Reimport.cancellations_unmatched := 1 |},
           []).
Proof.
  split; reflexivity.
Qed.

(** C2, amended.  A renewal is written to the table as it is and leaves the
    open-tier map untouched, whether or not its tier is in the map.  Hence a
    user without any "created" event ends with an empty map, all renewals
    written in date order, no cancellation matched and every cancellation
    counted as unmatched. *)
Theorem renewal_leaves_open_tiers :
  (forall user_id st active e,
     Reimport.ev_type e = subscription_renewed ->
     Reimport.step user_id (st, active) e =
       Py.Ok (Reimport.insert (Reimport.row_of user_id e (Reimport.amount e)) st, active))
  /\
  (forall user_id events st,
     count_events subscription_created events = 0 ->
     Reimport.reconcile_user user_id events st =
     Py.Ok ({| Reimport.cursor :=
                 Reimport.cursor st ++
                 map (fun e => Reimport.row_of user_id e (Reimport.amount e))
                     (filter (fun e => event_type_eqb (Reimport.ev_type e) subscription_renewed)
                             (Py.sort_by Reimport.date events));
               Reimport.imported :=
                 Reimport.imported st + count_events subscription_renewed events;
               Reimport.cancellations_matched := Reimport.cancellations_matched st;
               Reimport.cancellations_unmatched :=
                 Reimport.cancellations_unmatched st
                 + count_events subscription_cancelled events |}, [])).
Proof.
  split.
  - intros user_id st active e He. unfold Reimport.step. rewrite He. reflexivity.
  - intros user_id events st Hc. unfold Reimport.reconcile_user.
    rewrite run_without_created by (now rewrite count_events_sorted).
    now rewrite !count_events_sorted.
Qed.

Lemma renewal_leaves_open_tiers_witness :
  Reimport.step "user_7" (Reimport.initial, [(tier 9, "2023-12-31")])
    (renewed_at "2024-01-01" (tier 5) None)
  = Py.Ok (Reimport.insert
             (Reimport.row_of "user_7" (renewed_at "2024-01-01" (tier 5) None) (tier 5))
             Reimport.initial,
           [(tier 9, "2023-12-31")]) /\
  (exists st,
     Reimport.reconcile_user "user_7"
       [cancelled_at "2024-01-02" None; renewed_at "2024-01-01" (tier 5) None]
       Reimport.initial = Py.Ok (st, []) /\
     Reimport.cancellations_matched st = 0 /\
     Reimport.cancellations_unmatched st = 1).
Proof.
  split.
  - apply (proj1 renewal_leaves_open_tiers). reflexivity.
  - eexists. split.
    + apply (proj2 renewal_leaves_open_tiers). reflexivity.
    + split; reflexivity.
Defined.

(** C3.  A cancellation replayed on an empty open-tier map writes no row,
    adds exactly one to the unmatched counter and changes nothing else; no
    sequence of events makes the replay raise.  In particular a user whose
    only event is a cancellation ends with an empty table and an unmatched
    count of 1. *)
Theorem unmatched_cancellation_is_counted :
  (forall user_id st e,
     Reimport.ev_type e = subscription_cancelled ->
     Reimport.step user_id (st, []) e =
       Py.Ok ({| Reimport.cursor := Reimport.cursor st;
                 Reimport.imported := Reimport.imported st;
                 Reimport.cancellations_matched := Reimport.cancellations_matched st;
                 Reimport.cancellations_unmatched :=
                   S (Reimport.cancellations_unmatched st) |}, []))
  /\
  (forall user_id events st,
     exists st' open, Reimport.reconcile_user user_id events st = Py.Ok (st', open))
  /\
  (forall user_id e,
     Reimport.ev_type e = subscription_cancelled ->
     Reimport.reconcile_user user_id [e] Reimport.initial =
       Py.Ok ({| Reimport.cursor := []; Reimport.imported := 0;
                 Reimport.cancellations_matched := 0;
                 Reimport.cancellations_unmatched := 1 |}, [])).
Proof.
  split; [| split].
  - intros user_id st e He. unfold Reimport.step. rewrite He. reflexivity.
  - intros user_id events st. unfold Reimport.reconcile_user.
    destruct (run_total user_id (Py.sort_by Reimport.date events) (st, []))
      as ([st' open] & H).
    eauto.
  - intros user_id e He. unfold Reimport.reconcile_user.
    cbn [Py.sort_by Py.insert_by Reimport.run]. unfold Reimport.step. rewrite He.
    reflexivity.
Qed.

Lemma unmatched_cancellation_is_counted_witness :
  Reimport.step "@bob" (Reimport.initial, []) (cancelled_at "2024-01-03" None)
  = Py.Ok (Reimport.count_unmatched Reimport.initial, []) /\
  Reimport.reconcile_user "@bob" [cancelled_at "2024-01-03" None] Reimport.initial
  = Py.Ok ({| Reimport.cursor := []; Reimport.imported := 0;
              Reimport.cancellations_matched := 0;
              Reimport.cancellations_unmatched := 1 |}, []).
Proof.
  split.
  - apply (proj1 unmatched_cancellation_is_counted). reflexivity.
  - apply (proj2 (proj2 unmatched_cancellation_is_counted)). reflexivity.
Defined.

(** C9.  The replay of the events of a user always ends; the cancellations
    written to the table are the matched ones, and together with the tiers
    still open they are at most the "created" events of the user, hence at
    most the "created" and "renewed" events together. *)
Theorem matched_cancellations_bounded :
  forall user_id events,
    exists st open,
      Reimport.reconcile_user user_id events Reimport.initial = Py.Ok (st, open) /\
      Reimport.cancellations_matched st
        = count_rows subscription_cancelled (Reimport.cursor st) /\
      Reimport.cancellations_matched st + List.length open
        <= count_events subscription_created events /\
      count_rows subscription_cancelled (Reimport.cursor st)
        <= count_events subscription_created events
           + count_events subscription_renewed events.
Proof.
  intros user_id events. unfold Reimport.reconcile_user.
  destruct (run_total user_id (Py.sort_by Reimport.date events) (Reimport.initial, []))
    as ([st open] & H).
  exists st, open. split; auto.
  apply run_balance in H. rewrite count_events_sorted in H.
  change (count_rows subscription_cancelled (Reimport.cursor Reimport.initial))
    with 0 in H.
  change (Reimport.cancellations_matched Reimport.initial) with 0 in H.
  change (List.length (@nil (option Py.float * string))) with 0 in H.
  lia.
Qed.

Lemma matched_cancellations_bounded_witness :
  exists st open,
    Reimport.reconcile_user "@bob"
      [cancelled_at "2024-01-05" None; created_at "2024-01-01" (tier 5) None;
       cancelled_at "2024-01-03" None; renewed_at "2024-01-02" (tier 5) None]
      Reimport.initial = Py.Ok (st, open) /\
    Reimport.cancellations_matched st
      = count_rows subscription_cancelled (Reimport.cursor st) /\
    Reimport.cancellations_matched st + List.length open <= 1 /\
    count_rows subscription_cancelled (Reimport.cursor st) <= 1 + 1.
Proof.
  exact (matched_cancellations_bounded "@bob"
           [cancelled_at "2024-01-05" None; created_at "2024-01-01" (tier 5) None;
            cancelled_at "2024-01-03" None; renewed_at "2024-01-02" (tier 5) None]).
Defined.

(* ================================================================== *)
(** * The extractor *)
(* ================================================================== *)

Lemma extract_amount_from_find (entities : list entity) :
  extract_amount_from entities =
  match find has_parsed_amount entities with
  | Some e => parsed_amount e
  | None => None
  end.
Proof.
  induction entities as [| e r IH]; cbn [extract_amount_from find]; auto.
  unfold has_parsed_amount, parsed_amount, amount_candidate, amount_text in *.
  destruct (type_is e "bold") eqn:Eb; cbn [andb]; auto.
  destruct (Py.startswith (text_of e) sigil) eqn:Es; auto.
  destruct (Py.float_of_str _) eqn:Ef; auto.
  rewrite Eb, Es. cbn [andb]. now rewrite Ef.
Qed.

Lemma extract_user_id_from_find (entities : list entity) :
  extract_user_id_from entities = option_map user_key_of (find identifies entities).
Proof.
  induction entities as [| e r IH]; cbn [extract_user_id_from find option_map]; auto.
  unfold identifies, user_key_of in *.
  destruct (type_is e "mention") eqn:Em; cbn [orb option_map].
  { now rewrite Em. }
  destruct (type_is e "mention_name"); cbn [andb]; auto.
  destruct (ent_user_id e) as [uid |] eqn:Eu; auto.
  destruct (Z.eqb uid 0); cbn [negb option_map]; auto.
  now rewrite Em, Eu.
Qed.

(** C7, as the claim states it, fails: when the first bold text with the
    sigil does not parse, the loop goes on and a later one gives the
    amount. *)
Lemma later_amount_span_is_consulted :
  extract_amount_from [span "bold" "€abc"; span "bold" "€5"] = tier 5 /\
  amount_of_first_candidate [span "bold" "€abc"; span "bold" "€5"] = None.
Proof.
  split; vm_compute; reflexivity.
Qed.

(** C7, amended.  The amount of a message is the parsed text of the first
    bold entity whose text starts with the sigil and, once the sigil is
    removed and commas are replaced by points, parses as a decimal; bold
    texts that do not parse are passed over, and there is no amount when no
    entity qualifies.  When the first bold text with the sigil parses, it
    decides.  The text "€9,99" gives the float 9.99 and "€abc" alone gives
    no amount. *)
Theorem amount_is_first_parsable_bold_span :
  (forall m,
     extract_amount m =
     match find has_parsed_amount (msg_text_entities m) with
     | Some e => parsed_amount e
     | None => None
     end) /\
  (forall m e x,
     find amount_candidate (msg_text_entities m) = Some e ->
     Py.float_of_str (amount_text e) = Some x ->
     extract_amount m = Some x) /\
  (forall rest,
     extract_amount_from (span "bold" "€9,99" :: rest)
       = Some (S754_finite false 5623870034678907 (-49))) /\
  extract_amount_from [span "bold" "€abc"] = None.
Proof.
  split; [| split; [| split]].
  - intros m. apply extract_amount_from_find.
  - intros m e x. unfold extract_amount.
    induction (msg_text_entities m) as [| e0 r IH]; cbn [find extract_amount_from].
    + discriminate.
    + unfold amount_candidate at 1.
      destruct (type_is e0 "bold"); cbn [andb]; auto.
      destruct (Py.startswith (text_of e0) sigil); auto.
      intros H Hx. inversion H; subst e0. unfold amount_text in Hx. now rewrite Hx.
  - intros rest. vm_compute. reflexivity.
  - vm_compute. reflexivity.
Qed.

Lemma amount_is_first_parsable_bold_span_witness :
  extract_amount
    {| msg_text := Some (TextStr "@bob оформил подписку");
       msg_text_entities := [span "mention" "@bob"; span "bold" "€9,99"; span "bold" "€5"];
       msg_date := Some "2024-01-01" |}
  = Some (S754_finite false 5623870034678907 (-49)).
Proof.
  apply (proj1 (proj2 amount_is_first_parsable_bold_span) _ (span "bold" "€9,99"));
    vm_compute; reflexivity.
Defined.

(** C8, as the claim states it, fails: the key of a mention is its trimmed
    text itself, to which no "@" is added. *)
Lemma mention_key_has_no_added_sigil :
  extract_user_id_from [span "mention" " @bob "] = Some "@bob" /\
  claimed_user_key [span "mention" " @bob "] = Some "@@bob" /\
  extract_user_id_from [span "mention" "bob"] = Some "bob" /\
  claimed_user_key [span "mention" "bob"] = Some "@bob".
Proof.
  repeat split; vm_compute; reflexivity.
Qed.

(** C8, amended.  The entities are scanned in order and the first that
    identifies the user wins: a mention gives its trimmed text as the key,
    with nothing added; a [mention_name] with a non-zero [user_id] gives
    "user_" followed by the decimal id; a [mention_name] without such an id
    is passed over.  With no entity of either kind there is no identity,
    and a message without identity leaves the three scripts as they were:
    no event, no row, no error. *)
Theorem user_key_is_first_identifying_entity :
  (forall m,
     extract_user_id m = option_map user_key_of (find identifies (msg_text_entities m))) /\
  (forall m,
     (forall e, In e (msg_text_entities m) ->
        type_is e "mention" = false /\ type_is e "mention_name" = false) ->
     extract_user_id m = None) /\
  (forall m,
     extract_user_id m = None ->
     (forall us, Reimport.collect us m = us) /\
     (forall st, Analyze.scan st m = st) /\
     ImportExport.import_message m = None).
Proof.
  split; [| split].
  - intros m. apply extract_user_id_from_find.
  - intros m H. unfold extract_user_id.
    induction (msg_text_entities m) as [| e r IH]; cbn [extract_user_id_from]; auto.
    destruct (H e (or_introl eq_refl)) as [-> ->]. apply IH.
    intros e' He'. apply H. now right.
  - intros m H. repeat split.
    + intros us. unfold Reimport.collect. now rewrite H.
    + intros st. unfold Analyze.scan. now rewrite H.
    + unfold ImportExport.import_message. now rewrite H.
Qed.

Lemma user_key_is_first_identifying_entity_witness :
  extract_user_id
    {| msg_text := Some (TextStr "оформил подписку");
       msg_text_entities := [span "bold" "€5"];
       msg_date := Some "2024-01-01" |} = None /\
  Reimport.collect []
    {| msg_text := Some (TextStr "оформил подписку");
       msg_text_entities := [span "bold" "€5"];
       msg_date := Some "2024-01-01" |} = [].
Proof.
  split.
  - apply (proj1 (proj2 user_key_is_first_identifying_entity)).
    intros e [<- | []]. split; reflexivity.
  - apply (proj2 (proj2 user_key_is_first_identifying_entity)).
    reflexivity.
Defined.

(** C10.  A message whose text holds the "created" or the "renewed" phrase
    and whose amount is a zero is dropped by each of the three scripts, as
    a message without amount is: the first pass of the re-import and the
    scan of the analyzer keep their state, the import submits no row.  The
    text "€0,00" gives such a zero. *)
Theorem zero_amount_is_dropped :
  (forall m s,
     Py.contains created_phrase (extract_text m) = true \/
     Py.contains renewed_phrase (extract_text m) = true ->
     extract_amount m = Some (S754_zero s) ->
     (forall us, Reimport.collect us m = us) /\
     (forall st, Analyze.scan st m = st) /\
     ImportExport.import_message m = None) /\
  (forall rest,
     extract_amount_from (span "bold" "€0,00" :: rest) = Some (S754_zero false)).
Proof.
  split.
  - intros m s Hk Ha. repeat split.
    + intros us. unfold Reimport.collect. rewrite Ha.
      destruct (extract_user_id m) as [uid |]; auto.
      destruct (msg_date m) as [d |]; auto.
      destruct (negb (Py.truthy_str uid) || negb (Py.truthy_str d)); auto.
      destruct (Py.contains created_phrase (extract_text m)); cbn [Py.truthy_ofloat Py.truthy_float]; auto.
      destruct Hk as [Hk | Hk]; [discriminate |]. now rewrite Hk.
    + intros st. unfold Analyze.scan. rewrite Ha.
      destruct (extract_user_id m) as [uid |]; auto.
      destruct (negb (Py.truthy_str uid)); auto.
      destruct (Py.contains created_phrase (extract_text m)); cbn [Py.truthy_float]; auto.
      destruct Hk as [Hk | Hk]; [discriminate |]. now rewrite Hk.
    + unfold ImportExport.import_message. rewrite Ha. cbn [Py.truthy_ofloat Py.truthy_float negb].
      now rewrite orb_true_r.
  - intros rest. vm_compute. reflexivity.
Qed.

Lemma zero_amount_is_dropped_witness :
  Reimport.collect []
    {| msg_text := Some (TextList [ItemDict (Some "@bob"); ItemStr " продлил подписку за ";
                                   ItemDict (Some "€0,00")]);
       msg_text_entities := [span "mention" "@bob"; span "bold" "€0,00"];
       msg_date := Some "2024-01-01" |} = [] /\
  ImportExport.import_message
    {| msg_text := Some (TextList [ItemDict (Some "@bob"); ItemStr " продлил подписку за ";
                                   ItemDict (Some "€0,00")]);
       msg_text_entities := [span "mention" "@bob"; span "bold" "€0,00"];
       msg_date := Some "2024-01-01" |} = None.
Proof.
  split;
    apply (proj1 zero_amount_is_dropped _ false); solve [right; reflexivity | reflexivity].
Defined.

(* ================================================================== *)
(** * The aggregator of [analyze_subscriptions.py] *)
(* ================================================================== *)

(** ** Sorting and extrema of the renewal counts *)

Lemma insert_nat_perm (x : nat) (l : list nat) : Permutation (Py.insert_nat x l) (x :: l).
Proof.
  induction l as [| y r IH]; simpl; auto.
  destruct (Nat.leb x y); auto.
  rewrite IH. apply perm_swap.
Qed.

Lemma sorted_perm (l : list nat) : Permutation (Py.sorted l) l.
Proof.
  induction l as [| x r IH]; simpl; auto.
  rewrite insert_nat_perm. auto.
Qed.

Lemma insert_nat_sorted (x : nat) (l : list nat) :
  LocallySorted le l -> LocallySorted le (Py.insert_nat x l).
Proof.
  induction 1 as [| y | y z r Hs IH Hyz]; simpl.
  - constructor.
  - destruct (Nat.leb x y) eqn:E.
    + apply Nat.leb_le in E. repeat constructor. exact E.
    + apply Nat.leb_gt in E. repeat constructor. lia.
  - destruct (Nat.leb x y) eqn:E.
    + apply Nat.leb_le in E. repeat constructor; auto.
    + apply Nat.leb_gt in E. simpl in IH. destruct (Nat.leb x z) eqn:E'.
      * apply Nat.leb_le in E'. constructor; [| lia]. constructor; auto.
      * constructor; auto.
Qed.

Lemma sorted_sorted (l : list nat) : LocallySorted le (Py.sorted l).
Proof.
  induction l as [| x r IH]; simpl.
  - constructor.
  - now apply insert_nat_sorted.
Qed.

Lemma sorted_length (l : list nat) : List.length (Py.sorted l) = List.length l.
Proof. apply Permutation_length, sorted_perm. Qed.

Lemma index_split {A : Type} (l : list A) (i : nat) :
  i < List.length l ->
  exists x l1 l2, Py.index l i = Py.Ok x /\ l = l1 ++ x :: l2 /\ List.length l1 = i.
Proof.
  intros Hi. unfold Py.index.
  destruct (nth_error l i) as [x |] eqn:E.
  - destruct (nth_error_split l i E) as (l1 & l2 & Hl & Hlen). eauto 6.
  - apply nth_error_None in E. lia.
Qed.

Lemma fold_min_spec (l : list nat) : forall x,
  (fold_left Nat.min l x = x \/ In (fold_left Nat.min l x) l) /\
  fold_left Nat.min l x <= x /\
  (forall y, In y l -> fold_left Nat.min l x <= y).
Proof.
  induction l as [| z r IH]; intros x; simpl.
  - repeat split; auto. intros y [].
  - destruct (IH (Nat.min x z)) as (H1 & H2 & H3). repeat split.
    + destruct H1 as [H1 | H1]; [| auto].
      rewrite H1. destruct (Nat.min_spec x z) as [[_ ->] | [_ ->]]; auto.
    + lia.
    + intros y [<- | Hy]; [lia | auto].
Qed.

Lemma fold_max_spec (l : list nat) : forall x,
  (fold_left Nat.max l x = x \/ In (fold_left Nat.max l x) l) /\
  x <= fold_left Nat.max l x /\
  (forall y, In y l -> y <= fold_left Nat.max l x).
Proof.
  induction l as [| z r IH]; intros x; simpl.
  - repeat split; auto. intros y [].
  - destruct (IH (Nat.max x z)) as (H1 & H2 & H3). repeat split.
    + destruct H1 as [H1 | H1]; [| auto].
      rewrite H1. destruct (Nat.max_spec x z) as [[_ ->] | [_ ->]]; auto.
    + lia.
    + intros y [<- | Hy]; [lia | auto].
Qed.

Lemma list_min_spec (l : list nat) :
  l <> [] ->
  exists m, Py.list_min l = Py.Ok m /\ In m l /\ forall y, In y l -> m <= y.
Proof.
  destruct l as [| x r]; [congruence | intros _].
  destruct (fold_min_spec r x) as (H1 & H2 & H3).
  exists (fold_left Nat.min r x). simpl. repeat split.
  - destruct H1 as [-> | H1]; auto.
  - intros y [<- | Hy]; auto.
Qed.

Lemma list_max_spec (l : list nat) :
  l <> [] ->
  exists m, Py.list_max l = Py.Ok m /\ In m l /\ forall y, In y l -> y <= m.
Proof.
  destruct l as [| x r]; [congruence | intros _].
  destruct (fold_max_spec r x) as (H1 & H2 & H3).
  exists (fold_left Nat.max r x). simpl. repeat split.
  - destruct H1 as [-> | H1]; auto.
  - intros y [<- | Hy]; auto.
Qed.

Lemma buckets_cover (l : list nat) :
  Py.count_if (fun r => Nat.eqb r 0) l + Py.count_if (fun r => Nat.eqb r 1) l
  + Py.count_if (fun r => Nat.ltb 1 r) l = List.length l.
Proof.
  unfold Py.count_if. induction l as [| x r IH]; simpl; auto.
  destruct x as [| [| x]]; simpl; lia.
Qed.

Lemma percent_ok (a b : Z) : b <> 0%Z -> Analyze.percent a b = Py.Ok (pct a b).
Proof.
  intros Hb. unfold Analyze.percent, Py.int_truediv.
  apply Z.eqb_neq in Hb. rewrite Hb. reflexivity.
Qed.

Lemma distribute_spec (total_users : Z) (rs : list nat) :
  rs <> [] ->
  total_users <> 0%Z ->
  exists mn mx med l1 l2,
    Analyze.distribute total_users rs =
      Py.Ok (Some
        {| Analyze.minimum := mn; Analyze.maximum := mx; Analyze.median := med;
           Analyze.no_renewals := Py.count_if (fun r => Nat.eqb r 0) rs;
           Analyze.one_renewal := Py.count_if (fun r => Nat.eqb r 1) rs;
           Analyze.multiple_renewals := Py.count_if (fun r => Nat.ltb 1 r) rs;
           Analyze.no_renewals_pct :=
             pct (Z.of_nat (Py.count_if (fun r => Nat.eqb r 0) rs)) total_users;
           Analyze.one_renewal_pct :=
             pct (Z.of_nat (Py.count_if (fun r => Nat.eqb r 1) rs)) total_users;
           Analyze.multiple_renewals_pct :=
             pct (Z.of_nat (Py.count_if (fun r => Nat.ltb 1 r) rs)) total_users |}) /\
    (In mn rs /\ forall y, In y rs -> mn <= y) /\
    (In mx rs /\ forall y, In y rs -> y <= mx) /\
    Py.sorted rs = l1 ++ med :: l2 /\
    List.length l1 = Nat.div (List.length rs) 2.
Proof.
  intros Hne Hu.
  destruct (list_min_spec rs Hne) as (mn & Hmn & Hmn1 & Hmn2).
  destruct (list_max_spec rs Hne) as (mx & Hmx & Hmx1 & Hmx2).
  destruct (index_split (Py.sorted rs) (Nat.div (List.length rs) 2))
    as (med & l1 & l2 & Hi & Hl & Hlen).
  { rewrite sorted_length. apply Nat.div_lt; [| lia].
    destruct rs; [congruence | simpl; lia]. }
  exists mn, mx, med, l1, l2. repeat split; auto.
  unfold Analyze.distribute. destruct rs as [| x r]; [congruence |].
  rewrite Hmn, Hmx, Hi. cbn [Py.bind].
  rewrite !percent_ok by exact Hu. reflexivity.
Qed.

(** C6, as the claim states it, fails: on an even number of counts the
    reported median is the upper of the two middle elements. *)
Lemma median_of_two_is_the_greater :
  (exists d, Analyze.distribute 2 [0; 1] = Py.Ok (Some d) /\ Analyze.median d = 1) /\
  Py.sorted [0; 1] = [0; 1] /\
  nth_error (Py.sorted [0; 1]) (Nat.div (List.length [0; 1] - 1) 2) = Some 0.
Proof.
  split; [| split; reflexivity].
  eexists. split; [vm_compute; reflexivity | reflexivity].
Qed.

(** C6, amended.  For a non-empty list of renewal counts (and a non-zero
    number of subscribers) the figures are produced, and the median is the
    element of index [len // 2] of the ascending arrangement of the counts:
    as many elements precede it as follow it when the length is odd, one
    more precedes it when the length is even (the upper middle).  Minimum
    and maximum are the least and the greatest count; the three buckets
    count the zeros, the ones and the counts above one, and cover the list.
    For [0, 0, 1, 2, 3]: min 0, max 3, median 1, buckets 2, 1, 2. *)
Theorem median_is_upper_middle :
  (forall total_users rs,
     rs <> [] ->
     total_users <> 0%Z ->
     exists d l1 l2,
       Analyze.distribute total_users rs = Py.Ok (Some d) /\
       Py.sorted rs = l1 ++ Analyze.median d :: l2 /\
       LocallySorted le (Py.sorted rs) /\
       Permutation (Py.sorted rs) rs /\
       List.length l1 = Nat.div (List.length rs) 2 /\
       (Nat.even (List.length rs) = true -> List.length l1 = S (List.length l2)) /\
       (Nat.even (List.length rs) = false -> List.length l1 = List.length l2) /\
       In (Analyze.minimum d) rs /\
       (forall y, In y rs -> Analyze.minimum d <= y) /\
       In (Analyze.maximum d) rs /\
       (forall y, In y rs -> y <= Analyze.maximum d) /\
       Analyze.no_renewals d = List.length (filter (fun r => Nat.eqb r 0) rs) /\
       Analyze.one_renewal d = List.length (filter (fun r => Nat.eqb r 1) rs) /\
       Analyze.multiple_renewals d = List.length (filter (fun r => Nat.ltb 1 r) rs) /\
       Analyze.no_renewals d + Analyze.one_renewal d + Analyze.multiple_renewals d
         = List.length rs)
  /\
  (forall total_users,
     total_users <> 0%Z ->
     exists d,
       Analyze.distribute total_users [0; 0; 1; 2; 3] = Py.Ok (Some d) /\
       Analyze.minimum d = 0 /\ Analyze.maximum d = 3 /\ Analyze.median d = 1 /\
       Analyze.no_renewals d = 2 /\ Analyze.one_renewal d = 1 /\
       Analyze.multiple_renewals d = 2).
Proof.
  split.
  - intros total_users rs Hne Hu.
    destruct (distribute_spec total_users rs Hne Hu)
      as (mn & mx & med & l1 & l2 & Hd & (Hmn1 & Hmn2) & (Hmx1 & Hmx2) & Hl & Hlen).
    eexists. exists l1, l2. split; [exact Hd |].
    cbn [Analyze.median Analyze.minimum Analyze.maximum Analyze.no_renewals
         Analyze.one_renewal Analyze.multiple_renewals].
    assert (Hn : List.length rs = List.length l1 + S (List.length l2)).
    { rewrite <- sorted_length, Hl, length_app. reflexivity. }
    repeat split; auto using sorted_sorted, sorted_perm, buckets_cover.
    + intros He. apply Nat.even_spec in He. destruct He as [k Hk].
      rewrite Hk in Hlen. replace (2 * k) with (k * 2) in Hlen by lia.
      rewrite Nat.div_mul in Hlen by lia. lia.
    + intros He. rewrite <- Nat.negb_odd in He. apply negb_false_iff in He.
      apply Nat.odd_spec in He. destruct He as [k Hk].
      rewrite Hk in Hlen. replace (2 * k + 1) with (1 + k * 2) in Hlen by lia.
      rewrite Nat.div_add in Hlen by lia. simpl in Hlen. lia.
  - intros total_users Hu.
    eexists. split.
    + unfold Analyze.distribute. cbn [Py.list_min Py.list_max Py.bind].
      rewrite !percent_ok by exact Hu. cbn. reflexivity.
    + repeat split.
Qed.

Lemma median_is_upper_middle_witness :
  (exists d l1 l2,
     Analyze.distribute 4 [3; 0; 2; 1] = Py.Ok (Some d) /\
     Py.sorted [3; 0; 2; 1] = l1 ++ Analyze.median d :: l2 /\
     List.length l1 = S (List.length l2)) /\
  (exists d,
     Analyze.distribute 5 [0; 0; 1; 2; 3] = Py.Ok (Some d) /\ Analyze.median d = 1).
Proof.
  split.
  - destruct (proj1 median_is_upper_middle 4%Z [3; 0; 2; 1])
      as (d & l1 & l2 & Hd & Hl & _ & _ & _ & He & _); [discriminate | discriminate |].
    exists d, l1, l2. repeat split; auto.
  - destruct (proj2 median_is_upper_middle 5%Z) as (d & Hd & _ & _ & Hm & _);
      [discriminate |].
    exists d. auto.
Defined.

(** ** The rates *)

Lemma rates_positive (total_users total_cancelled : Z) (rs : list nat) :
  (0 < total_users)%Z ->
  exists avg,
    Analyze.rates total_users total_cancelled rs =
      Py.Ok (Analyze.PyFloat (pct total_cancelled total_users),
             Analyze.PyFloat (pct (total_users - total_cancelled) total_users),
             avg).
Proof.
  intros Hu. unfold Analyze.rates.
  assert (E : (0 <? total_users)%Z = true) by now apply Z.ltb_lt.
  rewrite E, !percent_ok by lia. cbn [Py.bind].
  destruct rs as [| x r]; cbn [Py.bind]; [eauto |].
  unfold Py.int_truediv.
  assert (E' : (Z.of_nat (List.length (x :: r)) =? 0)%Z = false)
    by (apply Z.eqb_neq; simpl; lia).
  rewrite E'. cbn [Py.bind]. eauto.
Qed.

Lemma rates_zero (total_users total_cancelled : Z) (rs : list nat) :
  (total_users <= 0)%Z ->
  Analyze.rates total_users total_cancelled rs =
    Py.Ok (Analyze.PyInt 0, Analyze.PyInt 0, Analyze.PyInt 0).
Proof.
  intros Hu. unfold Analyze.rates.
  assert (E : (0 <? total_users)%Z = false) by now apply Z.ltb_ge.
  now rewrite E.
Qed.

Lemma distribute_ok (total_users : Z) (rs : list nat) :
  (rs = [] \/ total_users <> 0%Z) ->
  exists d, Analyze.distribute total_users rs = Py.Ok d.
Proof.
  intros [-> | Hu]; [simpl; eauto |].
  destruct rs as [| x r]; [simpl; eauto |].
  destruct (distribute_spec total_users (x :: r)) as (? & ? & ? & ? & ? & H & _);
    [discriminate | exact Hu | eauto].
Qed.

(** The figures of one amount, whenever a non-empty list of counts comes
    with a non-empty set of subscribers. *)
Lemma report_of_spec (users cancelled_users : list string) (rs : list nat) :
  (rs = [] \/ users <> []) ->
  exists r,
    Analyze.report_of users cancelled_users rs = Py.Ok r /\
    Analyze.total_users r = Z.of_nat (List.length users) /\
    Analyze.total_cancelled r = Z.of_nat (List.length cancelled_users) /\
    Analyze.active_users r = (Analyze.total_users r - Analyze.total_cancelled r)%Z /\
    (Analyze.total_users r = 0%Z ->
       Analyze.churn_rate r = Analyze.PyInt 0 /\
       Analyze.retention_rate r = Analyze.PyInt 0) /\
    ((0 < Analyze.total_users r)%Z ->
       Analyze.churn_rate r =
         Analyze.PyFloat (pct (Analyze.total_cancelled r) (Analyze.total_users r)) /\
       Analyze.retention_rate r =
         Analyze.PyFloat
           (pct (Analyze.total_users r - Analyze.total_cancelled r) (Analyze.total_users r))).
Proof.
  intros Hinv. unfold Analyze.report_of.
  destruct (distribute_ok (Z.of_nat (List.length users)) rs) as (d & Hd).
  { destruct Hinv as [-> | Hu]; [now left | right].
    destruct users; [congruence | simpl; lia]. }
  destruct (Z.ltb_spec 0 (Z.of_nat (List.length users))) as [Hpos | Hzero].
  - destruct (rates_positive _ (Z.of_nat (List.length cancelled_users)) rs Hpos) as (avg & ->).
    cbn [Py.bind]. rewrite Hd. cbn [Py.bind].
    eexists. split; [reflexivity |].
    cbn [Analyze.total_users Analyze.total_cancelled Analyze.active_users
         Analyze.churn_rate Analyze.retention_rate].
    repeat split; auto; lia.
  - rewrite rates_zero by exact Hzero.
    cbn [Py.bind]. rewrite Hd. cbn [Py.bind].
    eexists. split; [reflexivity |].
    cbn [Analyze.total_users Analyze.total_cancelled Analyze.active_users
         Analyze.churn_rate Analyze.retention_rate].
    repeat split; auto; lia.
Qed.

Lemma set_add_not_nil (x : string) (s : list string) : Py.set_add x s <> [].
Proof.
  destruct s as [| y r]; simpl; [discriminate |].
  destruct (String.eqb y x); discriminate.
Qed.

(** Counts are appended only together with an addition to the set of
    subscribers. *)
Lemma visit_counts_with_users (amount : Py.float) (t : Analyze.tally)
    (entry : string * Analyze.amounts_data) :
  (Analyze.renewals_per_user t = [] \/ Analyze.users_with_amount t <> []) ->
  Analyze.renewals_per_user (Analyze.visit amount t entry) = [] \/
  Analyze.users_with_amount (Analyze.visit amount t entry) <> [].
Proof.
  intros H. unfold Analyze.visit. destruct entry as [user_id ad].
  destruct (Py.dict_mem Py.float_eqb amount (Analyze.tiers ad)); auto.
  destruct (Py.dict_get Py.float_eqb amount (Analyze.tiers ad)) as [info |]; auto.
  destruct (Analyze.subscriptions info); auto.
  destruct (Analyze.cancelled_mark ad); right; cbn; apply set_add_not_nil.
Qed.

Lemma tally_counts_with_users (amount : Py.float) (ud : list (string * Analyze.amounts_data)) :
  forall t,
    (Analyze.renewals_per_user t = [] \/ Analyze.users_with_amount t <> []) ->
    Analyze.renewals_per_user (fold_left (Analyze.visit amount) ud t) = [] \/
    Analyze.users_with_amount (fold_left (Analyze.visit amount) ud t) <> [].
Proof.
  induction ud as [| entry r IH]; intros t H; simpl; auto.
  apply IH. now apply visit_counts_with_users.
Qed.

Lemma analyze_amount_spec (ud : list (string * Analyze.amounts_data)) (amount : Py.float)
    (t : Analyze.tally) :
  exists r,
    Analyze.analyze_amount ud amount t = Py.Ok (r, Analyze.tally_amount amount ud t) /\
    Analyze.total_users r
      = Z.of_nat (List.length (Analyze.users_with_amount (Analyze.tally_amount amount ud t))) /\
    Analyze.total_cancelled r
      = Z.of_nat (List.length (Analyze.users_cancelled (Analyze.tally_amount amount ud t))) /\
    Analyze.active_users r = (Analyze.total_users r - Analyze.total_cancelled r)%Z /\
    (Analyze.total_users r = 0%Z ->
       Analyze.churn_rate r = Analyze.PyInt 0 /\
       Analyze.retention_rate r = Analyze.PyInt 0) /\
    ((0 < Analyze.total_users r)%Z ->
       Analyze.churn_rate r =
         Analyze.PyFloat (pct (Analyze.total_cancelled r) (Analyze.total_users r)) /\
       Analyze.retention_rate r =
         Analyze.PyFloat
           (pct (Analyze.total_users r - Analyze.total_cancelled r) (Analyze.total_users r))).
Proof.
  unfold Analyze.analyze_amount.
  destruct (report_of_spec
              (Analyze.users_with_amount (Analyze.tally_amount amount ud t))
              (Analyze.users_cancelled (Analyze.tally_amount amount ud t))
              (Analyze.renewals_per_user (Analyze.tally_amount amount ud t)))
    as (r & Hr & H).
  { unfold Analyze.tally_amount. apply tally_counts_with_users. now left. }
  exists r. rewrite Hr. cbn [Py.bind]. auto.
Qed.

Lemma analyze_amounts_ok (ud : list (string * Analyze.amounts_data)) (l : list Py.float) :
  forall t, exists out, Analyze.analyze_amounts ud l t = Py.Ok out.
Proof.
  induction l as [| amount r IH]; intros t; cbn [Analyze.analyze_amounts]; eauto.
  destruct (analyze_amount_spec ud amount t) as (rep & -> & _). cbn [Py.bind snd].
  destruct (IH (Analyze.tally_amount amount ud t)) as (out & ->). cbn [Py.bind]. eauto.
Qed.

Lemma rates_ok (total_users total_cancelled : Z) (rs : list nat) :
  exists out, Analyze.rates total_users total_cancelled rs = Py.Ok out.
Proof.
  destruct (Z.ltb_spec 0 total_users) as [Hpos | Hzero].
  - destruct (rates_positive total_users total_cancelled rs Hpos) as (avg & ->). eauto.
  - rewrite rates_zero by exact Hzero. eauto.
Qed.

(** The analysis never raises, whatever the messages. *)
Lemma analyze_subscriptions_ok (messages : list message) :
  exists out, Analyze.analyze_subscriptions messages = Py.Ok out.
Proof.
  unfold Analyze.analyze_subscriptions.
  destruct (analyze_amounts_ok (Analyze.user_data (Analyze.scan_all messages))
              Analyze.amounts Analyze.tally_initial) as ([reps t] & ->).
  cbn [Py.bind snd fst].
  destruct (rates_ok (Z.of_nat (List.length (Analyze.total_users_all t)))
              (Z.of_nat (List.length (Analyze.total_cancelled_all t)))
              (Analyze.total_renewals_all t)) as ([[c r] a] & ->).
  cbn [Py.bind]. eauto.
Qed.

(** C5, as the claim states it, fails: for a tier without subscribers the
    retention rate is 0, not 100.  With subscribers it is computed by its
    own quotient, which in binary64 need not be [100 - churn_rate]: for
    one cancellation among three subscribers the two differ in the last
    bit. *)
Lemma retention_of_empty_tier_is_zero :
  (exists r,
     Analyze.report_of [] [] [] = Py.Ok r /\
     Analyze.total_users r = 0%Z /\
     Analyze.churn_rate r = Analyze.PyInt 0 /\
     Analyze.retention_rate r = Analyze.PyInt 0) /\
  (exists avg,
     Analyze.rates 3 1 [0; 0; 0] =
       Py.Ok (Analyze.PyFloat (pct 1 3), Analyze.PyFloat (pct 2 3), avg)) /\
  Py.float_eqb (pct 2 3) (SFsub Py.prec Py.emax (Py.float_of_int 100) (pct 1 3)) = false.
Proof.
  split; [| split].
  - eexists. split; [reflexivity |]. repeat split.
  - eexists. vm_compute. reflexivity.
  - vm_compute. reflexivity.
Qed.

(** C5, amended.  For every tier the figures are produced without error:
    [active_count = subscriber_count - cancelled_count]; with no subscriber
    both rates are 0; with subscribers
    [churn_rate = cancelled_count / subscriber_count * 100] and
    [retention_rate = (subscriber_count - cancelled_count) / subscriber_count * 100],
    each computed in binary64.  The whole analysis never raises.  With 4
    subscribers of which 1 cancelled: churn 25.0, retention 75.0, 3 active. *)
Theorem rates_of_a_tier :
  (forall ud amount t,
     exists r,
       Analyze.analyze_amount ud amount t = Py.Ok (r, Analyze.tally_amount amount ud t) /\
       Analyze.total_users r
         = Z.of_nat (List.length (Analyze.users_with_amount (Analyze.tally_amount amount ud t))) /\
       Analyze.total_cancelled r
         = Z.of_nat (List.length (Analyze.users_cancelled (Analyze.tally_amount amount ud t))) /\
       Analyze.active_users r = (Analyze.total_users r - Analyze.total_cancelled r)%Z /\
       (Analyze.total_users r = 0%Z ->
          Analyze.churn_rate r = Analyze.PyInt 0 /\
          Analyze.retention_rate r = Analyze.PyInt 0) /\
       ((0 < Analyze.total_users r)%Z ->
          Analyze.churn_rate r =
            Analyze.PyFloat (pct (Analyze.total_cancelled r) (Analyze.total_users r)) /\
          Analyze.retention_rate r =
            Analyze.PyFloat
              (pct (Analyze.total_users r - Analyze.total_cancelled r)
                   (Analyze.total_users r))))
  /\
  (forall messages, exists out, Analyze.analyze_subscriptions messages = Py.Ok out)
  /\
  (forall users cancelled_users rs,
     List.length users = 4 ->
     List.length cancelled_users = 1 ->
     exists r,
       Analyze.report_of users cancelled_users rs = Py.Ok r /\
       Analyze.churn_rate r = Analyze.PyFloat (Py.float_of_int 25) /\
       Analyze.retention_rate r = Analyze.PyFloat (Py.float_of_int 75) /\
       Analyze.active_users r = 3%Z).
Proof.
  split; [| split].
  - apply analyze_amount_spec.
  - apply analyze_subscriptions_ok.
  - intros users cancelled_users rs Hu Hc.
    destruct (report_of_spec users cancelled_users rs) as (r & Hr & Htu & Htc & Ha & _ & Hp).
    { right. destruct users; [discriminate | discriminate]. }
    rewrite Hu in Htu. rewrite Hc in Htc.
    exists r. split; [exact Hr |].
    destruct Hp as [Hch Hre]; [rewrite Htu; reflexivity |].
    rewrite Hch, Hre, Ha, Htu, Htc. repeat split.
Qed.

Lemma rates_of_a_tier_witness :
  exists r,
    Analyze.report_of ["@a"; "@b"; "@c"; "@d"] ["@c"] [0; 2; 1; 0] = Py.Ok r /\
    Analyze.churn_rate r = Analyze.PyFloat (Py.float_of_int 25) /\
    Analyze.retention_rate r = Analyze.PyFloat (Py.float_of_int 75) /\
    Analyze.active_users r = 3%Z.
Proof.
  apply (proj2 (proj2 rates_of_a_tier)); reflexivity.
Defined.

(** ** Dictionaries under an equivalence of keys *)

Section DictFacts.
Context {K V : Type}.
Variable keq : K -> K -> bool.
Hypothesis keq_sym : forall a b, keq a b = keq b a.
Hypothesis keq_trans : forall a b c, keq a b = true -> keq b c = true -> keq a c = true.

Lemma keq_false_l (k0 k k' : K) :
  keq k0 k' = true -> keq k' k = false -> keq k0 k = false.
Proof.
  intros H1 H2. destruct (keq k0 k) eqn:E; auto.
  assert (H : keq k' k = true)
    by (apply keq_trans with k0; [rewrite keq_sym; exact H1 | exact E]).
  congruence.
Qed.

Lemma keq_false_r (k0 k k' : K) :
  keq k0 k' = false -> keq k0 k = true -> keq k' k = false.
Proof.
  intros H1 H2. destruct (keq k' k) eqn:E; auto.
  assert (H : keq k0 k' = true)
    by (apply keq_trans with k; [exact H2 | rewrite keq_sym; exact E]).
  congruence.
Qed.

Lemma dict_get_update (dflt : V) (k' : K) (f : V -> V) (k : K) (d : list (K * V)) :
  Py.dict_get keq k (Py.dict_update keq dflt k' f d) =
  if keq k' k
  then Some (f (match Py.dict_get keq k' d with Some v => v | None => dflt end))
  else Py.dict_get keq k d.
Proof.
  induction d as [| [k0 v0] r IH]; cbn [Py.dict_update Py.dict_get].
  - destruct (keq k' k); reflexivity.
  - destruct (keq k0 k') eqn:E0; cbn [Py.dict_get].
    + destruct (keq k' k) eqn:E.
      * now rewrite (keq_trans _ _ _ E0 E).
      * now rewrite (keq_false_l _ _ _ E0 E).
    + destruct (keq k0 k) eqn:E1.
      * now rewrite (keq_false_r _ _ _ E0 E1).
      * exact IH.
Qed.

Lemma dict_get_equiv (k k' : K) (d : list (K * V)) :
  keq k' k = true -> Py.dict_get keq k d = Py.dict_get keq k' d.
Proof.
  intros E. induction d as [| [k0 v0] r IH]; cbn [Py.dict_get]; auto.
  destruct (keq k0 k') eqn:E0.
  - now rewrite (keq_trans _ _ _ E0 E).
  - destruct (keq k0 k) eqn:E1; auto.
    assert (H : keq k0 k' = true)
      by (apply keq_trans with k; [exact E1 | rewrite keq_sym; exact E]).
    congruence.
Qed.

End DictFacts.

Lemma str_eqb_trans (a b c : string) :
  String.eqb a b = true -> String.eqb b c = true -> String.eqb a c = true.
Proof. rewrite !String.eqb_eq. congruence. Qed.

Lemma dict_update_keys {V : Type} (dflt : V) (k : string) (f : V -> V)
    (d : list (string * V)) :
  map fst (Py.dict_update String.eqb dflt k f d) = map fst d \/
  (map fst (Py.dict_update String.eqb dflt k f d) = map fst d ++ [k] /\
   ~ In k (map fst d)).
Proof.
  induction d as [| [k0 v0] r IH]; cbn [Py.dict_update map fst].
  - right. split; [reflexivity | intros []].
  - destruct (String.eqb k0 k) eqn:E; cbn [map fst]; [now left |].
    apply String.eqb_neq in E.
    destruct IH as [-> | [-> Hn]]; [now left | right].
    split; [reflexivity |]. intros [H | H]; auto.
Qed.

Lemma dict_update_nodup {V : Type} (dflt : V) (k : string) (f : V -> V)
    (d : list (string * V)) :
  NoDup (map fst d) -> NoDup (map fst (Py.dict_update String.eqb dflt k f d)).
Proof.
  intros H. destruct (dict_update_keys dflt k f d) as [-> | [-> Hn]]; auto.
  apply NoDup_app; auto.
  - constructor; [intros [] | constructor].
  - intros x Hx [<- | []]. auto.
Qed.

Lemma dict_get_in {V : Type} (k : string) (v : V) (d : list (string * V)) :
  Py.dict_get String.eqb k d = Some v -> In (k, v) d.
Proof.
  induction d as [| [k0 v0] r IH]; cbn [Py.dict_get]; [discriminate |].
  destruct (String.eqb k0 k) eqn:E.
  - apply String.eqb_eq in E. intros H. inversion H; subst. now left.
  - intros H. right. auto.
Qed.

Lemma in_dict_get {V : Type} (k : string) (v : V) (d : list (string * V)) :
  NoDup (map fst d) -> In (k, v) d -> Py.dict_get String.eqb k d = Some v.
Proof.
  induction d as [| [k0 v0] r IH]; cbn [Py.dict_get map fst]; [intros _ [] |].
  intros Hn [H | H].
  - inversion H; subst. now rewrite String.eqb_refl.
  - inversion Hn as [| ? ? Hk0 Hr]; subst.
    destruct (String.eqb k0 k) eqn:E; auto.
    apply String.eqb_eq in E. subst k0. exfalso. apply Hk0.
    apply in_map_iff. exists (k, v). auto.
Qed.

(** ** What the scan records *)

Lemma recorded_update_tier (uid : string) (a : Py.float)
    (f : Analyze.user_info -> Analyze.user_info)
    (ud : list (string * Analyze.amounts_data)) (u : string) (amount : Py.float) :
  recorded_subscriptions (Analyze.update_tier uid a f ud) u amount =
  if String.eqb uid u && Py.float_eqb a amount
  then Analyze.subscriptions
         (f (match Py.dict_get String.eqb uid ud with
             | Some ad =>
                 match Py.dict_get Py.float_eqb a (Analyze.tiers ad) with
                 | Some i => i
                 | None => Analyze.new_info
                 end
             | None => Analyze.new_info
             end))
  else recorded_subscriptions ud u amount.
Proof.
  unfold recorded_subscriptions, Analyze.update_tier.
  rewrite (dict_get_update String.eqb String.eqb_sym str_eqb_trans).
  destruct (String.eqb uid u) eqn:Eu; cbn [andb]; [| reflexivity].
  cbn [Analyze.tiers].
  rewrite (dict_get_update Py.float_eqb float_eqb_sym float_eqb_trans).
  apply String.eqb_eq in Eu. subst u.
  destruct (Py.float_eqb a amount); destruct (Py.dict_get String.eqb uid ud);
    reflexivity.
Qed.

Lemma recorded_at_equal_key (uid : string) (a amount : Py.float)
    (ud : list (string * Analyze.amounts_data)) :
  Py.float_eqb a amount = true ->
  Analyze.subscriptions
    (match Py.dict_get String.eqb uid ud with
     | Some ad =>
         match Py.dict_get Py.float_eqb a (Analyze.tiers ad) with
         | Some i => i
         | None => Analyze.new_info
         end
     | None => Analyze.new_info
     end) = recorded_subscriptions ud uid amount.
Proof.
  intros E. unfold recorded_subscriptions.
  destruct (Py.dict_get String.eqb uid ud) as [ad |]; [| reflexivity].
  rewrite (dict_get_equiv Py.float_eqb float_eqb_sym float_eqb_trans amount a _ E).
  destruct (Py.dict_get Py.float_eqb a (Analyze.tiers ad)); reflexivity.
Qed.

Lemma recorded_mark_cancelled (uid date : string)
    (ud : list (string * Analyze.amounts_data)) (u : string) (amount : Py.float) :
  recorded_subscriptions (Analyze.mark_cancelled uid date ud) u amount =
  recorded_subscriptions ud u amount.
Proof.
  unfold recorded_subscriptions, Analyze.mark_cancelled.
  rewrite (dict_get_update String.eqb String.eqb_sym str_eqb_trans).
  destruct (String.eqb uid u) eqn:Eu; [| reflexivity].
  apply String.eqb_eq in Eu. subst u. cbn [Analyze.tiers].
  destruct (Py.dict_get String.eqb uid ud); reflexivity.
Qed.

(** One round of the scan adds a subscription date at a tier exactly for a
    "created" message of that user at that tier. *)
Lemma scan_recorded (st : Analyze.scan_state) (m : message) (u : string) (amount : Py.float) :
  recorded_subscriptions (Analyze.user_data (Analyze.scan st m)) u amount =
  recorded_subscriptions (Analyze.user_data st) u amount ++
  (if created_at_tier u amount m
   then [match msg_date m with Some d => d | None => "" end]
   else []).
Proof.
  unfold Analyze.scan, created_at_tier.
  destruct (extract_user_id m) as [uid |]; [| now rewrite app_nil_r].
  destruct (Py.truthy_str uid); cbn [negb].
  2:{ rewrite andb_false_r. cbn [andb].
      destruct (extract_amount m); now rewrite app_nil_r. }
  rewrite andb_true_r.
  destruct (Py.contains created_phrase (extract_text m)).
  - rewrite andb_true_r.
    destruct (extract_amount m) as [a |]; [| now rewrite app_nil_r].
    destruct (Py.truthy_float a).
    + rewrite andb_true_r. cbn [Analyze.user_data]. rewrite recorded_update_tier.
      destruct (String.eqb uid u) eqn:Eu; cbn [andb]; [| now rewrite app_nil_r].
      apply String.eqb_eq in Eu. subst u.
      destruct (Py.float_eqb a amount) eqn:Ea; [| now rewrite app_nil_r].
      cbn [Analyze.add_subscription Analyze.subscriptions].
      now rewrite (recorded_at_equal_key uid a amount _ Ea).
    + rewrite andb_false_r. cbn [andb]. now rewrite app_nil_r.
  - rewrite andb_false_r. cbn [andb].
    destruct (Py.contains renewed_phrase (extract_text m)).
    + destruct (extract_amount m) as [a |] eqn:Ea; [| now rewrite app_nil_r].
      destruct (Py.truthy_float a); [| now rewrite app_nil_r].
      cbn [Analyze.user_data]. rewrite recorded_update_tier, app_nil_r.
      destruct (String.eqb uid u) eqn:Eu; cbn [andb]; [| reflexivity].
      apply String.eqb_eq in Eu. subst u.
      destruct (Py.float_eqb a amount) eqn:Ef; [| reflexivity].
      cbn [Analyze.add_renewal Analyze.subscriptions].
      now rewrite (recorded_at_equal_key uid a amount _ Ef).
    + destruct (Py.contains cancel_phrase (extract_text m) &&
                Py.contains subscription_noun (extract_text m)).
      * cbn [Analyze.user_data]. rewrite recorded_mark_cancelled.
        destruct (extract_amount m); now rewrite app_nil_r.
      * destruct (extract_amount m); now rewrite app_nil_r.
Qed.

Lemma scan_all_recorded (messages : list message) (u : string) (amount : Py.float) :
  forall st,
    recorded_subscriptions (Analyze.user_data (fold_left Analyze.scan messages st)) u amount
      <> [] <->
    recorded_subscriptions (Analyze.user_data st) u amount <> [] \/
    existsb (created_at_tier u amount) messages = true.
Proof.
  induction messages as [| m r IH]; intros st; cbn [fold_left existsb].
  - split; [auto | intros [H | H]; [auto | discriminate]].
  - rewrite IH, scan_recorded.
    destruct (created_at_tier u amount m); cbn [orb].
    + split; [auto | intros _; left]. intros H. apply app_eq_nil in H.
      destruct H as [_ H]. discriminate.
    + rewrite app_nil_r. reflexivity.
Qed.

Lemma scan_nodup (st : Analyze.scan_state) (m : message) :
  NoDup (map fst (Analyze.user_data st)) ->
  NoDup (map fst (Analyze.user_data (Analyze.scan st m))).
Proof.
  intros H. unfold Analyze.scan.
  destruct (extract_user_id m) as [uid |]; auto.
  destruct (negb (Py.truthy_str uid)); auto.
  destruct (Py.contains created_phrase (extract_text m)).
  { destruct (extract_amount m) as [a |]; auto.
    destruct (Py.truthy_float a); auto. now apply dict_update_nodup. }
  destruct (Py.contains renewed_phrase (extract_text m)).
  { destruct (extract_amount m) as [a |]; auto.
    destruct (Py.truthy_float a); auto. now apply dict_update_nodup. }
  destruct (Py.contains cancel_phrase (extract_text m) &&
            Py.contains subscription_noun (extract_text m)); auto.
  now apply dict_update_nodup.
Qed.

Lemma scan_all_nodup (messages : list message) :
  forall st,
    NoDup (map fst (Analyze.user_data st)) ->
    NoDup (map fst (Analyze.user_data (fold_left Analyze.scan messages st))).
Proof.
  induction messages as [| m r IH]; intros st H; cbn [fold_left]; auto.
  apply IH. now apply scan_nodup.
Qed.

(** ** Who is counted for a tier *)

Lemma set_add_in (x y : string) (s : list string) :
  In x (Py.set_add y s) <-> x = y \/ In x s.
Proof.
  induction s as [| z r IH]; cbn [Py.set_add].
  - simpl. intuition.
  - destruct (String.eqb z y) eqn:E.
    + apply String.eqb_eq in E. subst z. simpl. intuition.
    + simpl. rewrite IH. intuition.
Qed.

Lemma visit_users (amount : Py.float) (t : Analyze.tally) (user_id : string)
    (ad : Analyze.amounts_data) (u : string) :
  In u (Analyze.users_with_amount (Analyze.visit amount t (user_id, ad))) <->
  In u (Analyze.users_with_amount t) \/
  (u = user_id /\ recorded_subscriptions [(user_id, ad)] user_id amount <> []).
Proof.
  unfold Analyze.visit, Py.dict_mem, recorded_subscriptions. cbn [Py.dict_get].
  rewrite String.eqb_refl.
  destruct (Py.dict_get Py.float_eqb amount (Analyze.tiers ad)) as [info |].
  - destruct (Analyze.subscriptions info) as [| d ds].
    + intuition congruence.
    + destruct (Analyze.cancelled_mark ad); cbn [Analyze.users_with_amount];
        rewrite set_add_in; intuition congruence.
  - intuition congruence.
Qed.

Lemma tally_users (amount : Py.float) (ud : list (string * Analyze.amounts_data)) (u : string) :
  forall t,
    In u (Analyze.users_with_amount (fold_left (Analyze.visit amount) ud t)) <->
    In u (Analyze.users_with_amount t) \/
    exists ad, In (u, ad) ud /\ recorded_subscriptions [(u, ad)] u amount <> [].
Proof.
  induction ud as [| [user_id ad] r IH]; intros t; cbn [fold_left].
  - split; [auto | intros [H | (ad & [] & _)]; auto].
  - rewrite IH, visit_users. split.
    + intros [[H | [-> H]] | (ad' & Hin & H)]; eauto.
      * right. exists ad. split; [now left | exact H].
      * right. exists ad'. split; [now right | exact H].
    + intros [H | (ad' & [Hin | Hin] & H)]; auto.
      * inversion Hin; subst. auto.
      * right. eauto.
Qed.

(** C4, as the claim states it, fails: a user whose only message is a
    renewal at 5 euros is recorded at that tier but is not counted among
    its subscribers; every tier reports 0 subscribers. *)
Lemma renewal_only_user_is_not_counted :
  existsb (renewed_at_tier "@al" (Py.float_of_int 5))
    [ {| msg_text := Some (TextStr "@al продлил подписку за €5");
         msg_text_entities := [span "mention" "@al"; span "bold" "€5"];
         msg_date := Some "2024-01-03" |} ] = true /\
  Analyze.users_with_amount
    (Analyze.tally_amount (Py.float_of_int 5)
       (Analyze.user_data
          (Analyze.scan_all
             [ {| msg_text := Some (TextStr "@al продлил подписку за €5");
                  msg_text_entities := [span "mention" "@al"; span "bold" "€5"];
                  msg_date := Some "2024-01-03" |} ]))
       Analyze.tally_initial) = [] /\
  (exists reports overall,
     Analyze.analyze_subscriptions
       [ {| msg_text := Some (TextStr "@al продлил подписку за €5");
            msg_text_entities := [span "mention" "@al"; span "bold" "€5"];
            msg_date := Some "2024-01-03" |} ] = Py.Ok (reports, overall) /\
     map Analyze.total_users reports = [0; 0; 0; 0]%Z).
Proof.
  split; [vm_compute; reflexivity | split; [vm_compute; reflexivity |]].
  eexists. eexists. split; vm_compute; reflexivity.
Qed.

(** C4, amended.  For every log of messages and every tier, a user is in
    the subscriber set of the tier if and only if some message of the log
    is a "created" event of that user at that tier.  Renewals do not count:
    a user with renewals only at a tier is not in its subscriber set. *)
Theorem subscribers_have_a_created_event :
  forall messages amount t user_id,
    In user_id
       (Analyze.users_with_amount
          (Analyze.tally_amount amount
             (Analyze.user_data (Analyze.scan_all messages)) t))
    <-> existsb (created_at_tier user_id amount) messages = true.
Proof.
  intros messages amount t u. unfold Analyze.tally_amount, Analyze.scan_all.
  rewrite tally_users. cbn [Analyze.fresh Analyze.users_with_amount In].
  assert (Hn : NoDup (map fst (Analyze.user_data
                                 (fold_left Analyze.scan messages Analyze.scan_initial)))).
  { apply scan_all_nodup. constructor. }
  pose proof (scan_all_recorded messages u amount Analyze.scan_initial) as Hr.
  change (recorded_subscriptions (Analyze.user_data Analyze.scan_initial) u amount)
    with (@nil string) in Hr.
  set (ud := Analyze.user_data (fold_left Analyze.scan messages Analyze.scan_initial)) in *.
  assert (Hl : (exists ad, In (u, ad) ud /\ recorded_subscriptions [(u, ad)] u amount <> [])
               <-> recorded_subscriptions ud u amount <> []).
  { unfold recorded_subscriptions. cbn [Py.dict_get]. rewrite String.eqb_refl. split.
    - intros (ad & Hin & H). now rewrite (in_dict_get u ad ud Hn Hin).
    - destruct (Py.dict_get String.eqb u ud) as [ad |] eqn:E; [| congruence].
      intros H. exists ad. split; [now apply dict_get_in | exact H]. }
  rewrite Hl, Hr. intuition congruence.
Qed.

Lemma subscribers_have_a_created_event_witness :
  In "@bob"
     (Analyze.users_with_amount
        (Analyze.tally_amount (Py.float_of_int 5)
           (Analyze.user_data
              (Analyze.scan_all
                 [ {| msg_text := Some (TextStr "@bob оформил подписку за €5,00");
                      msg_text_entities := [span "mention" "@bob"; span "bold" "€5,00"];
                      msg_date := Some "2024-01-01" |} ]))
           Analyze.tally_initial)).
Proof.
  apply (proj2 (subscribers_have_a_created_event _ _ _ _)).
  vm_compute. reflexivity.
Defined.

(* ================================================================== *)
(** * Further properties of the extractor *)
(* ================================================================== *)

(** ** Decimal text of an identity *)

Lemma digits_read_app (s t : string) : forall acc,
  digits_read (s ++ t)%string acc = digits_read t (digits_read s acc).
Proof.
  induction s as [| c r IH]; intros acc; simpl; auto.
Qed.

Lemma digit_val_char (p : Z) :
  Py.digit_val (Py.digit_char (Z.to_nat (p mod 10))) = (p mod 10)%Z.
Proof.
  assert (H : (0 <= p mod 10 < 10)%Z) by (apply Z.mod_pos_bound; lia).
  assert (C : (p mod 10 = 0 \/ p mod 10 = 1 \/ p mod 10 = 2 \/ p mod 10 = 3 \/
               p mod 10 = 4 \/ p mod 10 = 5 \/ p mod 10 = 6 \/ p mod 10 = 7 \/
               p mod 10 = 8 \/ p mod 10 = 9)%Z) by lia.
  repeat (destruct C as [C | C]; [rewrite C; reflexivity |]).
  rewrite C. reflexivity.
Qed.

Lemma pos_digits_read (n : nat) : forall p acc,
  (0 < p < 2 ^ Z.of_nat n)%Z ->
  exists ds,
    Py.pos_digits_fuel n p acc = (ds ++ acc)%string /\
    ds <> EmptyString /\
    (forall c r, ds = String c r -> Py.byte_is 45 c = false) /\
    forall a, digits_read ds a = (a * 10 ^ Z.of_nat (String.length ds) + p)%Z.
Proof.
  induction n as [| n IH]; intros p acc Hp.
  - simpl in Hp. lia.
  - cbn [Py.pos_digits_fuel].
    destruct (Z.ltb_spec p 10) as [Hlt | Hge].
    + exists (String (Py.digit_char (Z.to_nat (p mod 10))) EmptyString).
      repeat split.
      * discriminate.
      * intros c r H. inversion H; subst.
        rewrite Z.mod_small by lia.
        assert (C : (p = 1 \/ p = 2 \/ p = 3 \/ p = 4 \/ p = 5 \/ p = 6 \/ p = 7 \/
                     p = 8 \/ p = 9)%Z) by lia.
        repeat (destruct C as [C | C]; [rewrite C; reflexivity |]).
        rewrite C. reflexivity.
      * intros a. cbn [digits_read String.length]. rewrite digit_val_char.
        rewrite Z.mod_small by lia. change (Z.of_nat 1) with 1%Z. lia.
    + assert (Hq : (0 < p / 10 < 2 ^ Z.of_nat n)%Z).
      { split.
        - apply Z.div_str_pos. lia.
        - rewrite Nat2Z.inj_succ, Z.pow_succ_r in Hp by lia.
          apply Z.div_lt_upper_bound; lia. }
      destruct (IH (p / 10)%Z (String (Py.digit_char (Z.to_nat (p mod 10))) acc) Hq)
        as (ds & Hds & Hne & Hc & Hr).
      exists (ds ++ String (Py.digit_char (Z.to_nat (p mod 10))) EmptyString)%string.
      repeat split.
      * rewrite Hds. clear. induction ds as [| c r IHr]; simpl; auto. now rewrite IHr.
      * destruct ds; [congruence | discriminate].
      * intros c r H. destruct ds as [| c' r']; [congruence |].
        inversion H; subst. eapply Hc. reflexivity.
      * intros a. rewrite digits_read_app, Hr. cbn [digits_read].
        rewrite digit_val_char.
        assert (Hl : String.length
                       (ds ++ String (Py.digit_char (Z.to_nat (p mod 10))) EmptyString)
                     = S (String.length ds)).
        { clear. induction ds as [| c r IHr]; simpl; auto. }
        rewrite Hl, Nat2Z.inj_succ, Z.pow_succ_r by lia.
        pose proof (Z.div_mod p 10 ltac:(lia)). lia.
Qed.

Lemma int_of_str_of_int (z : Z) : int_of_str (Py.str_of_int z) = z.
Proof.
  destruct z as [| p | p].
  - reflexivity.
  - unfold Py.str_of_int.
    destruct (pos_digits_read (S (Z.to_nat (Z.log2 (Z.pos p)))) (Z.pos p) EmptyString)
      as (ds & Hds & Hne & Hc & Hr).
    { split; [lia |]. rewrite Nat2Z.inj_succ, Z2Nat.id by apply Z.log2_nonneg.
      apply Z.log2_spec. lia. }
    rewrite Hds. destruct ds as [| c r]; [congruence |].
    unfold int_of_str. cbn [append]. rewrite (Hc c r eq_refl).
    change (String c (r ++ EmptyString)%string) with (String c r ++ EmptyString)%string.
    rewrite digits_read_app, Hr. simpl. lia.
  - unfold Py.str_of_int.
    destruct (pos_digits_read (S (Z.to_nat (Z.log2 (- Z.neg p)))) (- Z.neg p) EmptyString)
      as (ds & Hds & Hne & Hc & Hr).
    { split; [lia |]. rewrite Nat2Z.inj_succ, Z2Nat.id by apply Z.log2_nonneg.
      apply Z.log2_spec. lia. }
    rewrite Hds. unfold int_of_str. cbn.
    rewrite digits_read_app, Hr. simpl. lia.
Qed.

Lemma type_is_eq (e : entity) (t : string) :
  type_is e t = true <-> ent_type e = Some t.
Proof.
  unfold type_is. destruct (ent_type e) as [t' |].
  - rewrite String.eqb_eq. split; congruence.
  - split; discriminate.
Qed.

(** Two [mention_name] entities with different non-zero ids never give the
    same user key, whatever follows them: the decimal text of the id is read
    back to the id. *)
Theorem numeric_user_keys_are_distinct :
  forall e1 e2 a b rest1 rest2,
    ent_type e1 = Some "mention_name" -> ent_user_id e1 = Some a -> a <> 0%Z ->
    ent_type e2 = Some "mention_name" -> ent_user_id e2 = Some b -> b <> 0%Z ->
    extract_user_id_from (e1 :: rest1) = extract_user_id_from (e2 :: rest2) ->
    a = b.
Proof.
  intros e1 e2 a b rest1 rest2 T1 U1 Ha T2 U2 Hb.
  cbn [extract_user_id_from]. unfold type_is. rewrite T1, T2, U1, U2.
  cbn. apply Z.eqb_neq in Ha, Hb. rewrite Ha, Hb.
  intros H. injection H as H.
  assert (E : Py.str_of_int a = Py.str_of_int b).
  { revert H. generalize (Py.str_of_int a) (Py.str_of_int b). intros x y H.
    now repeat (injection H as H). }
  rewrite <- (int_of_str_of_int a), <- (int_of_str_of_int b). now rewrite E.
Qed.

Lemma numeric_user_keys_are_distinct_witness :
  extract_user_id_from [named 7; span "bold" "€5"] = extract_user_id_from [named 7] /\
  7%Z = 7%Z.
Proof.
  split; [reflexivity |].
  apply (numeric_user_keys_are_distinct (named 7) (named 7) 7 7 [span "bold" "€5"] []);
    solve [reflexivity | discriminate].
Defined.

(** ** Identity and amount are read from disjoint entities *)

Lemma type_is_exclusive (e : entity) (t t' : string) :
  t <> t' -> type_is e t = true -> type_is e t' = false.
Proof.
  unfold type_is. destruct (ent_type e) as [x |]; [| discriminate].
  intros Hne H. apply String.eqb_eq in H. subst x. now apply String.eqb_neq.
Qed.

(** The amount depends on the bold entities alone and the identity and the
    user name on the others: bold entities can be removed without changing
    the user key or the user name, all other entities without changing the
    amount, so the order between the two groups does not matter. *)
Theorem identity_and_amount_are_independent :
  forall entities,
    extract_amount_from entities = extract_amount_from (filter is_bold entities) /\
    extract_user_id_from entities
      = extract_user_id_from (filter (fun e => negb (is_bold e)) entities) /\
    username_from entities
      = username_from (filter (fun e => negb (is_bold e)) entities).
Proof.
  intros entities. unfold is_bold.
  induction entities as [| e r (IHa & IHu & IHn)]; [repeat split |].
  cbn [filter]. destruct (type_is e "bold") eqn:Eb; cbn [negb].
  - assert (Em : type_is e "mention" = false)
      by (apply (type_is_exclusive e "bold"); [discriminate | exact Eb]).
    assert (En : type_is e "mention_name" = false)
      by (apply (type_is_exclusive e "bold"); [discriminate | exact Eb]).
    repeat split.
    + cbn [extract_amount_from]. rewrite Eb, IHa. reflexivity.
    + cbn [extract_user_id_from]. now rewrite Em, En.
    + cbn [username_from]. now rewrite Em.
  - repeat split.
    + cbn [extract_amount_from]. now rewrite Eb.
    + cbn [extract_user_id_from]. rewrite IHu. reflexivity.
    + cbn [username_from]. rewrite IHn. reflexivity.
Qed.

(** ** The stored user name *)

Lemma replace_at_sign (s : string) :
  Py.contains "@" (Py.replace_from "@" "" 0 s) = false.
Proof.
  induction s as [| c r IH]; [reflexivity |].
  cbn [Py.replace_from]. unfold String.prefix at 1.
  destruct (ascii_dec "@" c) as [E | E].
  - destruct r; cbn [String.length Nat.sub append]; exact IH.
  - cbn [Py.contains]. rewrite IH. unfold String.prefix.
    destruct (ascii_dec "@" c) as [E' | E']; [contradiction | reflexivity].
Qed.

(** The user name taken by the two import scripts from the first mention
    never holds an "@". *)
Theorem username_has_no_at_sign :
  forall entities u, username_from entities = Some u -> Py.contains "@" u = false.
Proof.
  induction entities as [| e r IH]; cbn [username_from]; intros u H; [discriminate |].
  destruct (type_is e "mention"); [| now apply IH].
  injection H as <-. apply replace_at_sign.
Qed.

Lemma username_has_no_at_sign_witness :
  Py.contains "@" "bobat" = false.
Proof.
  apply (username_has_no_at_sign [span "bold" "€5"; span "mention" "@bob@at"]).
  reflexivity.
Defined.

(* ================================================================== *)
(** * The first pass of the re-import *)
(* ================================================================== *)

Lemma collect_raw_event (us : list (string * list Reimport.event)) (m : message) :
  Reimport.collect us m =
  match raw_event m with
  | Some (u, e) => Reimport.append_event u e us
  | None => us
  end.
Proof.
  unfold raw_event, Reimport.collect.
  destruct (extract_user_id m) as [uid |]; [| reflexivity].
  destruct (msg_date m) as [d |]; [| reflexivity].
  destruct (negb (Py.truthy_str uid) || negb (Py.truthy_str d)); [reflexivity |].
  destruct (Py.contains created_phrase (extract_text m)).
  { destruct (Py.truthy_ofloat (extract_amount m)); reflexivity. }
  destruct (Py.contains renewed_phrase (extract_text m)).
  { destruct (Py.truthy_ofloat (extract_amount m)); reflexivity. }
  destruct (Py.contains cancel_phrase (extract_text m) &&
            Py.contains subscription_noun (extract_text m)); reflexivity.
Qed.

Lemma raw_event_well_formed (m : message) (u : string) (e : Reimport.event) :
  raw_event m = Some (u, e) -> Py.truthy_str u = true /\ well_formed e.
Proof.
  unfold raw_event, Reimport.collect, well_formed.
  destruct (extract_user_id m) as [uid |]; [| discriminate].
  destruct (msg_date m) as [d |]; [| discriminate].
  destruct (Py.truthy_str uid) eqn:Eu; [| discriminate].
  destruct (Py.truthy_str d) eqn:Ed; [| discriminate].
  cbn [negb orb].
  destruct (Py.contains created_phrase (extract_text m)).
  { destruct (Py.truthy_ofloat (extract_amount m)) eqn:Ea; [| discriminate].
    cbn. intros H. injection H as <- <-. cbn. auto. }
  destruct (Py.contains renewed_phrase (extract_text m)).
  { destruct (Py.truthy_ofloat (extract_amount m)) eqn:Ea; [| discriminate].
    cbn. intros H. injection H as <- <-. cbn. auto. }
  destruct (Py.contains cancel_phrase (extract_text m) &&
            Py.contains subscription_noun (extract_text m)); [| discriminate].
  cbn. intros H. injection H as <- <-. cbn. auto.
Qed.

Lemma dict_update_in {V : Type} (dflt : V) (k : string) (f : V -> V)
    (d : list (string * V)) (k' : string) (v : V) :
  In (k', v) (Py.dict_update String.eqb dflt k f d) ->
  In (k', v) d \/
  (k' = k /\ exists v0, v = f v0 /\ (v0 = dflt \/ In (k, v0) d)).
Proof.
  induction d as [| [k0 v0] r IH]; cbn [Py.dict_update].
  - intros [H | []]. injection H as <- <-. right. split; eauto.
  - destruct (String.eqb k0 k) eqn:E.
    + apply String.eqb_eq in E. subst k0. intros [H | H].
      * injection H as <- <-. right. split; [reflexivity |].
        exists v0. split; [reflexivity | right; now left].
      * left. now right.
    + intros [H | H].
      * left. now left.
      * destruct (IH H) as [H' | (-> & v1 & -> & [-> | H'])].
        -- left. now right.
        -- right. split; eauto.
        -- right. split; [reflexivity |]. exists v1. split; [reflexivity |].
           right. now right.
Qed.

Lemma collect_ok (us : list (string * list Reimport.event)) (m : message) :
  collected_ok us -> collected_ok (Reimport.collect us m).
Proof.
  intros [Hn Hw]. rewrite collect_raw_event.
  destruct (raw_event m) as [[u e] |] eqn:Er; [| split; auto].
  destruct (raw_event_well_formed m u e Er) as [Hu He].
  unfold Reimport.append_event. split.
  - now apply dict_update_nodup.
  - intros u' evs Hin. apply dict_update_in in Hin.
    destruct Hin as [Hin | (-> & l0 & -> & [-> | Hin])].
    + now apply Hw.
    + split; [exact Hu |]. split; [discriminate |].
      cbn [app]. constructor; [exact He | constructor].
    + destruct (Hw u l0 Hin) as (_ & _ & Hf). split; [exact Hu |]. split.
      * destruct l0; discriminate.
      * apply Forall_app. split; [exact Hf |]. constructor; [exact He | constructor].
Qed.

Lemma first_pass_ok (messages : list message) :
  forall us, collected_ok us -> collected_ok (fold_left Reimport.collect messages us).
Proof.
  induction messages as [| m r IH]; intros us H; cbn [fold_left]; auto.
  apply IH. now apply collect_ok.
Qed.

Lemma collect_events_under (us : list (string * list Reimport.event)) (m : message)
    (u : string) :
  events_under (Reimport.collect us m) u = events_under us u ++ events_of u [m].
Proof.
  rewrite collect_raw_event. unfold events_of. cbn [flat_map]. rewrite app_nil_r.
  destruct (raw_event m) as [[u' e] |]; [| now rewrite app_nil_r].
  unfold events_under, Reimport.append_event.
  rewrite (dict_get_update String.eqb String.eqb_sym str_eqb_trans).
  destruct (String.eqb u' u) eqn:E; [| now rewrite app_nil_r].
  apply String.eqb_eq in E. subst u'. reflexivity.
Qed.

Lemma first_pass_events_under (messages : list message) (u : string) :
  forall us,
    events_under (fold_left Reimport.collect messages us) u
    = events_under us u ++ events_of u messages.
Proof.
  induction messages as [| m r IH]; intros us; cbn [fold_left].
  - unfold events_of. cbn. now rewrite app_nil_r.
  - rewrite IH, collect_events_under, <- app_assoc. f_equal.
    unfold events_of. cbn [flat_map]. now rewrite app_nil_r.
Qed.

(** The first pass groups the events by user without losing or reordering
    any: under each user key lies the list of the events of that user's
    messages, in the order of the log, and a user without events has no
    key. *)
Theorem first_pass_groups_by_user :
  forall messages u,
    Py.dict_get String.eqb u (Reimport.first_pass messages)
    = match events_of u messages with
      | [] => None
      | l => Some l
      end.
Proof.
  intros messages u.
  pose proof (first_pass_events_under messages u []) as H.
  change (fold_left Reimport.collect messages []) with (Reimport.first_pass messages) in H.
  unfold events_under in H. cbn [Py.dict_get app] in H.
  destruct (Py.dict_get String.eqb u (Reimport.first_pass messages)) as [l |] eqn:E.
  - rewrite <- H. destruct l; [| reflexivity].
    destruct (first_pass_ok messages []) as [_ Hw].
    { split; [constructor | intros ? ? []]. }
    apply dict_get_in in E. destruct (Hw _ _ E) as (_ & Hne & _). congruence.
  - now rewrite <- H.
Qed.

(** What the first pass hands to the second: the user keys are distinct and
    not empty, no user has an empty list of events, every event has a
    non-empty date, "created" and "renewed" events carry a non-zero amount
    and "cancelled" events carry none. *)
Theorem first_pass_events_are_well_formed :
  forall messages,
    NoDup (map fst (Reimport.first_pass messages)) /\
    forall u evs, In (u, evs) (Reimport.first_pass messages) ->
      Py.truthy_str u = true /\ evs <> [] /\ Forall well_formed evs.
Proof.
  intros messages. apply (first_pass_ok messages []).
  split; [constructor | intros ? ? []].
Qed.

(* ================================================================== *)
(** * The second pass of the re-import *)
(* ================================================================== *)

(** ** Users are reconciled independently *)

Lemma state_eq (a b : Reimport.state) :
  Reimport.cursor a = Reimport.cursor b ->
  Reimport.imported a = Reimport.imported b ->
  Reimport.cancellations_matched a = Reimport.cancellations_matched b ->
  Reimport.cancellations_unmatched a = Reimport.cancellations_unmatched b ->
  a = b.
Proof.
  destruct a, b. cbn. intros -> -> -> ->. reflexivity.
Qed.

Lemma plus_initial_r (st : Reimport.state) : plus_state st Reimport.initial = st.
Proof.
  apply state_eq; cbn; auto using app_nil_r.
Qed.

Lemma plus_state_assoc (a b c : Reimport.state) :
  plus_state (plus_state a b) c = plus_state a (plus_state b c).
Proof.
  apply state_eq; cbn; auto using app_assoc; try lia; now rewrite app_assoc.
Qed.

Lemma insert_plus (r : db_row) (a b : Reimport.state) :
  Reimport.insert r (plus_state a b) = plus_state a (Reimport.insert r b).
Proof.
  apply state_eq; cbn; auto; now rewrite app_assoc.
Qed.

Lemma count_matched_plus (a b : Reimport.state) :
  Reimport.count_matched (plus_state a b) = plus_state a (Reimport.count_matched b).
Proof.
  apply state_eq; cbn; auto; lia.
Qed.

Lemma count_unmatched_plus (a b : Reimport.state) :
  Reimport.count_unmatched (plus_state a b) = plus_state a (Reimport.count_unmatched b).
Proof.
  apply state_eq; cbn; auto; lia.
Qed.

Lemma step_frame (u : string) (st0 st : Reimport.state) (active : Reimport.open_tiers)
    (e : Reimport.event) :
  Reimport.step u (plus_state st0 st, active) e =
  Py.bind (Reimport.step u (st, active) e)
          (fun sa => Py.Ok (plus_state st0 (fst sa), snd sa)).
Proof.
  unfold Reimport.step. destruct (Reimport.ev_type e).
  - cbn [Py.bind fst snd]. now rewrite insert_plus.
  - cbn [Py.bind fst snd]. now rewrite insert_plus.
  - destruct active as [| p r].
    + cbn [Py.bind fst snd]. now rewrite count_unmatched_plus.
    + destruct (Py.max_by snd (p :: r)) as [[i item] |]; cbn [Py.bind]; [| reflexivity].
      destruct (Py.del_at i (p :: r)); cbn [Py.bind fst snd]; [| reflexivity].
      now rewrite insert_plus, count_matched_plus.
Qed.

Lemma run_frame (u : string) (st0 : Reimport.state) (events : list Reimport.event) :
  forall st active,
    Reimport.run u events (plus_state st0 st, active) =
    Py.bind (Reimport.run u events (st, active))
            (fun sa => Py.Ok (plus_state st0 (fst sa), snd sa)).
Proof.
  induction events as [| e r IH]; intros st active; cbn [Reimport.run].
  - reflexivity.
  - rewrite step_frame.
    destruct (Reimport.step u (st, active) e) as [[st1 a1] |]; cbn [Py.bind fst snd].
    + apply IH.
    + reflexivity.
Qed.

Lemma reconcile_user_frame (u : string) (events : list Reimport.event)
    (st0 st : Reimport.state) :
  Reimport.reconcile_user u events (plus_state st0 st) =
  Py.bind (Reimport.reconcile_user u events st)
          (fun sa => Py.Ok (plus_state st0 (fst sa), snd sa)).
Proof.
  unfold Reimport.reconcile_user. apply run_frame.
Qed.

Lemma second_pass_total (users : list (string * list Reimport.event)) :
  forall st, exists st', Reimport.second_pass users st = Py.Ok st'.
Proof.
  induction users as [| [u evs] r IH]; intros st; cbn [Reimport.second_pass]; eauto.
  unfold Reimport.reconcile_user.
  destruct (run_total u (Py.sort_by Reimport.date evs) (st, [])) as ([st1 a1] & ->).
  cbn [Py.bind fst]. apply IH.
Qed.

Lemma second_pass_frame (users : list (string * list Reimport.event)) :
  forall st0 st,
    Reimport.second_pass users (plus_state st0 st) =
    Py.bind (Reimport.second_pass users st) (fun s => Py.Ok (plus_state st0 s)).
Proof.
  induction users as [| [u evs] r IH]; intros st0 st; cbn [Reimport.second_pass].
  - reflexivity.
  - rewrite reconcile_user_frame.
    destruct (Reimport.reconcile_user u evs st) as [[st1 a1] |];
      cbn [Py.bind fst snd]; [apply IH | reflexivity].
Qed.

Lemma second_pass_app (users1 users2 : list (string * list Reimport.event)) :
  forall st,
    Reimport.second_pass (users1 ++ users2) st =
    Py.bind (Reimport.second_pass users1 st) (Reimport.second_pass users2).
Proof.
  induction users1 as [| [u evs] r IH]; intros st; cbn [Reimport.second_pass app].
  - reflexivity.
  - destruct (Reimport.reconcile_user u evs st) as [[st1 a1] |]; cbn [Py.bind fst].
    + apply IH.
    + reflexivity.
Qed.

(** The second pass shares nothing between users but the table and the
    counters, which only grow: run on two collections one after the other,
    from any starting state, it gives the starting state followed by what
    each collection gives on its own from the empty state. *)
Theorem users_are_reconciled_independently :
  forall users1 users2 st,
    exists s1 s2,
      Reimport.second_pass users1 Reimport.initial = Py.Ok s1 /\
      Reimport.second_pass users2 Reimport.initial = Py.Ok s2 /\
      Reimport.second_pass (users1 ++ users2) st
        = Py.Ok (plus_state (plus_state st s1) s2).
Proof.
  intros users1 users2 st.
  destruct (second_pass_total users1 Reimport.initial) as (s1 & H1).
  destruct (second_pass_total users2 Reimport.initial) as (s2 & H2).
  exists s1, s2. repeat split; auto.
  rewrite second_pass_app.
  rewrite <- (plus_initial_r st) at 1. rewrite second_pass_frame, H1. cbn [Py.bind].
  rewrite <- (plus_initial_r (plus_state st s1)) at 1.
  rewrite second_pass_frame, H2. reflexivity.
Qed.

(** ** Every collected event is accounted for *)

Lemma step_accounts (u : string) (st st' : Reimport.state)
    (active active' : Reimport.open_tiers) (e : Reimport.event) :
  Reimport.step u (st, active) e = Py.Ok (st', active') ->
  Reimport.imported st' + List.length (Reimport.cursor st)
    = Reimport.imported st + List.length (Reimport.cursor st') /\
  count_rows subscription_created (Reimport.cursor st')
    = count_rows subscription_created (Reimport.cursor st)
      + count_events subscription_created [e] /\
  count_rows subscription_renewed (Reimport.cursor st')
    = count_rows subscription_renewed (Reimport.cursor st)
      + count_events subscription_renewed [e] /\
  Reimport.cancellations_matched st' + Reimport.cancellations_unmatched st'
    = Reimport.cancellations_matched st + Reimport.cancellations_unmatched st
      + count_events subscription_cancelled [e].
Proof.
  intros Hs. rewrite !count_events_cons.
  change (count_events subscription_created []) with 0.
  change (count_events subscription_renewed []) with 0.
  change (count_events subscription_cancelled []) with 0.
  destruct (Reimport.ev_type e) eqn:He.
  - unfold Reimport.step in Hs. rewrite He in Hs. injection Hs as <- <-.
    cbn [Reimport.cursor Reimport.insert Reimport.imported
         Reimport.cancellations_matched Reimport.cancellations_unmatched].
    rewrite !count_rows_snoc, length_app. cbn [row_event_type Reimport.row_of].
    rewrite He. cbn. lia.
  - unfold Reimport.step in Hs. rewrite He in Hs. injection Hs as <- <-.
    cbn [Reimport.cursor Reimport.insert Reimport.imported
         Reimport.cancellations_matched Reimport.cancellations_unmatched].
    rewrite !count_rows_snoc, length_app. cbn [row_event_type Reimport.row_of].
    rewrite He. cbn. lia.
  - destruct active as [| p r].
    + unfold Reimport.step in Hs. rewrite He in Hs. injection Hs as <- <-.
      cbn [Reimport.cursor Reimport.count_unmatched Reimport.imported
           Reimport.cancellations_matched Reimport.cancellations_unmatched
           event_type_eqb].
      lia.
    + destruct (step_cancelled_open u st (p :: r) e He)
        as (l1 & a & d & l2 & _ & _ & _ & H).
      { discriminate. }
      rewrite H in Hs. injection Hs as <- <-.
      cbn [Reimport.cursor Reimport.insert Reimport.count_matched Reimport.imported
           Reimport.cancellations_matched Reimport.cancellations_unmatched].
      rewrite !count_rows_snoc, length_app. cbn [row_event_type Reimport.row_of].
      rewrite He. cbn. lia.
Qed.

Lemma run_accounts (u : string) (events : list Reimport.event) :
  forall st active st' active',
    Reimport.run u events (st, active) = Py.Ok (st', active') ->
    Reimport.imported st' + List.length (Reimport.cursor st)
      = Reimport.imported st + List.length (Reimport.cursor st') /\
    count_rows subscription_created (Reimport.cursor st')
      = count_rows subscription_created (Reimport.cursor st)
        + count_events subscription_created events /\
    count_rows subscription_renewed (Reimport.cursor st')
      = count_rows subscription_renewed (Reimport.cursor st)
        + count_events subscription_renewed events /\
    Reimport.cancellations_matched st' + Reimport.cancellations_unmatched st'
      = Reimport.cancellations_matched st + Reimport.cancellations_unmatched st
        + count_events subscription_cancelled events.
Proof.
  induction events as [| e r IH]; cbn [Reimport.run]; intros st active st' active' Hr.
  - injection Hr as <- <-. unfold count_events. cbn. lia.
  - destruct (Reimport.step u (st, active) e) as [[st1 a1] |] eqn:Hs; [| discriminate].
    cbn [Py.bind] in Hr. apply step_accounts in Hs. apply IH in Hr.
    rewrite !(count_events_cons _ e r). rewrite !count_events_cons in Hs.
    change (count_events subscription_created []) with 0 in Hs.
    change (count_events subscription_renewed []) with 0 in Hs.
    change (count_events subscription_cancelled []) with 0 in Hs.
    lia.
Qed.

Lemma count_events_app (t : event_type) (l1 l2 : list Reimport.event) :
  count_events t (l1 ++ l2) = count_events t l1 + count_events t l2.
Proof.
  unfold count_events. now rewrite filter_app, length_app.
Qed.

Lemma second_pass_accounts (users : list (string * list Reimport.event)) :
  forall st st',
    Reimport.second_pass users st = Py.Ok st' ->
    Reimport.imported st' + List.length (Reimport.cursor st)
      = Reimport.imported st + List.length (Reimport.cursor st') /\
    count_rows subscription_created (Reimport.cursor st')
      = count_rows subscription_created (Reimport.cursor st)
        + count_events subscription_created (all_events users) /\
    count_rows subscription_renewed (Reimport.cursor st')
      = count_rows subscription_renewed (Reimport.cursor st)
        + count_events subscription_renewed (all_events users) /\
    Reimport.cancellations_matched st' + Reimport.cancellations_unmatched st'
      = Reimport.cancellations_matched st + Reimport.cancellations_unmatched st
        + count_events subscription_cancelled (all_events users) /\
    Reimport.cancellations_matched st'
      + count_rows subscription_cancelled (Reimport.cursor st)
      = Reimport.cancellations_matched st
        + count_rows subscription_cancelled (Reimport.cursor st').
Proof.
  induction users as [| [u evs] r IH]; cbn [Reimport.second_pass]; intros st st' H.
  - injection H as <-. unfold all_events, count_events. cbn. lia.
  - unfold Reimport.reconcile_user in H.
    destruct (Reimport.run u (Py.sort_by Reimport.date evs) (st, [])) as [[st1 a1] |] eqn:Hr;
      [| discriminate].
    cbn [Py.bind fst] in H. apply IH in H.
    pose proof (run_accounts _ _ _ _ _ _ Hr) as Ha.
    pose proof (run_balance _ _ _ _ _ _ Hr) as [_ Hb].
    rewrite !count_events_sorted in Ha.
    unfold all_events in *. cbn [flat_map snd]. rewrite !count_events_app. lia.
Qed.

(** The whole re-import always ends, and its figures account for every
    collected event: [imported] is the number of rows written; each
    "created" and each "renewed" event has its row; every cancellation is
    either matched, with a row, or counted as unmatched. *)
Theorem main_accounts_for_every_event :
  forall messages,
    exists st,
      Reimport.main messages = Py.Ok st /\
      Reimport.imported st = List.length (Reimport.cursor st) /\
      count_rows subscription_created (Reimport.cursor st)
        = count_events subscription_created (all_events (Reimport.first_pass messages)) /\
      count_rows subscription_renewed (Reimport.cursor st)
        = count_events subscription_renewed (all_events (Reimport.first_pass messages)) /\
      count_rows subscription_cancelled (Reimport.cursor st)
        = Reimport.cancellations_matched st /\
      Reimport.cancellations_matched st + Reimport.cancellations_unmatched st
        = count_events subscription_cancelled (all_events (Reimport.first_pass messages)).
Proof.
  intros messages. unfold Reimport.main.
  destruct (second_pass_total (Reimport.first_pass messages) Reimport.initial) as (st & H).
  exists st. split; [exact H |].
  apply second_pass_accounts in H.
  change (Reimport.cursor Reimport.initial) with (@nil db_row) in H.
  change (Reimport.imported Reimport.initial) with 0 in H.
  change (Reimport.cancellations_matched Reimport.initial) with 0 in H.
  change (Reimport.cancellations_unmatched Reimport.initial) with 0 in H.
  change (count_rows subscription_created []) with 0 in H.
  change (count_rows subscription_renewed []) with 0 in H.
  change (count_rows subscription_cancelled []) with 0 in H.
  change (List.length (@nil db_row)) with 0 in H.
  lia.
Qed.

(** ** The rows of a user *)

Lemma date_le_trans (a b c : string) : date_le a b -> date_le b c -> date_le a c.
Proof. apply str_leb_trans. Qed.

Lemma sort_by_date_sorted (l : list Reimport.event) :
  events_by_date (Py.sort_by Reimport.date l).
Proof.
  unfold events_by_date. apply Sorted_StronglySorted.
  - intros a b c. apply date_le_trans.
  - apply Sorted_LocallySorted_iff. apply (sort_by_sorted Reimport.date).
Qed.

Lemma strongly_sorted_snoc {A : Type} (R : A -> A -> Prop) (l : list A) (y : A) :
  StronglySorted R l -> (forall x, In x l -> R x y) -> StronglySorted R (l ++ [y]).
Proof.
  induction 1 as [| x l Hs IH Hx]; intros Hy; cbn [app].
  - repeat constructor.
  - constructor.
    + apply IH. intros z Hz. apply Hy. now right.
    + apply Forall_app. split; [exact Hx |]. constructor; [| constructor].
      apply Hy. now left.
Qed.

(** One round writes at most one row, for the event replayed. *)
Lemma step_rows (u : string) (st st' : Reimport.state)
    (active active' : Reimport.open_tiers) (e : Reimport.event) :
  Reimport.step u (st, active) e = Py.Ok (st', active') ->
  (Reimport.cursor st' = Reimport.cursor st /\
   Reimport.ev_type e = subscription_cancelled) \/
  exists a, Reimport.cursor st' = Reimport.cursor st ++ [Reimport.row_of u e a] /\
            (Reimport.ev_type e = subscription_cancelled \/ a = Reimport.amount e) /\
            (Reimport.ev_type e = subscription_cancelled ->
             exists d, In (a, d) active).
Proof.
  intros Hs. destruct (Reimport.ev_type e) eqn:He.
  - unfold Reimport.step in Hs. rewrite He in Hs. injection Hs as <- <-.
    right. exists (Reimport.amount e). repeat split; auto. discriminate.
  - unfold Reimport.step in Hs. rewrite He in Hs. injection Hs as <- <-.
    right. exists (Reimport.amount e). repeat split; auto. discriminate.
  - destruct active as [| p r].
    + unfold Reimport.step in Hs. rewrite He in Hs. injection Hs as <- <-. left. auto.
    + destruct (step_cancelled_open u st (p :: r) e He)
        as (l1 & a & d & l2 & Hl & _ & _ & H).
      { discriminate. }
      rewrite H in Hs. injection Hs as <- <-.
      right. exists a. repeat split; auto.
      intros _. exists d. rewrite Hl. apply in_or_app. right. now left.
Qed.

Lemma run_rows_by_date (u : string) (events : list Reimport.event) :
  forall st active st' active',
    events_by_date events ->
    rows_by_date (Reimport.cursor st) ->
    Forall (fun r => row_user_id r = u) (Reimport.cursor st) ->
    (forall r e, In r (Reimport.cursor st) -> In e events ->
       date_le (row_event_date r) (Reimport.date e)) ->
    Reimport.run u events (st, active) = Py.Ok (st', active') ->
    rows_by_date (Reimport.cursor st') /\
    Forall (fun r => row_user_id r = u) (Reimport.cursor st').
Proof.
  induction events as [| e r IH]; cbn [Reimport.run];
    intros st active st' active' Hev Hrows Hu Hle Hr.
  - injection Hr as <- <-. auto.
  - destruct (Reimport.step u (st, active) e) as [[st1 a1] |] eqn:Hs; [| discriminate].
    cbn [Py.bind] in Hr. inversion Hev as [| ? ? Hev' He]; subst.
    apply step_rows in Hs. destruct Hs as [[Hc _] | (a & Hc & _)].
    + eapply IH; [exact Hev' | | | | exact Hr]; rewrite Hc; auto.
      intros r0 e0 Hr0 He0. apply Hle; [exact Hr0 | now right].
    + eapply IH; [exact Hev' | | | | exact Hr]; rewrite Hc.
      * apply strongly_sorted_snoc; auto.
        intros x Hx. apply (Hle x e Hx). now left.
      * apply Forall_app. split; auto.
      * intros r0 e0 Hr0 He0. apply in_app_or in Hr0. destruct Hr0 as [Hr0 | [<- | []]].
        -- apply Hle; [exact Hr0 | now right].
        -- cbn. rewrite Forall_forall in He. now apply He.
Qed.

(** The rows written for a user all carry the key of that user and are in
    ascending order of date. *)
Theorem rows_of_a_user_are_in_date_order :
  forall u events,
    exists st open,
      Reimport.reconcile_user u events Reimport.initial = Py.Ok (st, open) /\
      rows_by_date (Reimport.cursor st) /\
      Forall (fun r => row_user_id r = u) (Reimport.cursor st).
Proof.
  intros u events. unfold Reimport.reconcile_user.
  destruct (run_total u (Py.sort_by Reimport.date events) (Reimport.initial, []))
    as ([st open] & H).
  exists st, open. split; [exact H |].
  eapply run_rows_by_date; [| | | | exact H].
  - apply sort_by_date_sorted.
  - constructor.
  - constructor.
  - intros r e [].
Qed.

Lemma filter_snoc {A : Type} (f : A -> bool) (l : list A) (x : A) :
  filter f (l ++ [x]) = filter f l ++ (if f x then [x] else []).
Proof.
  rewrite filter_app. reflexivity.
Qed.

Lemma run_keeps_events (u : string) (events : list Reimport.event) :
  forall st active st' active',
    Reimport.run u events (st, active) = Py.Ok (st', active') ->
    filter (fun r => negb (is_cancellation_row r)) (Reimport.cursor st')
    = filter (fun r => negb (is_cancellation_row r)) (Reimport.cursor st)
      ++ map (fun e => Reimport.row_of u e (Reimport.amount e))
             (filter (fun e => negb (is_cancellation e)) events).
Proof.
  induction events as [| e r IH]; cbn [Reimport.run];
    intros st active st' active' Hr.
  - injection Hr as <- <-. cbn. now rewrite app_nil_r.
  - destruct (Reimport.step u (st, active) e) as [[st1 a1] |] eqn:Hs; [| discriminate].
    cbn [Py.bind] in Hr. rewrite (IH _ _ _ _ Hr). clear Hr IH.
    cbn [filter].
    replace (negb (is_cancellation e))
      with (negb (event_type_eqb (Reimport.ev_type e) subscription_cancelled))
      by reflexivity.
    apply step_rows in Hs. destruct Hs as [[Hc He] | (a & Hc & Ha & _)].
    + rewrite Hc, He. reflexivity.
    + rewrite Hc, filter_snoc.
      replace (negb (is_cancellation_row (Reimport.row_of u e a)))
        with (negb (event_type_eqb (Reimport.ev_type e) subscription_cancelled))
        by reflexivity.
      destruct (Reimport.ev_type e) eqn:He; cbn [event_type_eqb negb map].
      * destruct Ha as [Ha | ->]; [discriminate |]. now rewrite <- app_assoc.
      * destruct Ha as [Ha | ->]; [discriminate |]. now rewrite <- app_assoc.
      * now rewrite app_nil_r.
Qed.

(** Nothing but an unmatched cancellation is lost, and nothing is altered:
    the rows other than cancellations are the "created" and "renewed"
    events of the user, in order of date, each with its own amount, type,
    date and user name. *)
Theorem created_and_renewed_events_are_written_unchanged :
  forall u events,
    exists st open,
      Reimport.reconcile_user u events Reimport.initial = Py.Ok (st, open) /\
      filter (fun r => negb (is_cancellation_row r)) (Reimport.cursor st)
      = map (fun e => {| row_user_id := u;
                         row_username := Reimport.username e;
                         row_amount := Reimport.amount e;
                         row_event_type := Reimport.ev_type e;
                         row_event_date := Reimport.date e |})
            (filter (fun e => negb (is_cancellation e))
                    (Py.sort_by Reimport.date events)).
Proof.
  intros u events. unfold Reimport.reconcile_user.
  destruct (run_total u (Py.sort_by Reimport.date events) (Reimport.initial, []))
    as ([st open] & H).
  exists st, open. split; [exact H |].
  rewrite (run_keeps_events _ _ _ _ _ _ H). reflexivity.
Qed.

(** ** Where a resolved cancellation comes from *)

Lemma dict_set_entry (k : option Py.float) (v : string) (d : Reimport.open_tiers) :
  forall k' v', In (k', v') (Py.dict_set Reimport.key_eqb k v d) ->
    In (k', v') d \/
    (v' = v /\ (k' = k \/ (Reimport.key_eqb k' k = true /\ exists v0, In (k', v0) d))).
Proof.
  induction d as [| [k0 v0] r IH]; cbn [Py.dict_set]; intros k' v' H.
  - destruct H as [H | []]. injection H as <- <-. right. auto.
  - destruct (Reimport.key_eqb k0 k) eqn:E.
    + destruct H as [H | H].
      * injection H as <- <-. right. split; [reflexivity |]. right. split; [exact E |].
        exists v0. now left.
      * left. now right.
    + destruct H as [H | H].
      * left. now left.
      * destruct (IH _ _ H) as [H' | (-> & [-> | (Hk & v1 & Hv)])].
        -- left. now right.
        -- right. auto.
        -- right. split; [reflexivity |]. right. split; [exact Hk |].
           exists v1. now right.
Qed.

Lemma backed_by_incl (l l' : list Reimport.event) (r : db_row) :
  incl l l' -> backed_by l r -> backed_by l' r.
Proof.
  intros Hi Hb Ht. destruct (Hb Ht) as (e & He & H). exists e. split; auto.
Qed.

Lemma run_backs_cancellations (u : string) (events : list Reimport.event) :
  forall past st (active : Reimport.open_tiers) st' active',
    events_by_date events ->
    (forall e e', In e past -> In e' events ->
       date_le (Reimport.date e) (Reimport.date e')) ->
    (forall k d, In (k, d) active ->
       exists e, In e past /\ Reimport.ev_type e = subscription_created /\
                 Reimport.amount e = k) ->
    Forall (backed_by (past ++ events)) (Reimport.cursor st) ->
    Reimport.run u events (st, active) = Py.Ok (st', active') ->
    Forall (backed_by (past ++ events)) (Reimport.cursor st').
Proof.
  induction events as [| e r IH]; cbn [Reimport.run];
    intros past st active st' active' Hev Hpast Hact Hrows Hr.
  - injection Hr as <- <-. exact Hrows.
  - destruct (Reimport.step u (st, active) e) as [[st1 a1] |] eqn:Hs; [| discriminate].
    cbn [Py.bind] in Hr. inversion Hev as [| ? ? Hev' He]; subst.
    rewrite Forall_forall in He.
    replace (past ++ e :: r) with ((past ++ [e]) ++ r) in *
      by (rewrite <- app_assoc; reflexivity).
    eapply IH; [exact Hev' | | | | exact Hr].
    + intros e1 e2 H1 H2. apply in_app_or in H1. destruct H1 as [H1 | [<- | []]].
      * apply Hpast; [exact H1 | now right].
      * now apply He.
    + intros k d Hin.
      assert (Hold : forall k0 d0, In (k0, d0) active ->
                exists e0, In e0 (past ++ [e]) /\
                           Reimport.ev_type e0 = subscription_created /\
                           Reimport.amount e0 = k0).
      { intros k0 d0 H0. destruct (Hact _ _ H0) as (e0 & Hin0 & H0').
        exists e0. split; [apply in_or_app; now left | exact H0']. }
      destruct (Reimport.ev_type e) eqn:Ht.
      * unfold Reimport.step in Hs. rewrite Ht in Hs. injection Hs as <- <-.
        apply dict_set_entry in Hin.
        destruct Hin as [Hin | (_ & [-> | (_ & v0 & Hin)])]; eauto.
        exists e. split; [apply in_or_app; right; now left | auto].
      * unfold Reimport.step in Hs. rewrite Ht in Hs. injection Hs as <- <-. eauto.
      * destruct active as [| p q].
        -- unfold Reimport.step in Hs. rewrite Ht in Hs. injection Hs as <- <-.
           destruct Hin.
        -- destruct (step_cancelled_open u st (p :: q) e Ht)
             as (l1 & a & d0 & l2 & Hl & _ & _ & H).
           { discriminate. }
           rewrite H in Hs. injection Hs as <- <-.
           apply (Hold k d). rewrite Hl. apply in_app_or in Hin.
           apply in_or_app. destruct Hin; [now left | right; now right].
    + apply step_rows in Hs. destruct Hs as [[Hc _] | (a & Hc & _ & Ha)].
      * now rewrite Hc.
      * rewrite Hc. apply Forall_app. split; [exact Hrows |].
        constructor; [| constructor].
        intros Ht. cbn [row_event_type Reimport.row_of] in Ht.
        destruct (Ha Ht) as (d & Hin). destruct (Hact _ _ Hin) as (e0 & Hin0 & Hc0 & Ha0).
        exists e0. repeat split; auto.
        -- apply in_or_app. left. apply in_or_app. now left.
        -- cbn [row_event_date Reimport.row_of]. apply Hpast; [exact Hin0 | now left].
Qed.

(** Every cancellation written to the table is attributed to a tier that a
    "created" event of the same user opened: the row carries the amount of
    that event, and the event is not later than the cancellation. *)
Theorem resolved_cancellations_follow_a_created_event :
  forall u events,
    exists st open,
      Reimport.reconcile_user u events Reimport.initial = Py.Ok (st, open) /\
      forall r, In r (Reimport.cursor st) ->
        row_event_type r = subscription_cancelled ->
        exists e, In e events /\ Reimport.ev_type e = subscription_created /\
                  Reimport.amount e = row_amount r /\
                  date_le (Reimport.date e) (row_event_date r).
Proof.
  intros u events. unfold Reimport.reconcile_user.
  destruct (run_total u (Py.sort_by Reimport.date events) (Reimport.initial, []))
    as ([st open] & H).
  exists st, open. split; [exact H |].
  assert (Hb : Forall (backed_by ([] ++ Py.sort_by Reimport.date events))
                      (Reimport.cursor st)).
  { eapply run_backs_cancellations; [| | | | exact H].
    - apply sort_by_date_sorted.
    - intros e e' [].
    - intros k d [].
    - constructor. }
  intros r Hr Ht. rewrite Forall_forall in Hb.
  destruct (Hb r Hr Ht) as (e & He & H').
  exists e. split; [| exact H'].
  cbn [app] in He. eapply Permutation_in; [apply sort_by_perm | exact He].
Qed.

(** ** The tiers left open *)

Lemma run_open_tiers (u : string) (events : list Reimport.event) :
  forall past st (active : Reimport.open_tiers) st' active',
    Forall (opened_by past) active ->
    Reimport.run u events (st, active) = Py.Ok (st', active') ->
    Forall (opened_by (past ++ events)) active'.
Proof.
  induction events as [| e r IH]; cbn [Reimport.run];
    intros past st active st' active' Hact Hr.
  - injection Hr as <- <-. now rewrite app_nil_r.
  - destruct (Reimport.step u (st, active) e) as [[st1 a1] |] eqn:Hs; [| discriminate].
    cbn [Py.bind] in Hr.
    replace (past ++ e :: r) with ((past ++ [e]) ++ r)
      by (rewrite <- app_assoc; reflexivity).
    eapply IH; [| exact Hr].
    assert (Hold : Forall (opened_by (past ++ [e])) active).
    { eapply Forall_impl; [| exact Hact].
      intros entry (e0 & Hin & H). exists e0. split; [apply in_or_app; now left | exact H]. }
    destruct (Reimport.ev_type e) eqn:Ht.
    + unfold Reimport.step in Hs. rewrite Ht in Hs. injection Hs as <- <-.
      rewrite Forall_forall in *. intros [k d] Hin.
      apply dict_set_entry in Hin. destruct Hin as [Hin | (-> & Hk)]; [now apply Hold |].
      exists e. repeat split; auto.
      * apply in_or_app. right. now left.
      * cbn [fst]. destruct Hk as [-> | (Hk & _)]; auto.
    + unfold Reimport.step in Hs. rewrite Ht in Hs. injection Hs as <- <-. exact Hold.
    + destruct active as [| p q].
      * unfold Reimport.step in Hs. rewrite Ht in Hs. injection Hs as <- <-. constructor.
      * destruct (step_cancelled_open u st (p :: q) e Ht)
          as (l1 & a & d0 & l2 & Hl & _ & _ & H).
        { discriminate. }
        rewrite H in Hs. injection Hs as <- <-.
        rewrite Hl in Hold. apply Forall_app in Hold. destruct Hold as [H1 H2].
        apply Forall_app. split; [exact H1 |]. now inversion H2.
Qed.

(** The tiers left open after the replay: no two of them have equal amounts
    (one open state per tier at most), and each was opened by a "created"
    event of the user with an equal amount, at the date recorded for it. *)
Theorem open_tiers_come_from_created_events :
  forall u events,
    exists st open,
      Reimport.reconcile_user u events Reimport.initial = Py.Ok (st, open) /\
      keys_distinct open /\
      Forall (opened_by events) open.
Proof.
  intros u events. unfold Reimport.reconcile_user.
  destruct (run_total u (Py.sort_by Reimport.date events) (Reimport.initial, []))
    as ([st open] & H).
  exists st, open. split; [exact H |]. split.
  - eapply run_keys_distinct; [| exact H]. exact I.
  - apply (run_open_tiers u _ []) in H; [| constructor].
    cbn [app] in H. eapply Forall_impl; [| exact H].
    intros entry (e & Hin & H'). exists e. split; [| exact H'].
    eapply Permutation_in; [apply sort_by_perm | exact Hin].
Qed.

(** ** The arrival order of the events *)

Section SortUnique.
Context {A : Type}.
Variable key : A -> string.

Lemma sort_by_strongly_sorted (l : list A) :
  StronglySorted (fun a b => String.leb (key a) (key b) = true) (Py.sort_by key l).
Proof.
  apply Sorted_StronglySorted.
  - intros a b c. apply str_leb_trans.
  - apply Sorted_LocallySorted_iff. apply sort_by_sorted.
Qed.

Lemma sorted_distinct_is_strict (l : list A) :
  StronglySorted (fun a b => String.leb (key a) (key b) = true) l ->
  NoDup (map key l) ->
  StronglySorted (fun a b => String.ltb (key a) (key b) = true) l.
Proof.
  induction 1 as [| x l Hs IH Hx]; intros Hn; [constructor |].
  cbn [map] in Hn. inversion Hn as [| ? ? Hnotin Hn']; subst.
  constructor; [now apply IH |].
  rewrite Forall_forall in *. intros y Hy.
  destruct (proj1 (str_leb_cases _ _) (Hx y Hy)) as [E | E]; [| exact E].
  exfalso. apply Hnotin. rewrite E. now apply in_map.
Qed.

Lemma strictly_sorted_perm_eq (l1 : list A) :
  forall l2,
    StronglySorted (fun a b => String.ltb (key a) (key b) = true) l1 ->
    StronglySorted (fun a b => String.ltb (key a) (key b) = true) l2 ->
    Permutation l1 l2 ->
    l1 = l2.
Proof.
  induction l1 as [| x t1 IH]; intros l2 H1 H2 Hp.
  - apply Permutation_nil in Hp. now subst.
  - destruct l2 as [| y t2].
    { apply Permutation_sym, Permutation_nil in Hp. discriminate. }
    inversion H1 as [| ? ? H1' Hx]; subst. inversion H2 as [| ? ? H2' Hy]; subst.
    rewrite Forall_forall in Hx, Hy.
    assert (E : x = y).
    { assert (Hxin : In x (y :: t2)) by (eapply Permutation_in; [exact Hp | now left]).
      destruct Hxin as [E | Hxin]; [now symmetry |].
      assert (Hyin : In y (x :: t1))
        by (eapply Permutation_in; [apply Permutation_sym; exact Hp | now left]).
      destruct Hyin as [E | Hyin]; [exact E |].
      exfalso. pose proof (str_ltb_trans _ _ _ (Hx y Hyin) (Hy x Hxin)) as Hc.
      rewrite str_ltb_irrefl in Hc. discriminate. }
    subst y. f_equal. apply IH; auto. eapply Permutation_cons_inv; exact Hp.
Qed.

Lemma sort_by_perm_eq (l l' : list A) :
  Permutation l l' -> NoDup (map key l) -> Py.sort_by key l = Py.sort_by key l'.
Proof.
  intros Hp Hn. apply strictly_sorted_perm_eq.
  - apply sorted_distinct_is_strict; [apply sort_by_strongly_sorted |].
    eapply Permutation_NoDup; [| exact Hn].
    apply Permutation_map, Permutation_sym, sort_by_perm.
  - apply sorted_distinct_is_strict; [apply sort_by_strongly_sorted |].
    eapply Permutation_NoDup; [| exact Hn].
    apply Permutation_map. rewrite sort_by_perm. exact Hp.
  - rewrite !sort_by_perm. exact Hp.
Qed.

End SortUnique.

(** When the events of a user all have different dates, the order in which
    they were collected does not matter: any rearrangement of the list gives
    the same rows, the same counters and the same open tiers. *)
Theorem arrival_order_is_irrelevant_for_distinct_dates :
  forall u events events' st,
    Permutation events events' ->
    NoDup (map Reimport.date events) ->
    Reimport.reconcile_user u events st = Reimport.reconcile_user u events' st.
Proof.
  intros u events events' st Hp Hn. unfold Reimport.reconcile_user.
  now rewrite (sort_by_perm_eq Reimport.date events events' Hp Hn).
Qed.

Lemma arrival_order_is_irrelevant_for_distinct_dates_witness :
  Reimport.reconcile_user "@bob"
    [cancelled_at "2024-01-03" None; created_at "2024-01-01" (tier 5) None;
     created_at "2024-01-02" (tier 9) None] Reimport.initial
  = Reimport.reconcile_user "@bob"
    [created_at "2024-01-01" (tier 5) None; created_at "2024-01-02" (tier 9) None;
     cancelled_at "2024-01-03" None] Reimport.initial.
Proof.
  apply arrival_order_is_irrelevant_for_distinct_dates.
  - apply (Permutation_cons_app
             [created_at "2024-01-01" (tier 5) None; created_at "2024-01-02" (tier 9) None]
             [] (cancelled_at "2024-01-03" None)).
    rewrite app_nil_r. apply Permutation_refl.
  - cbn. repeat constructor; cbn; intuition discriminate.
Defined.

(* ================================================================== *)
(** * Further properties of the analyzer *)
(* ================================================================== *)

(** ** The figures of the distribution *)

(** The median lies between the minimum and the maximum, and all three are
    among the counts. *)
Theorem median_lies_between_the_extrema :
  forall total_users rs,
    rs <> [] ->
    total_users <> 0%Z ->
    exists d,
      Analyze.distribute total_users rs = Py.Ok (Some d) /\
      Analyze.minimum d <= Analyze.median d <= Analyze.maximum d /\
      In (Analyze.minimum d) rs /\ In (Analyze.median d) rs /\ In (Analyze.maximum d) rs.
Proof.
  intros total_users rs Hne Hu.
  destruct (distribute_spec total_users rs Hne Hu)
    as (mn & mx & med & l1 & l2 & Hd & (Hmn1 & Hmn2) & (Hmx1 & Hmx2) & Hl & _).
  eexists. split; [exact Hd |].
  cbn [Analyze.minimum Analyze.median Analyze.maximum].
  assert (Hin : In med rs).
  { eapply Permutation_in; [apply sorted_perm |].
    rewrite Hl. apply in_or_app. right. now left. }
  repeat split; auto.
Qed.

Lemma median_lies_between_the_extrema_witness :
  exists d,
    Analyze.distribute 4 [3; 0; 2; 1] = Py.Ok (Some d) /\
    Analyze.minimum d <= Analyze.median d <= Analyze.maximum d /\
    In (Analyze.minimum d) [3; 0; 2; 1] /\ In (Analyze.median d) [3; 0; 2; 1] /\
    In (Analyze.maximum d) [3; 0; 2; 1].
Proof.
  apply median_lies_between_the_extrema; discriminate.
Defined.

(** ** Cancelled users are subscribers *)

Lemma set_add_nodup (x : string) (s : list string) : NoDup s -> NoDup (Py.set_add x s).
Proof.
  induction s as [| y r IH]; cbn [Py.set_add]; intros H.
  - repeat constructor. intros [].
  - destruct (String.eqb y x) eqn:E; [exact H |].
    apply String.eqb_neq in E. inversion H as [| ? ? Hy Hr]; subst.
    constructor; [| now apply IH].
    rewrite set_add_in. intros [-> | Hin]; [now apply E | contradiction].
Qed.

Lemma visit_cancelled_subscribers (amount : Py.float) (t : Analyze.tally)
    (entry : string * Analyze.amounts_data) :
  NoDup (Analyze.users_with_amount t) ->
  NoDup (Analyze.users_cancelled t) ->
  incl (Analyze.users_cancelled t) (Analyze.users_with_amount t) ->
  NoDup (Analyze.users_with_amount (Analyze.visit amount t entry)) /\
  NoDup (Analyze.users_cancelled (Analyze.visit amount t entry)) /\
  incl (Analyze.users_cancelled (Analyze.visit amount t entry))
       (Analyze.users_with_amount (Analyze.visit amount t entry)).
Proof.
  intros Hu Hc Hi. unfold Analyze.visit. destruct entry as [user_id ad].
  destruct (Py.dict_mem Py.float_eqb amount (Analyze.tiers ad)); auto.
  destruct (Py.dict_get Py.float_eqb amount (Analyze.tiers ad)) as [info |]; auto.
  destruct (Analyze.subscriptions info); auto.
  destruct (Analyze.cancelled_mark ad);
    cbn [Analyze.users_with_amount Analyze.users_cancelled].
  - repeat split; auto using set_add_nodup.
    intros x Hx. apply set_add_in in Hx. apply set_add_in.
    destruct Hx as [-> | Hx]; [now left | right; now apply Hi].
  - repeat split; auto using set_add_nodup.
    intros x Hx. apply set_add_in. right. now apply Hi.
Qed.

Lemma tally_cancelled_subscribers (amount : Py.float)
    (ud : list (string * Analyze.amounts_data)) :
  forall t,
    NoDup (Analyze.users_with_amount t) ->
    NoDup (Analyze.users_cancelled t) ->
    incl (Analyze.users_cancelled t) (Analyze.users_with_amount t) ->
    NoDup (Analyze.users_with_amount (fold_left (Analyze.visit amount) ud t)) /\
    NoDup (Analyze.users_cancelled (fold_left (Analyze.visit amount) ud t)) /\
    incl (Analyze.users_cancelled (fold_left (Analyze.visit amount) ud t))
         (Analyze.users_with_amount (fold_left (Analyze.visit amount) ud t)).
Proof.
  induction ud as [| entry r IH]; intros t Hu Hc Hi; cbn [fold_left]; auto.
  destruct (visit_cancelled_subscribers amount t entry Hu Hc Hi) as (H1 & H2 & H3).
  now apply IH.
Qed.

(** For every tier the users counted as cancelled are among its
    subscribers, so the number of cancelled users never exceeds the number
    of subscribers and the number of active users is never negative. *)
Theorem cancelled_users_are_subscribers :
  forall ud amount t,
    exists r,
      Analyze.analyze_amount ud amount t = Py.Ok (r, Analyze.tally_amount amount ud t) /\
      incl (Analyze.users_cancelled (Analyze.tally_amount amount ud t))
           (Analyze.users_with_amount (Analyze.tally_amount amount ud t)) /\
      (Analyze.total_cancelled r <= Analyze.total_users r)%Z /\
      (0 <= Analyze.active_users r)%Z.
Proof.
  intros ud amount t.
  destruct (analyze_amount_spec ud amount t) as (r & Hr & Hu & Hc & Ha & _).
  exists r. split; [exact Hr |].
  assert (H : NoDup (Analyze.users_with_amount (Analyze.tally_amount amount ud t)) /\
              NoDup (Analyze.users_cancelled (Analyze.tally_amount amount ud t)) /\
              incl (Analyze.users_cancelled (Analyze.tally_amount amount ud t))
                   (Analyze.users_with_amount (Analyze.tally_amount amount ud t))).
  { unfold Analyze.tally_amount. apply tally_cancelled_subscribers.
    - constructor.
    - constructor.
    - intros x []. }
  destruct H as (H1 & H2 & H3).
  pose proof (NoDup_incl_length H2 H3) as Hlen.
  split; [exact H3 |]. rewrite Ha, Hu, Hc. lia.
Qed.

(** ** The counters of the scan *)

Lemma dates_in_tiers_update (g : Analyze.user_info -> nat)
    (f : Analyze.user_info -> Analyze.user_info) (c : nat) (a : Py.float)
    (tiers : list (Py.float * Analyze.user_info)) :
  (forall i, g (f i) = g i + c) ->
  g Analyze.new_info = 0 ->
  dates_in_tiers g (Py.dict_update Py.float_eqb Analyze.new_info a f tiers)
  = dates_in_tiers g tiers + c.
Proof.
  intros Hf H0. unfold dates_in_tiers, list_sum.
  induction tiers as [| [k v] r IH]; cbn [Py.dict_update map fold_right snd].
  - rewrite Hf, H0. lia.
  - destruct (Py.float_eqb k a); cbn [map fold_right snd].
    + rewrite Hf. lia.
    + rewrite IH. lia.
Qed.

Lemma dates_in_update (g : Analyze.user_info -> nat)
    (f : Analyze.amounts_data -> Analyze.amounts_data) (c : nat) (u : string)
    (ud : list (string * Analyze.amounts_data)) :
  (forall ad, dates_in_tiers g (Analyze.tiers (f ad))
              = dates_in_tiers g (Analyze.tiers ad) + c) ->
  dates_in g (Py.dict_update String.eqb Analyze.new_amounts_data u f ud)
  = dates_in g ud + c.
Proof.
  intros Hf. unfold dates_in, list_sum.
  induction ud as [| [k v] r IH]; cbn [Py.dict_update map fold_right snd].
  - rewrite Hf. cbn [Analyze.new_amounts_data Analyze.tiers dates_in_tiers map list_sum fold_right]. lia.
  - destruct (String.eqb k u); cbn [map fold_right snd].
    + rewrite Hf. lia.
    + rewrite IH. lia.
Qed.

Lemma dates_in_update_tier (g : Analyze.user_info -> nat)
    (f : Analyze.user_info -> Analyze.user_info) (c : nat) (u : string) (a : Py.float)
    (ud : list (string * Analyze.amounts_data)) :
  (forall i, g (f i) = g i + c) ->
  g Analyze.new_info = 0 ->
  dates_in g (Analyze.update_tier u a f ud) = dates_in g ud + c.
Proof.
  intros Hf H0. unfold Analyze.update_tier. apply dates_in_update.
  intros ad. cbn [Analyze.tiers]. now apply dates_in_tiers_update.
Qed.

Lemma dates_in_mark_cancelled (g : Analyze.user_info -> nat) (u d : string)
    (ud : list (string * Analyze.amounts_data)) :
  dates_in g (Analyze.mark_cancelled u d ud) = dates_in g ud.
Proof.
  unfold Analyze.mark_cancelled. rewrite (dates_in_update g _ 0); [lia |].
  intros ad. cbn [Analyze.tiers]. lia.
Qed.

Lemma marked_users_update (f : Analyze.amounts_data -> Analyze.amounts_data) (u : string)
    (ud : list (string * Analyze.amounts_data)) :
  (forall ad, Analyze.cancelled_mark (f ad) = Analyze.cancelled_mark ad) ->
  marked_users (Py.dict_update String.eqb Analyze.new_amounts_data u f ud)
  = marked_users ud.
Proof.
  intros Hf. unfold marked_users.
  induction ud as [| [k v] r IH]; cbn [Py.dict_update filter snd].
  - rewrite Hf. reflexivity.
  - destruct (String.eqb k u); cbn [filter snd].
    + rewrite Hf. destruct (Analyze.cancelled_mark v); reflexivity.
    + destruct (Analyze.cancelled_mark v); cbn [List.length]; now rewrite IH.
Qed.

Lemma marked_users_mark (u d : string) (ud : list (string * Analyze.amounts_data)) :
  marked_users (Analyze.mark_cancelled u d ud) <= S (marked_users ud).
Proof.
  unfold marked_users, Analyze.mark_cancelled.
  induction ud as [| [k v] r IH]; cbn [Py.dict_update filter snd].
  - cbn. lia.
  - destruct (String.eqb k u); cbn [filter snd Analyze.cancelled_mark].
    + destruct (Analyze.cancelled_mark v); cbn [List.length]; lia.
    + destruct (Analyze.cancelled_mark v); cbn [List.length]; lia.
Qed.

Lemma scan_counters (st : Analyze.scan_state) (m : message) :
  Analyze.subscriptions_count st = total_subscriptions (Analyze.user_data st) ->
  Analyze.renewals_count st = total_renewals (Analyze.user_data st) ->
  marked_users (Analyze.user_data st) <= Analyze.cancellations_count st ->
  Analyze.subscriptions_count (Analyze.scan st m)
    = total_subscriptions (Analyze.user_data (Analyze.scan st m)) /\
  Analyze.renewals_count (Analyze.scan st m)
    = total_renewals (Analyze.user_data (Analyze.scan st m)) /\
  marked_users (Analyze.user_data (Analyze.scan st m))
    <= Analyze.cancellations_count (Analyze.scan st m).
Proof.
  intros Hs Hr Hc. unfold Analyze.scan.
  destruct (extract_user_id m) as [uid |]; auto.
  destruct (negb (Py.truthy_str uid)); auto.
  destruct (Py.contains created_phrase (extract_text m)).
  { destruct (extract_amount m) as [a |]; auto.
    destruct (Py.truthy_float a); auto.
    cbn [Analyze.user_data Analyze.subscriptions_count Analyze.renewals_count
         Analyze.cancellations_count].
    unfold total_subscriptions, total_renewals.
    rewrite (dates_in_update_tier _ _ 1), (dates_in_update_tier _ _ 0); auto.
    - unfold Analyze.update_tier. rewrite marked_users_update by (intros; reflexivity).
      fold (total_subscriptions (Analyze.user_data st)).
      fold (total_renewals (Analyze.user_data st)). lia.
    - intros i. unfold Analyze.add_subscription, Analyze.add_renewal.
      cbn [Analyze.subscriptions Analyze.renewals]. rewrite length_app.
      cbn [List.length]. lia. }
  destruct (Py.contains renewed_phrase (extract_text m)).
  { destruct (extract_amount m) as [a |]; auto.
    destruct (Py.truthy_float a); auto.
    cbn [Analyze.user_data Analyze.subscriptions_count Analyze.renewals_count
         Analyze.cancellations_count].
    unfold total_subscriptions, total_renewals.
    rewrite (dates_in_update_tier _ _ 0), (dates_in_update_tier _ _ 1); auto.
    - unfold Analyze.update_tier. rewrite marked_users_update by (intros; reflexivity).
      fold (total_subscriptions (Analyze.user_data st)).
      fold (total_renewals (Analyze.user_data st)). lia.
    - intros i. unfold Analyze.add_subscription, Analyze.add_renewal.
      cbn [Analyze.subscriptions Analyze.renewals]. rewrite length_app.
      cbn [List.length]. lia. }
  destruct (Py.contains cancel_phrase (extract_text m) &&
            Py.contains subscription_noun (extract_text m)); auto.
  cbn [Analyze.user_data Analyze.subscriptions_count Analyze.renewals_count
       Analyze.cancellations_count].
  unfold total_subscriptions, total_renewals. rewrite !dates_in_mark_cancelled.
  pose proof (marked_users_mark uid
                (match msg_date m with Some d => d | None => "" end)
                (Analyze.user_data st)).
  fold (total_subscriptions (Analyze.user_data st)).
  fold (total_renewals (Analyze.user_data st)). lia.
Qed.

(** The counters printed after the scan agree with what was recorded:
    [subscriptions_count] is the number of subscription dates held over all
    users and amounts, [renewals_count] the number of renewal dates, and the
    users marked as cancelled are at most [cancellations_count], a later
    cancellation of the same user replacing the earlier one. *)
Theorem scan_counters_match_recorded_dates :
  forall messages,
    Analyze.subscriptions_count (Analyze.scan_all messages)
      = total_subscriptions (Analyze.user_data (Analyze.scan_all messages)) /\
    Analyze.renewals_count (Analyze.scan_all messages)
      = total_renewals (Analyze.user_data (Analyze.scan_all messages)) /\
    marked_users (Analyze.user_data (Analyze.scan_all messages))
      <= Analyze.cancellations_count (Analyze.scan_all messages).
Proof.
  intros messages. unfold Analyze.scan_all.
  assert (H : forall st,
    Analyze.subscriptions_count st = total_subscriptions (Analyze.user_data st) ->
    Analyze.renewals_count st = total_renewals (Analyze.user_data st) ->
    marked_users (Analyze.user_data st) <= Analyze.cancellations_count st ->
    Analyze.subscriptions_count (fold_left Analyze.scan messages st)
      = total_subscriptions (Analyze.user_data (fold_left Analyze.scan messages st)) /\
    Analyze.renewals_count (fold_left Analyze.scan messages st)
      = total_renewals (Analyze.user_data (fold_left Analyze.scan messages st)) /\
    marked_users (Analyze.user_data (fold_left Analyze.scan messages st))
      <= Analyze.cancellations_count (fold_left Analyze.scan messages st)).
  { induction messages as [| m r IH]; intros st H1 H2 H3; cbn [fold_left]; auto.
    destruct (scan_counters st m H1 H2 H3) as (H1' & H2' & H3'). now apply IH. }
  apply H; cbn; auto.
Qed.

(** ** Who is counted as cancelled *)

Lemma marked_update_tier (uid : string) (a : Py.float)
    (f : Analyze.user_info -> Analyze.user_info)
    (ud : list (string * Analyze.amounts_data)) (u : string) :
  marked (Analyze.update_tier uid a f ud) u = marked ud u.
Proof.
  unfold marked, Analyze.update_tier.
  rewrite (dict_get_update String.eqb String.eqb_sym str_eqb_trans).
  destruct (String.eqb uid u) eqn:Eu; [| reflexivity].
  apply String.eqb_eq in Eu. subst u. cbn [Analyze.cancelled_mark].
  destruct (Py.dict_get String.eqb uid ud); reflexivity.
Qed.

Lemma marked_mark_cancelled (uid d : string)
    (ud : list (string * Analyze.amounts_data)) (u : string) :
  marked (Analyze.mark_cancelled uid d ud) u = String.eqb uid u || marked ud u.
Proof.
  unfold marked, Analyze.mark_cancelled.
  rewrite (dict_get_update String.eqb String.eqb_sym str_eqb_trans).
  destruct (String.eqb uid u); reflexivity.
Qed.

Lemma scan_marked (st : Analyze.scan_state) (m : message) (u : string) :
  marked (Analyze.user_data (Analyze.scan st m)) u
  = marked (Analyze.user_data st) u || cancelled_by u m.
Proof.
  unfold Analyze.scan, cancelled_by.
  destruct (extract_user_id m) as [uid |]; [| now rewrite orb_false_r].
  destruct (Py.truthy_str uid); cbn [negb].
  2:{ rewrite andb_false_r. cbn [andb]. now rewrite orb_false_r. }
  rewrite andb_true_r.
  destruct (Py.contains created_phrase (extract_text m)); cbn [negb].
  { rewrite andb_false_r. cbn [andb]. rewrite orb_false_r.
    destruct (extract_amount m) as [a |]; [| reflexivity].
    destruct (Py.truthy_float a); [| reflexivity].
    cbn [Analyze.user_data]. apply marked_update_tier. }
  rewrite andb_true_r.
  destruct (Py.contains renewed_phrase (extract_text m)); cbn [negb].
  { rewrite andb_false_r. cbn [andb]. rewrite orb_false_r.
    destruct (extract_amount m) as [a |]; [| reflexivity].
    destruct (Py.truthy_float a); [| reflexivity].
    cbn [Analyze.user_data]. apply marked_update_tier. }
  rewrite andb_true_r.
  destruct (Py.contains cancel_phrase (extract_text m) &&
            Py.contains subscription_noun (extract_text m)).
  - rewrite andb_true_r. cbn [Analyze.user_data]. rewrite marked_mark_cancelled.
    apply orb_comm.
  - rewrite andb_false_r. now rewrite orb_false_r.
Qed.

Lemma scan_all_marked (messages : list message) (u : string) :
  forall st,
    marked (Analyze.user_data (fold_left Analyze.scan messages st)) u
    = marked (Analyze.user_data st) u || existsb (cancelled_by u) messages.
Proof.
  induction messages as [| m r IH]; intros st; cbn [fold_left existsb].
  - now rewrite orb_false_r.
  - rewrite IH, scan_marked. now rewrite orb_assoc.
Qed.

Lemma visit_cancelled (amount : Py.float) (t : Analyze.tally) (user_id : string)
    (ad : Analyze.amounts_data) (u : string) :
  In u (Analyze.users_cancelled (Analyze.visit amount t (user_id, ad))) <->
  In u (Analyze.users_cancelled t) \/
  (u = user_id /\ counted_entry amount (user_id, ad) = true /\
   marked [(user_id, ad)] user_id = true).
Proof.
  unfold Analyze.visit, Py.dict_mem, counted_entry, marked, recorded_subscriptions.
  cbn [Py.dict_get fst]. rewrite String.eqb_refl.
  destruct (Py.dict_get Py.float_eqb amount (Analyze.tiers ad)) as [info |].
  - destruct (Analyze.subscriptions info) as [| d ds].
    + intuition congruence.
    + destruct (Analyze.cancelled_mark ad); cbn [Analyze.users_cancelled].
      * rewrite set_add_in. intuition congruence.
      * intuition congruence.
  - intuition congruence.
Qed.

Lemma tally_cancelled (amount : Py.float) (ud : list (string * Analyze.amounts_data))
    (u : string) :
  forall t,
    In u (Analyze.users_cancelled (fold_left (Analyze.visit amount) ud t)) <->
    In u (Analyze.users_cancelled t) \/
    exists ad, In (u, ad) ud /\ counted_entry amount (u, ad) = true /\
               marked [(u, ad)] u = true.
Proof.
  induction ud as [| [user_id ad] r IH]; intros t; cbn [fold_left].
  - split; [auto | intros [H | (ad & [] & _)]; auto].
  - rewrite IH, visit_cancelled. split.
    + intros [[H | (-> & H)] | (ad' & Hin & H)]; eauto.
      * right. exists ad. split; [now left | exact H].
      * right. exists ad'. split; [now right | exact H].
    + intros [H | (ad' & [Hin | Hin] & H)]; auto.
      * inversion Hin; subst. auto.
      * right. eauto.
Qed.

Lemma counted_entry_recorded (ud : list (string * Analyze.amounts_data)) (u : string)
    (ad : Analyze.amounts_data) (amount : Py.float) :
  Py.dict_get String.eqb u ud = Some ad ->
  (counted_entry amount (u, ad) = true <-> recorded_subscriptions ud u amount <> []) /\
  marked [(u, ad)] u = marked ud u.
Proof.
  intros E. unfold counted_entry, marked, recorded_subscriptions.
  cbn [Py.dict_get fst]. rewrite String.eqb_refl, E. split; [| reflexivity].
  destruct (Py.dict_get Py.float_eqb amount (Analyze.tiers ad)) as [info |];
    [destruct (Analyze.subscriptions info) |]; split; congruence.
Qed.

(** The analyzer does not resolve which tier a cancellation closes: a user
    is counted as cancelled for a tier exactly when some message is a
    "created" event of that user at the tier and some message, anywhere in
    the log, is a cancellation of that user. *)
Theorem a_cancellation_counts_for_every_tier :
  forall messages amount t user_id,
    In user_id
       (Analyze.users_cancelled
          (Analyze.tally_amount amount
             (Analyze.user_data (Analyze.scan_all messages)) t))
    <-> existsb (created_at_tier user_id amount) messages = true /\
        existsb (cancelled_by user_id) messages = true.
Proof.
  intros messages amount t u. unfold Analyze.tally_amount, Analyze.scan_all.
  rewrite tally_cancelled. cbn [Analyze.fresh Analyze.users_cancelled In].
  assert (Hn : NoDup (map fst (Analyze.user_data
                                 (fold_left Analyze.scan messages Analyze.scan_initial)))).
  { apply scan_all_nodup. constructor. }
  pose proof (scan_all_recorded messages u amount Analyze.scan_initial) as Hr.
  change (recorded_subscriptions (Analyze.user_data Analyze.scan_initial) u amount)
    with (@nil string) in Hr.
  pose proof (scan_all_marked messages u Analyze.scan_initial) as Hm.
  change (marked (Analyze.user_data Analyze.scan_initial) u) with false in Hm.
  cbn [orb] in Hm.
  set (ud := Analyze.user_data (fold_left Analyze.scan messages Analyze.scan_initial)) in *.
  split.
  - intros [[] | (ad & Hin & Hc & Hk)].
    destruct (counted_entry_recorded ud u ad amount (in_dict_get u ad ud Hn Hin))
      as [Hc' Hk'].
    split.
    + apply Hc' in Hc. apply Hr in Hc. destruct Hc as [Hc | Hc]; [congruence | exact Hc].
    + now rewrite <- Hm, <- Hk'.
  - intros [Hc Hk]. right.
    assert (Hrec : recorded_subscriptions ud u amount <> []) by (apply Hr; now right).
    destruct (Py.dict_get String.eqb u ud) as [ad |] eqn:E.
    + destruct (counted_entry_recorded ud u ad amount E) as [Hc' Hk'].
      exists ad. split; [now apply dict_get_in |]. split; [now apply Hc' |].
      now rewrite Hk', Hm.
    + exfalso. apply Hrec. unfold recorded_subscriptions. now rewrite E.
Qed.

Lemma a_cancellation_counts_for_every_tier_witness :
  In "@bob"
     (Analyze.users_cancelled
        (Analyze.tally_amount (Py.float_of_int 9)
           (Analyze.user_data
              (Analyze.scan_all
                 [ {| msg_text := Some (TextStr "@bob отменил подписку");
                      msg_text_entities := [span "mention" "@bob"];
                      msg_date := Some "2024-01-01" |};
                   {| msg_text := Some (TextStr "@bob оформил подписку за €5");
                      msg_text_entities := [span "mention" "@bob"; span "bold" "€5"];
                      msg_date := Some "2024-01-02" |};
                   {| msg_text := Some (TextStr "@bob оформил подписку за €9");
                      msg_text_entities := [span "mention" "@bob"; span "bold" "€9"];
                      msg_date := Some "2024-01-03" |} ]))
           Analyze.tally_initial)).
Proof.
  apply (proj2 (a_cancellation_counts_for_every_tier _ _ _ _)).
  split; vm_compute; reflexivity.
Defined.

(** ** The renewal count of each subscriber *)

Lemma recorded_renewals_update_tier (uid : string) (a : Py.float)
    (f : Analyze.user_info -> Analyze.user_info)
    (ud : list (string * Analyze.amounts_data)) (u : string) (amount : Py.float) :
  recorded_renewals (Analyze.update_tier uid a f ud) u amount =
  if String.eqb uid u && Py.float_eqb a amount
  then Analyze.renewals
         (f (match Py.dict_get String.eqb uid ud with
             | Some ad =>
                 match Py.dict_get Py.float_eqb a (Analyze.tiers ad) with
                 | Some i => i
                 | None => Analyze.new_info
                 end
             | None => Analyze.new_info
             end))
  else recorded_renewals ud u amount.
Proof.
  unfold recorded_renewals, Analyze.update_tier.
  rewrite (dict_get_update String.eqb String.eqb_sym str_eqb_trans).
  destruct (String.eqb uid u) eqn:Eu; cbn [andb]; [| reflexivity].
  cbn [Analyze.tiers].
  rewrite (dict_get_update Py.float_eqb float_eqb_sym float_eqb_trans).
  apply String.eqb_eq in Eu. subst u.
  destruct (Py.float_eqb a amount); destruct (Py.dict_get String.eqb uid ud);
    reflexivity.
Qed.

Lemma recorded_renewals_at_equal_key (uid : string) (a amount : Py.float)
    (ud : list (string * Analyze.amounts_data)) :
  Py.float_eqb a amount = true ->
  Analyze.renewals
    (match Py.dict_get String.eqb uid ud with
     | Some ad =>
         match Py.dict_get Py.float_eqb a (Analyze.tiers ad) with
         | Some i => i
         | None => Analyze.new_info
         end
     | None => Analyze.new_info
     end) = recorded_renewals ud uid amount.
Proof.
  intros E. unfold recorded_renewals.
  destruct (Py.dict_get String.eqb uid ud) as [ad |]; [| reflexivity].
  rewrite (dict_get_equiv Py.float_eqb float_eqb_sym float_eqb_trans amount a _ E).
  destruct (Py.dict_get Py.float_eqb a (Analyze.tiers ad)); reflexivity.
Qed.

Lemma recorded_renewals_mark_cancelled (uid date : string)
    (ud : list (string * Analyze.amounts_data)) (u : string) (amount : Py.float) :
  recorded_renewals (Analyze.mark_cancelled uid date ud) u amount =
  recorded_renewals ud u amount.
Proof.
  unfold recorded_renewals, Analyze.mark_cancelled.
  rewrite (dict_get_update String.eqb String.eqb_sym str_eqb_trans).
  destruct (String.eqb uid u) eqn:Eu; [| reflexivity].
  apply String.eqb_eq in Eu. subst u. cbn [Analyze.tiers].
  destruct (Py.dict_get String.eqb uid ud); reflexivity.
Qed.

Lemma scan_recorded_renewals (st : Analyze.scan_state) (m : message) (u : string)
    (amount : Py.float) :
  recorded_renewals (Analyze.user_data (Analyze.scan st m)) u amount =
  recorded_renewals (Analyze.user_data st) u amount ++
  (if renewed_at_tier u amount m
   then [match msg_date m with Some d => d | None => "" end]
   else []).
Proof.
  unfold Analyze.scan, renewed_at_tier.
  destruct (extract_user_id m) as [uid |]; [| now rewrite app_nil_r].
  destruct (Py.truthy_str uid); cbn [negb].
  2:{ rewrite andb_false_r. cbn [andb].
      destruct (extract_amount m); now rewrite app_nil_r. }
  rewrite andb_true_r.
  destruct (Py.contains created_phrase (extract_text m)); cbn [negb].
  - rewrite andb_false_r. cbn [andb].
    destruct (extract_amount m) as [a |]; [| now rewrite app_nil_r].
    rewrite app_nil_r.
    destruct (Py.truthy_float a); [| reflexivity].
    cbn [Analyze.user_data]. rewrite recorded_renewals_update_tier.
    destruct (String.eqb uid u) eqn:Eu; cbn [andb]; [| reflexivity].
    apply String.eqb_eq in Eu. subst u.
    destruct (Py.float_eqb a amount) eqn:Ef; [| reflexivity].
    cbn [Analyze.add_subscription Analyze.renewals].
    now rewrite (recorded_renewals_at_equal_key uid a amount _ Ef).
  - rewrite andb_true_r.
    destruct (Py.contains renewed_phrase (extract_text m)).
    + rewrite andb_true_r.
      destruct (extract_amount m) as [a |]; [| now rewrite app_nil_r].
      destruct (Py.truthy_float a).
      * rewrite andb_true_r. cbn [Analyze.user_data].
        rewrite recorded_renewals_update_tier.
        destruct (String.eqb uid u) eqn:Eu; cbn [andb]; [| now rewrite app_nil_r].
        apply String.eqb_eq in Eu. subst u.
        destruct (Py.float_eqb a amount) eqn:Ef; [| now rewrite app_nil_r].
        cbn [Analyze.add_renewal Analyze.renewals].
        now rewrite (recorded_renewals_at_equal_key uid a amount _ Ef).
      * rewrite andb_false_r. cbn [andb]. now rewrite app_nil_r.
    + rewrite andb_false_r. cbn [andb].
      destruct (Py.contains cancel_phrase (extract_text m) &&
                Py.contains subscription_noun (extract_text m)).
      * cbn [Analyze.user_data]. rewrite recorded_renewals_mark_cancelled.
        destruct (extract_amount m); now rewrite app_nil_r.
      * destruct (extract_amount m); now rewrite app_nil_r.
Qed.

Lemma scan_all_recorded_renewals (messages : list message) (u : string)
    (amount : Py.float) :
  forall st,
    List.length (recorded_renewals (Analyze.user_data (fold_left Analyze.scan messages st))
                                   u amount)
    = List.length (recorded_renewals (Analyze.user_data st) u amount)
      + List.length (filter (renewed_at_tier u amount) messages).
Proof.
  induction messages as [| m r IH]; intros st; cbn [fold_left filter].
  - cbn. lia.
  - rewrite IH, scan_recorded_renewals, length_app.
    destruct (renewed_at_tier u amount m); cbn [List.length]; lia.
Qed.

Lemma set_add_fresh (x : string) (s : list string) :
  ~ In x s -> Py.set_add x s = s ++ [x].
Proof.
  induction s as [| y r IH]; cbn [Py.set_add app]; intros H; [reflexivity |].
  destruct (String.eqb y x) eqn:E.
  - apply String.eqb_eq in E. subst y. exfalso. apply H. now left.
  - rewrite IH; [reflexivity |]. intros Hin. apply H. now right.
Qed.

Lemma visit_lists (amount : Py.float) (t : Analyze.tally)
    (entry : string * Analyze.amounts_data) :
  ~ In (fst entry) (Analyze.users_with_amount t) ->
  Analyze.users_with_amount (Analyze.visit amount t entry)
    = Analyze.users_with_amount t
      ++ (if counted_entry amount entry then [fst entry] else []) /\
  Analyze.renewals_per_user (Analyze.visit amount t entry)
    = Analyze.renewals_per_user t
      ++ (if counted_entry amount entry
          then [List.length (recorded_renewals [entry] (fst entry) amount)]
          else []).
Proof.
  destruct entry as [uid ad]. cbn [fst]. intros Hnew.
  unfold Analyze.visit, Py.dict_mem, counted_entry, recorded_subscriptions,
    recorded_renewals.
  cbn [Py.dict_get fst]. rewrite String.eqb_refl.
  destruct (Py.dict_get Py.float_eqb amount (Analyze.tiers ad)) as [info |];
    [| now rewrite !app_nil_r].
  destruct (Analyze.subscriptions info) as [| d ds]; [now rewrite !app_nil_r |].
  destruct (Analyze.cancelled_mark ad);
    cbn [Analyze.users_with_amount Analyze.renewals_per_user];
    now rewrite (set_add_fresh uid _ Hnew).
Qed.

Lemma tally_lists (amount : Py.float) (ud : list (string * Analyze.amounts_data)) :
  forall t,
    NoDup (map fst ud) ->
    (forall u, In u (Analyze.users_with_amount t) -> ~ In u (map fst ud)) ->
    Analyze.users_with_amount (fold_left (Analyze.visit amount) ud t)
      = Analyze.users_with_amount t ++ map fst (filter (counted_entry amount) ud) /\
    Analyze.renewals_per_user (fold_left (Analyze.visit amount) ud t)
      = Analyze.renewals_per_user t
        ++ map (fun e => List.length (recorded_renewals [e] (fst e) amount))
               (filter (counted_entry amount) ud).
Proof.
  induction ud as [| entry r IH]; intros t Hn Hfresh; cbn [fold_left filter map].
  - now rewrite !app_nil_r.
  - cbn [map] in Hn. inversion Hn as [| ? ? Hnotin Hn']; subst.
    destruct (visit_lists amount t entry) as [Hu Hr].
    { intros Hin. apply (Hfresh _ Hin). now left. }
    destruct (IH (Analyze.visit amount t entry) Hn') as [IHu IHr].
    { intros u Hin. rewrite Hu in Hin. apply in_app_or in Hin.
      destruct Hin as [Hin | Hin].
      - intros Hin'. apply (Hfresh _ Hin). now right.
      - destruct (counted_entry amount entry); [| destruct Hin].
        destruct Hin as [<- | []]. exact Hnotin. }
    rewrite IHu, IHr, Hu, Hr.
    destruct (counted_entry amount entry); cbn [map app];
      rewrite <- !app_assoc; auto.
Qed.

(** For every tier, [renewals_per_user] holds one count for each subscriber,
    in the order of the subscribers, and the count of a subscriber is the
    number of messages that are "renewed" events of that user at that
    tier. *)
Theorem renewal_counts_follow_the_subscribers :
  forall messages amount t,
    Analyze.renewals_per_user
      (Analyze.tally_amount amount (Analyze.user_data (Analyze.scan_all messages)) t)
    = map (fun u => List.length (filter (renewed_at_tier u amount) messages))
          (Analyze.users_with_amount
             (Analyze.tally_amount amount
                (Analyze.user_data (Analyze.scan_all messages)) t)) /\
    List.length
      (Analyze.renewals_per_user
         (Analyze.tally_amount amount (Analyze.user_data (Analyze.scan_all messages)) t))
    = List.length
        (Analyze.users_with_amount
           (Analyze.tally_amount amount
              (Analyze.user_data (Analyze.scan_all messages)) t)).
Proof.
  intros messages amount t.
  assert (Hn : NoDup (map fst (Analyze.user_data (Analyze.scan_all messages)))).
  { apply scan_all_nodup. constructor. }
  assert (Hlen : forall u,
            List.length (recorded_renewals (Analyze.user_data (Analyze.scan_all messages))
                                           u amount)
            = List.length (filter (renewed_at_tier u amount) messages)).
  { intros u. unfold Analyze.scan_all. rewrite scan_all_recorded_renewals. reflexivity. }
  set (ud := Analyze.user_data (Analyze.scan_all messages)) in *.
  unfold Analyze.tally_amount.
  destruct (tally_lists amount ud (Analyze.fresh t) Hn) as [Hu Hr].
  { intros u []. }
  cbn [Analyze.fresh Analyze.users_with_amount Analyze.renewals_per_user app] in Hu, Hr.
  assert (E : Analyze.renewals_per_user (fold_left (Analyze.visit amount) ud (Analyze.fresh t))
              = map (fun u => List.length (filter (renewed_at_tier u amount) messages))
                    (Analyze.users_with_amount
                       (fold_left (Analyze.visit amount) ud (Analyze.fresh t)))).
  { rewrite Hu, Hr, map_map. apply map_ext_in. intros [u ad] Hin.
    apply filter_In in Hin. destruct Hin as [Hin _]. cbn [fst].
    rewrite <- Hlen. unfold recorded_renewals. cbn [Py.dict_get].
    now rewrite String.eqb_refl, (in_dict_get u ad ud Hn Hin). }
  split; [exact E |]. rewrite E. apply length_map.
Qed.

(** ** The plain import against the first pass of the re-import *)

Lemma import_message_raw_event (m : message) :
  match ImportExport.import_message m with
  | Some r =>
      Py.truthy_str (row_user_id r) = true /\
      Py.truthy_str (row_event_date r) = true /\
      Py.truthy_ofloat (row_amount r) = true /\
      row_amount r = extract_amount m /\
      exists e,
        raw_event m = Some (row_user_id r, e) /\
        Reimport.date e = row_event_date r /\
        Reimport.ev_type e = row_event_type r /\
        Reimport.username e = row_username r /\
        Reimport.amount e = (if is_cancellation e then None else row_amount r)
  | None =>
      match raw_event m with
      | Some (u, e) =>
          Reimport.ev_type e = subscription_cancelled /\
          Py.truthy_ofloat (extract_amount m) = false
      | None => True
      end
  end.
Proof.
  unfold ImportExport.import_message, raw_event, Reimport.collect.
  destruct (extract_user_id m) as [uid |]; cbn [Py.truthy_ostr negb orb]; [| exact I].
  destruct (msg_date m) as [d |]; cbn [Py.truthy_ostr negb orb].
  2:{ rewrite orb_true_r. exact I. }
  destruct (Py.truthy_str uid) eqn:Eu; cbn [negb orb]; [| exact I].
  destruct (Py.truthy_str d) eqn:Ed; cbn [negb orb].
  2:{ rewrite orb_true_r. exact I. }
  rewrite orb_false_r.
  destruct (Py.truthy_ofloat (extract_amount m)) eqn:Ea; cbn [negb].
  - destruct (Py.contains created_phrase (extract_text m)).
    { cbn. repeat split; try assumption. eexists. repeat split. }
    destruct (Py.contains renewed_phrase (extract_text m)).
    { cbn. repeat split; try assumption. eexists. repeat split. }
    destruct (Py.contains cancel_phrase (extract_text m) &&
              Py.contains subscription_noun (extract_text m)).
    { cbn. repeat split; try assumption. eexists. repeat split. }
    exact I.
  - destruct (Py.contains created_phrase (extract_text m)); [exact I |].
    destruct (Py.contains renewed_phrase (extract_text m)); [exact I |].
    destruct (Py.contains cancel_phrase (extract_text m) &&
              Py.contains subscription_noun (extract_text m)); [| exact I].
    cbn. split; reflexivity.
Qed.

(** Every row the plain import submits has a non-empty user key, a
    non-empty date and a non-zero amount, and it is one of the events the
    first pass of the re-import collects for that user: same date, type and
    user name, and the same amount unless the event is a cancellation, which
    the re-import collects without an amount. *)
Theorem import_rows_are_collected_events :
  forall messages r,
    In r (ImportExport.import_data messages) ->
    Py.truthy_str (row_user_id r) = true /\
    Py.truthy_str (row_event_date r) = true /\
    Py.truthy_ofloat (row_amount r) = true /\
    exists e,
      In e (events_of (row_user_id r) messages) /\
      Reimport.date e = row_event_date r /\
      Reimport.ev_type e = row_event_type r /\
      Reimport.username e = row_username r /\
      Reimport.amount e = (if is_cancellation e then None else row_amount r).
Proof.
  intros messages r Hin. unfold ImportExport.import_data in Hin.
  apply in_flat_map in Hin. destruct Hin as (m & Hm & Hr).
  pose proof (import_message_raw_event m) as H.
  destruct (ImportExport.import_message m) as [r' |]; [| destruct Hr].
  destruct Hr as [<- | []].
  destruct H as (Hu & Hd & Ha & _ & e & He & H1 & H2 & H3 & H4).
  repeat split; try assumption.
  exists e. repeat split; try assumption.
  unfold events_of. apply in_flat_map. exists m. split; [exact Hm |].
  rewrite He, String.eqb_refl. now left.
Qed.

Lemma import_rows_are_collected_events_witness :
  exists e,
    In e (events_of "@bob"
            [ {| msg_text := Some (TextStr "@bob продлил подписку за €5");
                 msg_text_entities := [span "mention" "@bob"; span "bold" "€5"];
                 msg_date := Some "2024-02-01" |} ]) /\
    Reimport.ev_type e = subscription_renewed /\
    Reimport.amount e = Some (Py.float_of_int 5).
Proof.
  destruct (import_rows_are_collected_events
              [ {| msg_text := Some (TextStr "@bob продлил подписку за €5");
                   msg_text_entities := [span "mention" "@bob"; span "bold" "€5"];
                   msg_date := Some "2024-02-01" |} ]
              {| row_user_id := "@bob"; row_username := Some "bob";
                 row_amount := Some (Py.float_of_int 5);
                 row_event_type := subscription_renewed;
                 row_event_date := "2024-02-01" |})
    as (_ & _ & _ & e & Hin & _ & Ht & _ & Ha).
  - vm_compute. left. reflexivity.
  - exists e. split; [exact Hin |]. split; [exact Ht |].
    unfold is_cancellation in Ha. rewrite Ht in Ha. exact Ha.
Defined.

(** The only events of the re-import that the plain import passes over
    are the cancellations whose message has no non-zero amount. *)
Theorem import_drops_cancellations_without_amount :
  forall m u e,
    raw_event m = Some (u, e) ->
    (ImportExport.import_message m = None <->
     Reimport.ev_type e = subscription_cancelled /\
     Py.truthy_ofloat (extract_amount m) = false).
Proof.
  intros m u e He. pose proof (import_message_raw_event m) as H.
  destruct (ImportExport.import_message m) as [r |].
  - destruct H as (_ & _ & Ha & Hx & _). split; [discriminate |].
    intros [_ Hf]. rewrite <- Hx, Ha in Hf. discriminate.
  - rewrite He in H. split; [intros _; exact H | reflexivity].
Qed.

Lemma import_drops_cancellations_without_amount_witness :
  ImportExport.import_message
    {| msg_text := Some (TextStr "@bob отменил подписку");
       msg_text_entities := [span "mention" "@bob"];
       msg_date := Some "2024-03-01" |} = None.
Proof.
  apply (proj2 (import_drops_cancellations_without_amount
                  {| msg_text := Some (TextStr "@bob отменил подписку");
                     msg_text_entities := [span "mention" "@bob"];
                     msg_date := Some "2024-03-01" |}
                  "@bob"
                  {| Reimport.date := "2024-03-01"; Reimport.amount := None;
                     Reimport.ev_type := subscription_cancelled;
                     Reimport.username := Some "bob" |}
                  eq_refl)).
  split; reflexivity.
Defined.

(** ** Instances of the statements above *)

Lemma first_pass_events_are_well_formed_witness :
  In ("@bob",
      [ {| Reimport.date := "2024-01-02"; Reimport.amount := Some (Py.float_of_int 5);
           Reimport.ev_type := subscription_created;
           Reimport.username := Some "bob" |} ])
     (Reimport.first_pass
        [ {| msg_text := Some (TextStr "@bob оформил подписку за €5");
             msg_text_entities := [span "mention" "@bob"; span "bold" "€5"];
             msg_date := Some "2024-01-02" |} ]) /\
  Forall well_formed
     [ {| Reimport.date := "2024-01-02"; Reimport.amount := Some (Py.float_of_int 5);
          Reimport.ev_type := subscription_created;
          Reimport.username := Some "bob" |} ].
Proof.
  assert (Hin : In ("@bob",
      [ {| Reimport.date := "2024-01-02"; Reimport.amount := Some (Py.float_of_int 5);
           Reimport.ev_type := subscription_created;
           Reimport.username := Some "bob" |} ])
     (Reimport.first_pass
        [ {| msg_text := Some (TextStr "@bob оформил подписку за €5");
             msg_text_entities := [span "mention" "@bob"; span "bold" "€5"];
             msg_date := Some "2024-01-02" |} ])).
  { vm_compute. left. reflexivity. }
  split; [exact Hin |].
  exact (proj2 (proj2 (proj2 (first_pass_events_are_well_formed _) _ _ Hin))).
Defined.

Lemma resolved_cancellations_follow_a_created_event_witness :
  exists e,
    In e [ {| Reimport.date := "2024-01-05"; Reimport.amount := None;
              Reimport.ev_type := subscription_cancelled; Reimport.username := None |};
           {| Reimport.date := "2024-01-02"; Reimport.amount := Some (Py.float_of_int 5);
              Reimport.ev_type := subscription_created; Reimport.username := None |} ] /\
    Reimport.ev_type e = subscription_created /\
    Reimport.amount e = Some (Py.float_of_int 5) /\
    date_le (Reimport.date e) "2024-01-05".
Proof.
  destruct (resolved_cancellations_follow_a_created_event "@bob"
              [ {| Reimport.date := "2024-01-05"; Reimport.amount := None;
                   Reimport.ev_type := subscription_cancelled; Reimport.username := None |};
                {| Reimport.date := "2024-01-02"; Reimport.amount := Some (Py.float_of_int 5);
                   Reimport.ev_type := subscription_created; Reimport.username := None |} ])
    as (st & open & Hs & H).
  apply (H {| row_user_id := "@bob"; row_username := None;
              row_amount := Some (Py.float_of_int 5);
              row_event_type := subscription_cancelled;
              row_event_date := "2024-01-05" |}); [| reflexivity].
  vm_compute in Hs. injection Hs as <- <-.
  vm_compute. right. left. reflexivity.
Defined.

(** ** The overall figures against the figures of the tiers *)

Lemma set_add_same (x : string) (s : list string) : In x s -> Py.set_add x s = s.
Proof.
  induction s as [| y r IH]; cbn [Py.set_add]; intros H; [destruct H |].
  destruct (String.eqb y x) eqn:E; [reflexivity |].
  destruct H as [-> | H]; [now rewrite String.eqb_refl in E |].
  now rewrite IH.
Qed.

Lemma set_add_length (x : string) (s : list string) :
  List.length (Py.set_add x s) <= S (List.length s).
Proof.
  induction s as [| y r IH]; cbn [Py.set_add List.length]; [lia |].
  destruct (String.eqb y x); cbn [List.length]; lia.
Qed.

Lemma set_add_grows (x : string) (s s' : list string) :
  incl s s' ->
  List.length (Py.set_add x s') + List.length s
  <= List.length s' + List.length (Py.set_add x s).
Proof.
  intros Hi. destruct (in_dec string_dec x s) as [Hin | Hnot].
  - rewrite (set_add_same x s Hin), (set_add_same x s' (Hi _ Hin)). lia.
  - rewrite (set_add_fresh x s Hnot), length_app. cbn [List.length].
    pose proof (set_add_length x s'). lia.
Qed.

Lemma visit_overall (amount : Py.float) (t : Analyze.tally)
    (entry : string * Analyze.amounts_data) :
  NoDup (Analyze.total_users_all t) ->
  NoDup (Analyze.total_cancelled_all t) ->
  incl (Analyze.total_cancelled_all t) (Analyze.total_users_all t) ->
  incl (Analyze.users_with_amount t) (Analyze.total_users_all t) ->
  NoDup (Analyze.total_users_all (Analyze.visit amount t entry)) /\
  NoDup (Analyze.total_cancelled_all (Analyze.visit amount t entry)) /\
  incl (Analyze.total_cancelled_all (Analyze.visit amount t entry))
       (Analyze.total_users_all (Analyze.visit amount t entry)) /\
  incl (Analyze.users_with_amount (Analyze.visit amount t entry))
       (Analyze.total_users_all (Analyze.visit amount t entry)) /\
  incl (Analyze.total_users_all t) (Analyze.total_users_all (Analyze.visit amount t entry)) /\
  List.length (Analyze.total_users_all (Analyze.visit amount t entry))
    + List.length (Analyze.users_with_amount t)
  <= List.length (Analyze.total_users_all t)
     + List.length (Analyze.users_with_amount (Analyze.visit amount t entry)) /\
  exists l,
    Analyze.renewals_per_user (Analyze.visit amount t entry)
      = Analyze.renewals_per_user t ++ l /\
    Analyze.total_renewals_all (Analyze.visit amount t entry)
      = Analyze.total_renewals_all t ++ l.
Proof.
  intros Hu Hc Hi Hw.
  assert (Hsame : NoDup (Analyze.total_users_all t) /\
                  NoDup (Analyze.total_cancelled_all t) /\
                  incl (Analyze.total_cancelled_all t) (Analyze.total_users_all t) /\
                  incl (Analyze.users_with_amount t) (Analyze.total_users_all t) /\
                  incl (Analyze.total_users_all t) (Analyze.total_users_all t) /\
                  List.length (Analyze.total_users_all t)
                    + List.length (Analyze.users_with_amount t)
                  <= List.length (Analyze.total_users_all t)
                     + List.length (Analyze.users_with_amount t) /\
                  exists l,
                    Analyze.renewals_per_user t = Analyze.renewals_per_user t ++ l /\
                    Analyze.total_renewals_all t = Analyze.total_renewals_all t ++ l).
  { repeat split; auto using incl_refl.
    exists []. now rewrite !app_nil_r. }
  unfold Analyze.visit. destruct entry as [user_id ad].
  destruct (Py.dict_mem Py.float_eqb amount (Analyze.tiers ad)); [| exact Hsame].
  destruct (Py.dict_get Py.float_eqb amount (Analyze.tiers ad)) as [info |];
    [| exact Hsame].
  destruct (Analyze.subscriptions info); [exact Hsame |].
  assert (Hgrow : incl (Analyze.total_users_all t)
                       (Py.set_add user_id (Analyze.total_users_all t))).
  { intros x Hx. apply set_add_in. now right. }
  assert (Hw' : incl (Py.set_add user_id (Analyze.users_with_amount t))
                     (Py.set_add user_id (Analyze.total_users_all t))).
  { intros x Hx. apply set_add_in in Hx. apply set_add_in.
    destruct Hx as [-> | Hx]; [now left | right; now apply Hw]. }
  pose proof (set_add_grows user_id _ _ Hw) as Hlen.
  destruct (Analyze.cancelled_mark ad);
    cbn [Analyze.users_with_amount Analyze.total_users_all Analyze.total_cancelled_all
         Analyze.renewals_per_user Analyze.total_renewals_all].
  - repeat split; auto using set_add_nodup.
    + intros x Hx. apply set_add_in in Hx. apply set_add_in.
      destruct Hx as [-> | Hx]; [now left | right; now apply Hi].
    + eexists. split; reflexivity.
  - repeat split; auto using set_add_nodup.
    + intros x Hx. apply set_add_in. right. now apply Hi.
    + eexists. split; reflexivity.
Qed.

Lemma tally_overall (amount : Py.float) (ud : list (string * Analyze.amounts_data)) :
  forall t,
    NoDup (Analyze.total_users_all t) ->
    NoDup (Analyze.total_cancelled_all t) ->
    incl (Analyze.total_cancelled_all t) (Analyze.total_users_all t) ->
    incl (Analyze.users_with_amount t) (Analyze.total_users_all t) ->
    NoDup (Analyze.total_users_all (fold_left (Analyze.visit amount) ud t)) /\
    NoDup (Analyze.total_cancelled_all (fold_left (Analyze.visit amount) ud t)) /\
    incl (Analyze.total_cancelled_all (fold_left (Analyze.visit amount) ud t))
         (Analyze.total_users_all (fold_left (Analyze.visit amount) ud t)) /\
    incl (Analyze.users_with_amount (fold_left (Analyze.visit amount) ud t))
         (Analyze.total_users_all (fold_left (Analyze.visit amount) ud t)) /\
    incl (Analyze.total_users_all t)
         (Analyze.total_users_all (fold_left (Analyze.visit amount) ud t)) /\
    List.length (Analyze.total_users_all (fold_left (Analyze.visit amount) ud t))
      + List.length (Analyze.users_with_amount t)
    <= List.length (Analyze.total_users_all t)
       + List.length (Analyze.users_with_amount (fold_left (Analyze.visit amount) ud t)) /\
    exists l,
      Analyze.renewals_per_user (fold_left (Analyze.visit amount) ud t)
        = Analyze.renewals_per_user t ++ l /\
      Analyze.total_renewals_all (fold_left (Analyze.visit amount) ud t)
        = Analyze.total_renewals_all t ++ l.
Proof.
  induction ud as [| entry r IH]; intros t Hu Hc Hi Hw; cbn [fold_left].
  - repeat split; auto using incl_refl. exists []. now rewrite !app_nil_r.
  - destruct (visit_overall amount t entry Hu Hc Hi Hw)
      as (H1 & H2 & H3 & H4 & H5 & H6 & l1 & H7 & H8).
    destruct (IH _ H1 H2 H3 H4) as (K1 & K2 & K3 & K4 & K5 & K6 & l2 & K7 & K8).
    repeat split; auto.
    + eapply incl_tran; eassumption.
    + lia.
    + exists (l1 ++ l2). rewrite K7, K8, H7, H8, <- !app_assoc. auto.
Qed.

(** The round for one amount, on the running sets and list. *)
Lemma tally_amount_overall (amount : Py.float) (ud : list (string * Analyze.amounts_data))
    (t : Analyze.tally) :
  NoDup (map fst ud) ->
  NoDup (Analyze.total_users_all t) ->
  NoDup (Analyze.total_cancelled_all t) ->
  incl (Analyze.total_cancelled_all t) (Analyze.total_users_all t) ->
  NoDup (Analyze.total_users_all (Analyze.tally_amount amount ud t)) /\
  NoDup (Analyze.total_cancelled_all (Analyze.tally_amount amount ud t)) /\
  incl (Analyze.total_cancelled_all (Analyze.tally_amount amount ud t))
       (Analyze.total_users_all (Analyze.tally_amount amount ud t)) /\
  incl (Analyze.total_users_all t)
       (Analyze.total_users_all (Analyze.tally_amount amount ud t)) /\
  List.length (Analyze.users_with_amount (Analyze.tally_amount amount ud t))
    <= List.length (Analyze.total_users_all (Analyze.tally_amount amount ud t)) /\
  List.length (Analyze.total_users_all (Analyze.tally_amount amount ud t))
    <= List.length (Analyze.total_users_all t)
       + List.length (Analyze.users_with_amount (Analyze.tally_amount amount ud t)) /\
  Analyze.total_renewals_all (Analyze.tally_amount amount ud t)
    = Analyze.total_renewals_all t
      ++ Analyze.renewals_per_user (Analyze.tally_amount amount ud Analyze.tally_initial) /\
  List.length (Analyze.renewals_per_user
                 (Analyze.tally_amount amount ud Analyze.tally_initial))
    = List.length (Analyze.users_with_amount (Analyze.tally_amount amount ud t)).
Proof.
  intros Hn Hu Hc Hi. unfold Analyze.tally_amount.
  destruct (tally_overall amount ud (Analyze.fresh t) Hu Hc Hi)
    as (H1 & H2 & H3 & H4 & H5 & H6 & l & H7 & H8).
  { intros x []. }
  destruct (tally_cancelled_subscribers amount ud (Analyze.fresh t)) as (Hw & _ & _).
  { constructor. } { constructor. } { intros x []. }
  destruct (tally_lists amount ud (Analyze.fresh t) Hn) as [Lu Lr].
  { intros u []. }
  destruct (tally_lists amount ud (Analyze.fresh Analyze.tally_initial) Hn) as [_ Lr0].
  { intros u []. }
  cbn [Analyze.fresh Analyze.users_with_amount Analyze.renewals_per_user
       Analyze.total_users_all Analyze.total_renewals_all app List.length] in *.
  repeat split; auto.
  - now apply NoDup_incl_length.
  - lia.
  - rewrite H8. f_equal. rewrite <- H7, Lr, Lr0. reflexivity.
  - rewrite Lr0, Lu, !length_map. reflexivity.
Qed.

Lemma analyze_amounts_overall (ud : list (string * Analyze.amounts_data))
    (l : list Py.float) :
  NoDup (map fst ud) ->
  forall t,
    NoDup (Analyze.total_users_all t) ->
    NoDup (Analyze.total_cancelled_all t) ->
    incl (Analyze.total_cancelled_all t) (Analyze.total_users_all t) ->
    exists reports t',
      Analyze.analyze_amounts ud l t = Py.Ok (reports, t') /\
      List.length reports = List.length l /\
      NoDup (Analyze.total_users_all t') /\
      NoDup (Analyze.total_cancelled_all t') /\
      incl (Analyze.total_cancelled_all t') (Analyze.total_users_all t') /\
      incl (Analyze.total_users_all t) (Analyze.total_users_all t') /\
      Forall (fun r => (Analyze.total_users r
                        <= Z.of_nat (List.length (Analyze.total_users_all t')))%Z) reports /\
      (Z.of_nat (List.length (Analyze.total_users_all t'))
       <= Z.of_nat (List.length (Analyze.total_users_all t))
          + subscribers_over_tiers reports)%Z /\
      Analyze.total_renewals_all t'
        = Analyze.total_renewals_all t
          ++ flat_map (fun a => Analyze.renewals_per_user
                                  (Analyze.tally_amount a ud Analyze.tally_initial)) l /\
      (Z.of_nat (List.length (Analyze.total_renewals_all t'))
       = Z.of_nat (List.length (Analyze.total_renewals_all t))
         + subscribers_over_tiers reports)%Z.
Proof.
  intros Hn. induction l as [| amount r IH]; intros t Hu Hc Hi;
    cbn [Analyze.analyze_amounts].
  - exists [], t. cbn [subscribers_over_tiers fold_right flat_map List.length].
    rewrite app_nil_r. repeat split; auto using incl_refl; lia.
  - destruct (analyze_amount_spec ud amount t) as (rep & -> & Htu & _).
    cbn [Py.bind snd fst].
    destruct (tally_amount_overall amount ud t Hn Hu Hc Hi)
      as (H1 & H2 & H3 & H4 & H5 & H6 & H7 & H8).
    destruct (IH _ H1 H2 H3)
      as (reports & t' & -> & K1 & K2 & K3 & K4 & K5 & K6 & K7 & K8 & K9).
    cbn [Py.bind snd fst]. exists (rep :: reports), t'.
    assert (Hle : List.length (Analyze.total_users_all (Analyze.tally_amount amount ud t))
                  <= List.length (Analyze.total_users_all t')).
    { now apply NoDup_incl_length. }
    cbn [subscribers_over_tiers fold_right flat_map List.length].
    fold (subscribers_over_tiers reports).
    repeat split; auto.
    + eapply incl_tran; eassumption.
    + constructor; [| exact K6]. rewrite Htu. lia.
    + rewrite Htu. lia.
    + rewrite K8, H7, <- app_assoc. reflexivity.
    + rewrite K9, H7, length_app, H8, Htu. lia.
Qed.


(** The overall report against the reports of the tiers: there is one
    report for each of the four amounts; overall, the cancelled users are
    at most the subscribers and the active users are never negative; no
    tier has more subscribers than there are overall, and overall there are
    at most as many as the tiers have together. *)
Theorem overall_figures_cover_the_tiers :
  forall messages,
    exists reports overall,
      Analyze.analyze_subscriptions messages = Py.Ok (reports, overall) /\
      List.length reports = 4 /\
      (Analyze.total_cancelled overall <= Analyze.total_users overall)%Z /\
      (0 <= Analyze.active_users overall)%Z /\
      Forall (fun r => (Analyze.total_users r <= Analyze.total_users overall)%Z) reports /\
      (Analyze.total_users overall <= subscribers_over_tiers reports)%Z.
Proof.
  intros messages. unfold Analyze.analyze_subscriptions.
  assert (Hn : NoDup (map fst (Analyze.user_data (Analyze.scan_all messages)))).
  { apply scan_all_nodup. constructor. }
  destruct (analyze_amounts_overall _ Analyze.amounts Hn Analyze.tally_initial)
    as (reports & t & -> & Hl & Hu & Hc & Hi & _ & Hf & Hs & _ & _).
  { constructor. } { constructor. } { intros x []. }
  cbn [Py.bind snd fst].
  destruct (rates_ok (Z.of_nat (List.length (Analyze.total_users_all t)))
              (Z.of_nat (List.length (Analyze.total_cancelled_all t)))
              (Analyze.total_renewals_all t)) as ([[c r] a] & ->).
  cbn [Py.bind]. eexists _, _. split; [reflexivity |].
  cbn [Analyze.total_users Analyze.total_cancelled Analyze.active_users].
  pose proof (NoDup_incl_length Hc Hi) as Hle.
  cbn [Analyze.tally_initial Analyze.total_users_all List.length] in Hs.
  repeat split; auto; lia.
Qed.

(** ** The analyzer against the first pass of the re-import *)

Lemma count_events_append (t : event_type) (u : string) (e : Reimport.event)
    (us : list (string * list Reimport.event)) :
  count_events t (all_events (Reimport.append_event u e us))
  = count_events t (all_events us) + count_events t [e].
Proof.
  unfold Reimport.append_event, all_events.
  induction us as [| [k l] r IH]; cbn [Py.dict_update flat_map snd].
  - rewrite app_nil_r. reflexivity.
  - destruct (String.eqb k u); cbn [flat_map snd]; rewrite !count_events_app.
    + lia.
    + rewrite IH. lia.
Qed.

Lemma collect_counts (t : event_type) (us : list (string * list Reimport.event))
    (m : message) :
  count_events t (all_events (Reimport.collect us m))
  = count_events t (all_events us) + count_events t (all_events (Reimport.collect [] m)).
Proof.
  rewrite (collect_raw_event us m), (collect_raw_event [] m).
  destruct (raw_event m) as [[u e] |].
  - rewrite !count_events_append. cbn. lia.
  - cbn. lia.
Qed.

Lemma first_pass_counts (t : event_type) (messages : list message) :
  forall us,
    count_events t (all_events (fold_left Reimport.collect messages us))
    = count_events t (all_events us)
      + list_sum (map (fun m => count_events t (all_events (Reimport.collect [] m)))
                      messages).
Proof.
  induction messages as [| m r IH]; intros us; cbn [fold_left map list_sum fold_right].
  - lia.
  - rewrite IH, collect_counts. fold (list_sum (map (fun m => count_events t (all_events (Reimport.collect [] m))) r)). lia.
Qed.

Lemma scan_counts (t : event_type) (st : Analyze.scan_state) (m : message) :
  scan_counter t (Analyze.scan st m)
  = scan_counter t st + scan_counter t (Analyze.scan Analyze.scan_initial m).
Proof.
  unfold Analyze.scan.
  destruct (extract_user_id m) as [uid |]; [| cbn; destruct t; cbn; lia].
  destruct (negb (Py.truthy_str uid)); [cbn; destruct t; cbn; lia |].
  destruct (Py.contains created_phrase (extract_text m)).
  { destruct (extract_amount m) as [a |]; [| cbn; destruct t; cbn; lia].
    destruct (Py.truthy_float a); destruct t; cbn; lia. }
  destruct (Py.contains renewed_phrase (extract_text m)).
  { destruct (extract_amount m) as [a |]; [| cbn; destruct t; cbn; lia].
    destruct (Py.truthy_float a); destruct t; cbn; lia. }
  destruct (Py.contains cancel_phrase (extract_text m) &&
            Py.contains subscription_noun (extract_text m));
    destruct t; cbn; lia.
Qed.

Lemma scan_all_counts (t : event_type) (messages : list message) :
  forall st,
    scan_counter t (fold_left Analyze.scan messages st)
    = scan_counter t st
      + list_sum (map (fun m => scan_counter t (Analyze.scan Analyze.scan_initial m))
                      messages).
Proof.
  induction messages as [| m r IH]; intros st; cbn [fold_left map list_sum fold_right].
  - lia.
  - rewrite IH, scan_counts. fold (list_sum (map (fun m => scan_counter t (Analyze.scan Analyze.scan_initial m)) r)). lia.
Qed.

(** One message: the first pass collects it when the analyzer counts it and
    it has a date. *)
Lemma collect_counts_dated (t : event_type) (m : message) :
  count_events t (all_events (Reimport.collect [] m))
  = if dated m then scan_counter t (Analyze.scan Analyze.scan_initial m) else 0.
Proof.
  unfold Reimport.collect, Analyze.scan, dated.
  destruct (extract_user_id m) as [uid |].
  2:{ destruct (Py.truthy_ostr (msg_date m)); destruct t; reflexivity. }
  destruct (msg_date m) as [d |]; cbn [Py.truthy_ostr]; [| reflexivity].
  destruct (Py.truthy_str uid); cbn [negb orb].
  2:{ destruct (Py.truthy_str d); destruct t; reflexivity. }
  destruct (Py.truthy_str d); cbn [negb]; [| reflexivity].
  destruct (Py.contains created_phrase (extract_text m)).
  { destruct (extract_amount m) as [a |]; cbn [Py.truthy_ofloat];
      [| destruct t; reflexivity].
    destruct (Py.truthy_float a); destruct t; reflexivity. }
  destruct (Py.contains renewed_phrase (extract_text m)).
  { destruct (extract_amount m) as [a |]; cbn [Py.truthy_ofloat];
      [| destruct t; reflexivity].
    destruct (Py.truthy_float a); destruct t; reflexivity. }
  destruct (Py.contains cancel_phrase (extract_text m) &&
            Py.contains subscription_noun (extract_text m));
    destruct t; reflexivity.
Qed.

Lemma list_sum_filter {A : Type} (p : A -> bool) (f : A -> nat) (l : list A) :
  list_sum (map f (filter p l)) = list_sum (map (fun x => if p x then f x else 0) l) /\
  list_sum (map f (filter p l)) <= list_sum (map f l).
Proof.
  induction l as [| x r [IH1 IH2]]; cbn [filter map list_sum fold_right]; [split; lia |].
  fold (list_sum (map f r)).
  fold (list_sum (map (fun x => if p x then f x else 0) r)).
  destruct (p x); cbn [map list_sum fold_right];
    fold (list_sum (map f (filter p r))); split; lia.
Qed.

(** The two scripts agree on what an event is, up to the date: the events
    the first pass of the re-import collects, type by type, are as many as
    the analyzer counts among the messages that have a non-empty date; the
    analyzer, which also takes messages without a date, counts at least as
    many over the whole log. *)
Theorem collected_events_are_the_dated_events_counted :
  forall messages t,
    count_events t (all_events (Reimport.first_pass messages))
      = scan_counter t (Analyze.scan_all (filter dated messages)) /\
    scan_counter t (Analyze.scan_all (filter dated messages))
      <= scan_counter t (Analyze.scan_all messages).
Proof.
  intros messages t. unfold Reimport.first_pass, Analyze.scan_all.
  rewrite first_pass_counts, !scan_all_counts.
  destruct (list_sum_filter dated
              (fun m => scan_counter t (Analyze.scan Analyze.scan_initial m)) messages)
    as [H1 H2].
  split.
  - rewrite H1. f_equal; [destruct t; reflexivity |].
    f_equal. apply map_ext. intros m. apply collect_counts_dated.
  - assert (H0 : scan_counter t Analyze.scan_initial = 0) by (destruct t; reflexivity).
    rewrite H0. cbn [Nat.add]. exact H2.
Qed.
